(** * Thermador UCVM36XS to Cloudline A6 fan translator

    A shallow embedding of the two sketches of the repository:

    - [Compact]: the compact five-level sketch
      (Arduino-Translator-For-Thermador-UCVM36XS-to-CLOUDLINE-A6-Fan.ino),
      four active-low speed wires, serial commands with a manual mode;
    - [Full]: the four-level sketch (three speed wires or one analog line,
      no manual mode).

    Both run on an ATmega328 (Arduino Nano): [int] is 16 bits wide,
    [unsigned long] is 32 bits wide and wraps around, [float] and [double]
    are both IEEE 754 binary32.  Timer 1 is programmed with ICR1 = 320 and
    the duty cycle is the compare register OCR1A. *)

From Stdlib Require Import ZArith List Bool Lia String.
From Stdlib Require Import Floats.SpecFloat.
Import ListNotations.

Local Open Scope Z_scope.

(** ** Failure: undefined behaviour of the sketch

    A table read outside its bounds or a float-to-integer conversion whose
    value does not fit is undefined in C; the embedding returns [None]. *)

Definition bind {A B : Type} (x : option A) (k : A -> option B) : option B :=
  match x with
  | Some a => k a
  | None => None
  end.

Notation "x <- e ;; k" := (bind e (fun x => k))
  (at level 61, e at next level, right associativity).

(** ** 32-bit unsigned arithmetic ([unsigned long], [millis()]) *)

Module U32.

Definition modulus : Z := 2 ^ 32.

Definition wrap (z : Z) : Z := z mod modulus.

Definition sub (a b : Z) : Z := wrap (a - b).

Definition add (a b : Z) : Z := wrap (a + b).

Definition in_range (z : Z) : Prop := 0 <= z < modulus.

(** Byte [k] (0 is the lowest) of a 32-bit value. *)
Definition byte (k z : Z) : Z := (z / 256 ^ k) mod 256.

(** A 32-bit read on the 8-bit ATmega328 is four byte loads, and an
    interrupt can be served between any two of them.  [read_bytes c seen]
    is the value assembled when the variable held [c] as the read began
    and byte [k] was loaded after [seen k] increments of it. *)
Definition read_bytes (c : Z) (seen : Z -> nat) : Z :=
  byte 0 (wrap (c + Z.of_nat (seen 0)))
  + 256 * byte 1 (wrap (c + Z.of_nat (seen 1)))
  + 65536 * byte 2 (wrap (c + Z.of_nat (seen 2)))
  + 16777216 * byte 3 (wrap (c + Z.of_nat (seen 3))).

End U32.

(** ** Tachometer interrupts during a window update

    [updateRPM] runs with interrupts enabled and reads the shared counter
    twice.  A schedule tells how many tachometer interrupts had been served,
    since the update began, when each byte of the first read (for the
    difference) and of the second read (for the marker) was loaded, and how
    many were served in all by the time the update ends. *)

Module Irq.

Record schedule : Type := mkSchedule {
  seen_delta : Z -> nat;
  seen_marker : Z -> nat;
  served : nat
}.

(** No interrupt is served before the second read is complete. *)
Definition quiet_reads (i : schedule) : Prop :=
  forall k, seen_delta i k = 0%nat /\ seen_marker i k = 0%nat.

(** [n] interrupts, all served after the first read is complete and before
    the second begins. *)
Definition between_reads (n : nat) : schedule :=
  mkSchedule (fun _ => 0%nat) (fun _ => n) n.

(** [n] interrupts, all served after the second read is complete. *)
Definition after_reads (n : nat) : schedule :=
  mkSchedule (fun _ => 0%nat) (fun _ => 0%nat) n.

(** One interrupt served after the lowest byte of the first read has been
    loaded and before its other bytes are. *)
Definition inside_first_read : schedule :=
  mkSchedule (fun k => if k =? 0 then 0%nat else 1%nat) (fun _ => 1%nat) 1.

End Irq.

(** ** binary32 arithmetic ([float] and [double] of avr-gcc)

    Round to nearest, ties to even, as specified by [SpecFloat]. *)

Module F32.

Definition prec : Z := 24.
Definition emax : Z := 128.

Definition float : Type := spec_float.

Definition add : float -> float -> float := SFadd prec emax.
Definition sub : float -> float -> float := SFsub prec emax.
Definition mul : float -> float -> float := SFmul prec emax.
Definition div : float -> float -> float := SFdiv prec emax.
Definition ltb : float -> float -> bool := SFltb.
Definition eqb : float -> float -> bool := SFeqb.

(** Conversion of an integer (the implicit [int] or [unsigned long] to
    [float] conversion of C). *)
Definition of_Z (z : Z) : float := binary_normalize prec emax z 0 false.

(** A decimal literal [num/den], rounded once to binary32. *)
Definition lit (num den : Z) : float := div (of_Z num) (of_Z den).

Definition zero : float := of_Z 0.
Definition one : float := of_Z 1.

(** Truncation toward zero of a finite value. *)
Definition trunc (x : float) : option Z :=
  match x with
  | S754_zero _ => Some 0
  | S754_finite s m e => Some (cond_Zopp s (Z.shiftl (Zpos m) e))
  | S754_infinity _ | S754_nan => None
  end.

(** [(uint16_t) x]: defined when the truncated value fits 16 bits. *)
Definition to_uint16 (x : float) : option Z :=
  z <- trunc x ;;
  if (0 <=? z) && (z <? 65536) then Some z else None.

(** [(int) x]: [int] is 16 bits wide; defined when the truncated value
    fits. *)
Definition to_int16 (x : float) : option Z :=
  z <- trunc x ;;
  if (-32768 <=? z) && (z <=? 32767) then Some z else None.

(** The integer a float denotes, when it denotes one. *)
Definition exact_Z (x : float) : option Z :=
  match x with
  | S754_zero _ => Some 0
  | S754_finite s m e =>
      if 0 <=? e then Some (cond_Zopp s (Z.shiftl (Zpos m) e))
      else if Z.land (Zpos m) (Z.ones (- e)) =? 0
           then Some (cond_Zopp s (Z.shiftr (Zpos m) (- e)))
           else None
  | S754_infinity _ | S754_nan => None
  end.

(** Arduino's [constrain(amt, low, high)] macro:
    [((amt)<(low)?(low):((amt)>(high)?(high):(amt)))]. *)
Definition constrain (amt low high : float) : float :=
  if ltb amt low then low else if ltb high amt then high else amt.

End F32.

(** ** The compact five-level sketch *)

Module Compact.

(** Pin numbers. *)
Definition PWM_PIN : Z := 9.
Definition TACH_PIN : Z := 2.
Definition LED_PIN : Z := 13.
Definition SPEED1_PIN : Z := 3.
Definition SPEED2_PIN : Z := 4.
Definition SPEED3_PIN : Z := 5.
Definition SPEED4_PIN : Z := 6.

(** [const float FAN_SPEEDS[] = {0.0, 0.25, 0.50, 0.75, 1.0};] *)
Definition FAN_SPEEDS : list F32.float :=
  [F32.zero; F32.lit 25 100; F32.lit 50 100; F32.lit 75 100; F32.one].

(** [FAN_SPEEDS[i]]; reading outside the array is undefined. *)
Definition FAN_SPEEDS_at (i : Z) : option F32.float :=
  if i <? 0 then None else nth_error FAN_SPEEDS (Z.to_nat i).

(** The globals, the function-local statics and the compare register.
    [pwm_log] is a ghost history of every value written to OCR1A, most
    recent first. *)
Record State : Type := mkState {
  currentSpeed : F32.float;
  speedLevel : Z;
  lastChange : Z;
  tachCount : Z;
  rpm : F32.float;
  manualMode : bool;
  lastUpdate : Z;          (* static in loop *)
  lastStatus : Z;          (* static in loop *)
  lastRPMTime : Z;         (* static in updateRPM *)
  lastCount : Z;           (* static in updateRPM *)
  OCR1A : Z;
  pwm_log : list Z
}.

Definition set_currentSpeed (v : F32.float) (s : State) : State :=
  mkState v (speedLevel s) (lastChange s) (tachCount s) (rpm s)
    (manualMode s) (lastUpdate s) (lastStatus s) (lastRPMTime s)
    (lastCount s) (OCR1A s) (pwm_log s).

Definition set_speedLevel (v : Z) (s : State) : State :=
  mkState (currentSpeed s) v (lastChange s) (tachCount s) (rpm s)
    (manualMode s) (lastUpdate s) (lastStatus s) (lastRPMTime s)
    (lastCount s) (OCR1A s) (pwm_log s).

Definition set_lastChange (v : Z) (s : State) : State :=
  mkState (currentSpeed s) (speedLevel s) v (tachCount s) (rpm s)
    (manualMode s) (lastUpdate s) (lastStatus s) (lastRPMTime s)
    (lastCount s) (OCR1A s) (pwm_log s).

Definition set_tachCount (v : Z) (s : State) : State :=
  mkState (currentSpeed s) (speedLevel s) (lastChange s) v (rpm s)
    (manualMode s) (lastUpdate s) (lastStatus s) (lastRPMTime s)
    (lastCount s) (OCR1A s) (pwm_log s).

Definition set_rpm (v : F32.float) (s : State) : State :=
  mkState (currentSpeed s) (speedLevel s) (lastChange s) (tachCount s) v
    (manualMode s) (lastUpdate s) (lastStatus s) (lastRPMTime s)
    (lastCount s) (OCR1A s) (pwm_log s).

Definition set_manualMode (v : bool) (s : State) : State :=
  mkState (currentSpeed s) (speedLevel s) (lastChange s) (tachCount s)
    (rpm s) v (lastUpdate s) (lastStatus s) (lastRPMTime s)
    (lastCount s) (OCR1A s) (pwm_log s).

Definition set_lastUpdate (v : Z) (s : State) : State :=
  mkState (currentSpeed s) (speedLevel s) (lastChange s) (tachCount s)
    (rpm s) (manualMode s) v (lastStatus s) (lastRPMTime s)
    (lastCount s) (OCR1A s) (pwm_log s).

Definition set_lastStatus (v : Z) (s : State) : State :=
  mkState (currentSpeed s) (speedLevel s) (lastChange s) (tachCount s)
    (rpm s) (manualMode s) (lastUpdate s) v (lastRPMTime s)
    (lastCount s) (OCR1A s) (pwm_log s).

Definition set_lastRPMTime (v : Z) (s : State) : State :=
  mkState (currentSpeed s) (speedLevel s) (lastChange s) (tachCount s)
    (rpm s) (manualMode s) (lastUpdate s) (lastStatus s) v
    (lastCount s) (OCR1A s) (pwm_log s).

Definition set_lastCount (v : Z) (s : State) : State :=
  mkState (currentSpeed s) (speedLevel s) (lastChange s) (tachCount s)
    (rpm s) (manualMode s) (lastUpdate s) (lastStatus s) (lastRPMTime s)
    v (OCR1A s) (pwm_log s).

(** [OCR1A = v;] *)
Definition write_OCR1A (v : Z) (s : State) : State :=
  mkState (currentSpeed s) (speedLevel s) (lastChange s) (tachCount s)
    (rpm s) (manualMode s) (lastUpdate s) (lastStatus s) (lastRPMTime s)
    (lastCount s) v (v :: pwm_log s).

(** [readSpeedLevel]: the wires are active low, [digitalRead] gives the
    pin's level ([true] for HIGH). *)
Definition readSpeedLevel (digitalRead : Z -> bool) : Z :=
  if negb (digitalRead SPEED4_PIN) then 4
  else if negb (digitalRead SPEED3_PIN) then 3
  else if negb (digitalRead SPEED2_PIN) then 2
  else if negb (digitalRead SPEED1_PIN) then 1
  else 0.

(** [setFanSpeed] *)
Definition setFanSpeed (speed : F32.float) (s : State) : option State :=
  let speed := F32.constrain speed F32.zero F32.one in
  let s := set_currentSpeed speed s in
  if F32.eqb speed (F32.of_Z 0) then Some (write_OCR1A 0 s)
  else
    let scaled := F32.add (F32.lit 20 100) (F32.mul speed (F32.lit 80 100)) in
    d <- F32.to_uint16 (F32.mul (F32.of_Z 320) scaled) ;;
    Some (write_OCR1A d s).

(** The value [setFanSpeed(speed)] stores in OCR1A. *)
Definition dutyOf (speed : F32.float) : option Z :=
  let speed := F32.constrain speed F32.zero F32.one in
  if F32.eqb speed (F32.of_Z 0) then Some 0
  else
    let scaled := F32.add (F32.lit 20 100) (F32.mul speed (F32.lit 80 100)) in
    F32.to_uint16 (F32.mul (F32.of_Z 320) scaled).

(** [tachISR] *)
Definition tachISR (s : State) : State :=
  set_tachCount (U32.add (tachCount s) 1) s.

(** [updateRPM], with [irq] tachometer interrupts served after the read
    of [tachCount] for the difference is complete and before its read for
    [lastCount] begins; each read is taken here as a whole (the byte loads
    of a read are told apart in [updateRPM_bytes] below). *)
Definition updateRPM_irq (irq : nat) (now : Z) (s : State) : State :=
  if 1000 <=? U32.sub now (lastRPMTime s) then
    let pulses := U32.sub (tachCount s) (lastCount s) in
    let s := set_rpm (F32.div (F32.mul (F32.of_Z pulses) (F32.lit 60 1))
                              (F32.lit 2 1)) s in
    let s := Nat.iter irq tachISR s in
    let s := set_lastCount (tachCount s) s in
    set_lastRPMTime now s
  else s.

(** [updateRPM] when no interrupt falls inside it. *)
Definition updateRPM (now : Z) (s : State) : State := updateRPM_irq 0 now s.

(** [updateRPM] under an interrupt schedule, with both reads of
    [tachCount] as four byte loads. *)
Definition updateRPM_bytes (i : Irq.schedule) (now : Z) (s : State) : State :=
  if 1000 <=? U32.sub now (lastRPMTime s) then
    let pulses :=
      U32.sub (U32.read_bytes (tachCount s) (Irq.seen_delta i))
              (lastCount s) in
    let marker := U32.read_bytes (tachCount s) (Irq.seen_marker i) in
    let s := set_rpm (F32.div (F32.mul (F32.of_Z pulses) (F32.lit 60 1))
                              (F32.lit 2 1)) s in
    let s := Nat.iter (Irq.served i) tachISR s in
    let s := set_lastCount marker s in
    set_lastRPMTime now s
  else s.

(** [runTest]: the [for] loop over the five table entries, then off. *)
Fixpoint runTest_loop (indices : list Z) (s : State) : option State :=
  match indices with
  | [] => Some s
  | i :: rest =>
      speed <- FAN_SPEEDS_at i ;;
      s <- setFanSpeed speed s ;;
      runTest_loop rest s
  end.

Definition runTest (s : State) : option State :=
  s <- runTest_loop [0; 1; 2; 3; 4] s ;;
  s <- setFanSpeed (F32.of_Z 0) s ;;
  Some (set_speedLevel 0 s).

(** One manual speed command: [speedLevel = n; setFanSpeed(FAN_SPEEDS[n]);
    manualMode = true;]. *)
Definition manualCommand (n : Z) (s : State) : option State :=
  let s := set_speedLevel n s in
  speed <- FAN_SPEEDS_at n ;;
  s <- setFanSpeed speed s ;;
  Some (set_manualMode true s).

(** [handleCommands]: [serial] is [None] when no input is available,
    otherwise the line read, trimmed and lower-cased.  Only the updates of
    the state are modelled: what the branches print, in particular
    [printDetailedStatus] with its [(int)rpm] conversion in the "status"
    branch, is left out, so [Some] tells that the state updates are
    defined, not that every print is. *)
Definition handleCommands (serial : option string) (s : State) : option State :=
  match serial with
  | None => Some s
  | Some cmd =>
      if String.eqb cmd "off" then manualCommand 0 s
      else if String.eqb cmd "low" then manualCommand 1 s
      else if String.eqb cmd "medium" then manualCommand 2 s
      else if String.eqb cmd "high" then manualCommand 3 s
      else if String.eqb cmd "max" then manualCommand 4 s
      else if String.eqb cmd "auto" then Some (set_manualMode false s)
      else if String.eqb cmd "status" then Some s
      else if String.eqb cmd "test" then runTest s
      else if String.eqb cmd "help" then Some s
      else Some s
  end.

(** The input check of [loop] (lines 56 to 70). *)
Definition checkInputs (now : Z) (digitalRead : Z -> bool) (s : State)
  : option State :=
  if (50 <? U32.sub now (lastUpdate s)) && negb (manualMode s) then
    let s := set_lastUpdate now s in
    let newLevel := readSpeedLevel digitalRead in
    s <- (if negb (newLevel =? speedLevel s)
             && (100 <? U32.sub now (lastChange s))
          then
            let s := set_speedLevel newLevel s in
            speed <- FAN_SPEEDS_at (speedLevel s) ;;
            s <- setFanSpeed speed s ;;
            Some (set_lastChange now s)
          else Some s) ;;
    Some (updateRPM now s)
  else Some s.

(** One pass of [loop].  [now] stands for every reading of [millis()]
    made during the pass: the clock is taken not to advance within a pass,
    and it is free between passes (the delays of the test routine fall
    between this pass and the next).  Serial output and the status LED are
    not part of the state. *)
Definition loop (now : Z) (digitalRead : Z -> bool) (serial : option string)
    (s : State) : option State :=
  s <- checkInputs now digitalRead s ;;
  let s := if 3000 <? U32.sub now (lastStatus s)
           then set_lastStatus now s else s in
  handleCommands serial s.

(** [setup]: the initial values of the globals, [OCR1A = 0] and
    [setFanSpeed(0.0)]. *)
Definition power_on : State :=
  mkState F32.zero 0 0 0 (F32.of_Z 0) false 0 0 0 0 0 [0].

Definition setup : option State := setFanSpeed F32.zero power_on.

(** What happens to the controller: a tachometer edge, or a pass of
    [loop]. *)
Inductive Event : Type :=
| TachEdge
| Pass (now : Z) (digitalRead : Z -> bool) (serial : option string).

Definition step (s : State) (ev : Event) : option State :=
  match ev with
  | TachEdge => Some (tachISR s)
  | Pass now digitalRead serial => loop now digitalRead serial s
  end.

Fixpoint run (s : State) (evs : list Event) : option State :=
  match evs with
  | [] => Some s
  | ev :: evs' => s' <- step s ev ;; run s' evs'
  end.

(** The states the sketch can be in between two events. *)
Definition reachable (s : State) : Prop :=
  exists s0 evs, setup = Some s0 /\ run s0 evs = Some s.

(** The level-to-duty mapping: the value left in OCR1A by
    [setFanSpeed(FAN_SPEEDS[level])]. *)
Definition toDuty (level : Z) : option Z :=
  speed <- FAN_SPEEDS_at level ;;
  s <- setFanSpeed speed power_on ;;
  Some (OCR1A s).

(** The [switch] of [updateLED]: the blink interval of each level. *)
Definition ledInterval (level : Z) : Z :=
  if level =? 1 then 1000
  else if level =? 2 then 500
  else if level =? 3 then 250
  else if level =? 4 then 100
  else 2000.

(** [updateLED]: the value written to the LED pin,
    [(millis() / interval) % 2]. *)
Definition updateLED (now : Z) (s : State) : Z :=
  (now / ledInterval (speedLevel s)) mod 2.

(** [getSpeedName] *)
Definition getSpeedName (s : State) : string :=
  if speedLevel s =? 0 then "OFF"
  else if speedLevel s =? 1 then "LOW"
  else if speedLevel s =? 2 then "MEDIUM"
  else if speedLevel s =? 3 then "HIGH"
  else if speedLevel s =? 4 then "MAX"
  else "UNKNOWN".

(** [printStatus]: the three numbers it prints, the level,
    [(int)(currentSpeed * 100)] and [(int)rpm]. *)
Definition printStatus (s : State) : option (Z * Z * Z) :=
  percent <- F32.to_int16 (F32.mul (currentSpeed s) (F32.of_Z 100)) ;;
  r <- F32.to_int16 (rpm s) ;;
  Some (speedLevel s, percent, r).

End Compact.

(** ** The four-level sketch *)

Module Full.

Definition CLOUDLINE_PWM_PIN : Z := 9.
Definition CLOUDLINE_TACH_PIN : Z := 2.
Definition STATUS_LED_PIN : Z := 13.
Definition THERMADOR_SPEED1_PIN : Z := 3.
Definition THERMADOR_SPEED2_PIN : Z := 4.
Definition THERMADOR_SPEED3_PIN : Z := 5.
Definition THERMADOR_COMMON_PIN : Z := 6.
Definition THERMADOR_ANALOG_PIN : Z := 14.   (* A0 *)

Definition FAN_OFF : F32.float := F32.zero.          (* 0.0f *)
Definition FAN_LOW : F32.float := F32.lit 3 10.      (* 0.3f *)
Definition FAN_MEDIUM : F32.float := F32.lit 6 10.   (* 0.6f *)
Definition FAN_HIGH : F32.float := F32.one.          (* 1.0f *)

Definition CONTROL_MODE_DIGITAL : Z := 1.
Definition CONTROL_MODE_ANALOG : Z := 2.

(** [unsigned long debounceDelay = 50;], never assigned afterwards. *)
Definition debounceDelay : Z := 50.

(** The globals that the sketch uses, the statics and the compare
    register; [lastDebounceTime] and [lastSpeedReading] are declared but
    never read or written.  [pwm_log] is the ghost history of OCR1A. *)
Record State : Type := mkState {
  currentFanSpeed : F32.float;
  currentSpeedLevel : Z;
  lastSpeedChange : Z;
  tachPulseCount : Z;
  currentRPM : F32.float;
  lastUpdate : Z;          (* static in loop *)
  lastStatusPrint : Z;     (* static in loop *)
  lastRPMUpdate : Z;       (* static in updateRPM *)
  lastPulseCount : Z;      (* static in updateRPM *)
  OCR1A : Z;
  pwm_log : list Z
}.

Definition set_currentFanSpeed (v : F32.float) (s : State) : State :=
  mkState v (currentSpeedLevel s) (lastSpeedChange s) (tachPulseCount s)
    (currentRPM s) (lastUpdate s) (lastStatusPrint s) (lastRPMUpdate s)
    (lastPulseCount s) (OCR1A s) (pwm_log s).

Definition set_currentSpeedLevel (v : Z) (s : State) : State :=
  mkState (currentFanSpeed s) v (lastSpeedChange s) (tachPulseCount s)
    (currentRPM s) (lastUpdate s) (lastStatusPrint s) (lastRPMUpdate s)
    (lastPulseCount s) (OCR1A s) (pwm_log s).

Definition set_lastSpeedChange (v : Z) (s : State) : State :=
  mkState (currentFanSpeed s) (currentSpeedLevel s) v (tachPulseCount s)
    (currentRPM s) (lastUpdate s) (lastStatusPrint s) (lastRPMUpdate s)
    (lastPulseCount s) (OCR1A s) (pwm_log s).

Definition set_tachPulseCount (v : Z) (s : State) : State :=
  mkState (currentFanSpeed s) (currentSpeedLevel s) (lastSpeedChange s) v
    (currentRPM s) (lastUpdate s) (lastStatusPrint s) (lastRPMUpdate s)
    (lastPulseCount s) (OCR1A s) (pwm_log s).

Definition set_currentRPM (v : F32.float) (s : State) : State :=
  mkState (currentFanSpeed s) (currentSpeedLevel s) (lastSpeedChange s)
    (tachPulseCount s) v (lastUpdate s) (lastStatusPrint s)
    (lastRPMUpdate s) (lastPulseCount s) (OCR1A s) (pwm_log s).

Definition set_lastUpdate (v : Z) (s : State) : State :=
  mkState (currentFanSpeed s) (currentSpeedLevel s) (lastSpeedChange s)
    (tachPulseCount s) (currentRPM s) v (lastStatusPrint s)
    (lastRPMUpdate s) (lastPulseCount s) (OCR1A s) (pwm_log s).

Definition set_lastStatusPrint (v : Z) (s : State) : State :=
  mkState (currentFanSpeed s) (currentSpeedLevel s) (lastSpeedChange s)
    (tachPulseCount s) (currentRPM s) (lastUpdate s) v
    (lastRPMUpdate s) (lastPulseCount s) (OCR1A s) (pwm_log s).

Definition set_lastRPMUpdate (v : Z) (s : State) : State :=
  mkState (currentFanSpeed s) (currentSpeedLevel s) (lastSpeedChange s)
    (tachPulseCount s) (currentRPM s) (lastUpdate s) (lastStatusPrint s)
    v (lastPulseCount s) (OCR1A s) (pwm_log s).

Definition set_lastPulseCount (v : Z) (s : State) : State :=
  mkState (currentFanSpeed s) (currentSpeedLevel s) (lastSpeedChange s)
    (tachPulseCount s) (currentRPM s) (lastUpdate s) (lastStatusPrint s)
    (lastRPMUpdate s) v (OCR1A s) (pwm_log s).

(** [OCR1A = v;] *)
Definition write_OCR1A (v : Z) (s : State) : State :=
  mkState (currentFanSpeed s) (currentSpeedLevel s) (lastSpeedChange s)
    (tachPulseCount s) (currentRPM s) (lastUpdate s) (lastStatusPrint s)
    (lastRPMUpdate s) (lastPulseCount s) v (v :: pwm_log s).

(** [setCloudlineSpeed] *)
Definition setCloudlineSpeed (speed : F32.float) (s : State) : option State :=
  let speed := F32.constrain speed F32.zero F32.one in
  let s := set_currentFanSpeed speed s in
  if F32.eqb speed (F32.of_Z 0) then Some (write_OCR1A 0 s)
  else
    let minDuty := F32.lit 20 100 in
    let scaledSpeed :=
      F32.add minDuty (F32.mul speed (F32.sub F32.one minDuty)) in
    d <- F32.to_uint16 (F32.mul (F32.of_Z 320) scaledSpeed) ;;
    Some (write_OCR1A d s).

(** The value [setCloudlineSpeed(speed)] stores in OCR1A. *)
Definition dutyOf (speed : F32.float) : option Z :=
  let speed := F32.constrain speed F32.zero F32.one in
  if F32.eqb speed (F32.of_Z 0) then Some 0
  else
    let minDuty := F32.lit 20 100 in
    let scaledSpeed :=
      F32.add minDuty (F32.mul speed (F32.sub F32.one minDuty)) in
    F32.to_uint16 (F32.mul (F32.of_Z 320) scaledSpeed).

(** The [switch] of [updateCloudlineSpeed]. *)
Definition targetSpeed (level : Z) : F32.float :=
  if level =? 0 then FAN_OFF
  else if level =? 1 then FAN_LOW
  else if level =? 2 then FAN_MEDIUM
  else if level =? 3 then FAN_HIGH
  else FAN_OFF.

(** [updateCloudlineSpeed] *)
Definition updateCloudlineSpeed (s : State) : option State :=
  setCloudlineSpeed (targetSpeed (currentSpeedLevel s)) s.

(** [tachISR] *)
Definition tachISR (s : State) : State :=
  set_tachPulseCount (U32.add (tachPulseCount s) 1) s.

(** [updateRPM], with [irq] tachometer interrupts served after the first
    read of [tachPulseCount] is complete and before the second begins; each
    read is taken here as a whole. *)
Definition updateRPM_irq (irq : nat) (now : Z) (s : State) : State :=
  if 1000 <=? U32.sub now (lastRPMUpdate s) then
    let pulsesSinceLastUpdate :=
      U32.sub (tachPulseCount s) (lastPulseCount s) in
    let s := set_currentRPM
               (F32.div (F32.mul (F32.of_Z pulsesSinceLastUpdate)
                                 (F32.lit 60 1))
                        (F32.lit 2 1)) s in
    let s := Nat.iter irq tachISR s in
    let s := set_lastPulseCount (tachPulseCount s) s in
    set_lastRPMUpdate now s
  else s.

Definition updateRPM (now : Z) (s : State) : State := updateRPM_irq 0 now s.

(** [updateRPM] under an interrupt schedule, with both reads of
    [tachPulseCount] as four byte loads. *)
Definition updateRPM_bytes (i : Irq.schedule) (now : Z) (s : State) : State :=
  if 1000 <=? U32.sub now (lastRPMUpdate s) then
    let pulsesSinceLastUpdate :=
      U32.sub (U32.read_bytes (tachPulseCount s) (Irq.seen_delta i))
              (lastPulseCount s) in
    let marker := U32.read_bytes (tachPulseCount s) (Irq.seen_marker i) in
    let s := set_currentRPM
               (F32.div (F32.mul (F32.of_Z pulsesSinceLastUpdate)
                                 (F32.lit 60 1))
                        (F32.lit 2 1)) s in
    let s := Nat.iter (Irq.served i) tachISR s in
    let s := set_lastPulseCount marker s in
    set_lastRPMUpdate now s
  else s.

(** [runSpeedTest] *)
Definition runSpeedTest (s : State) : option State :=
  s <- setCloudlineSpeed FAN_OFF s ;;
  s <- setCloudlineSpeed FAN_LOW s ;;
  s <- setCloudlineSpeed FAN_MEDIUM s ;;
  s <- setCloudlineSpeed FAN_HIGH s ;;
  s <- setCloudlineSpeed FAN_OFF s ;;
  Some (set_currentSpeedLevel 0 s).

(** [handleSerialCommands]; as in the compact sketch only the updates of
    the state are modelled, not what the branches print. *)
Definition handleSerialCommands (serial : option string) (s : State)
  : option State :=
  match serial with
  | None => Some s
  | Some command =>
      if String.eqb command "off"
      then updateCloudlineSpeed (set_currentSpeedLevel 0 s)
      else if String.eqb command "low"
      then updateCloudlineSpeed (set_currentSpeedLevel 1 s)
      else if String.eqb command "medium"
      then updateCloudlineSpeed (set_currentSpeedLevel 2 s)
      else if String.eqb command "high"
      then updateCloudlineSpeed (set_currentSpeedLevel 3 s)
      else if String.eqb command "status" then Some s
      else if String.eqb command "test" then runSpeedTest s
      else if String.eqb command "help" then Some s
      else Some s
  end.

(** The [switch] of [updateStatusLED]. *)
Definition blinkInterval (level : Z) : Z :=
  if level =? 0 then 2000
  else if level =? 1 then 1000
  else if level =? 2 then 500
  else if level =? 3 then 200
  else 2000.

(** [updateStatusLED]: the value written to the LED pin. *)
Definition updateStatusLED (now : Z) (s : State) : Z :=
  (now / blinkInterval (currentSpeedLevel s)) mod 2.

(** [getSpeedName] *)
Definition getSpeedName (level : Z) : string :=
  if level =? 0 then "OFF"
  else if level =? 1 then "LOW"
  else if level =? 2 then "MEDIUM"
  else if level =? 3 then "HIGH"
  else "UNKNOWN".

Section ControlMode.

(** [#define CONTROL_MODE ...], chosen when the sketch is built. *)
Variable CONTROL_MODE : Z.

(** [readThermadorSpeed] *)
Definition readThermadorSpeed (digitalRead : Z -> bool)
    (analogRead : Z -> Z) : Z :=
  if CONTROL_MODE =? CONTROL_MODE_DIGITAL then
    let speed1 := negb (digitalRead THERMADOR_SPEED1_PIN) in
    let speed2 := negb (digitalRead THERMADOR_SPEED2_PIN) in
    let speed3 := negb (digitalRead THERMADOR_SPEED3_PIN) in
    if speed3 then 3
    else if speed2 then 2
    else if speed1 then 1
    else 0
  else
    let analogValue := analogRead THERMADOR_ANALOG_PIN in
    if analogValue <? 100 then 0
    else if analogValue <? 300 then 1
    else if analogValue <? 600 then 2
    else 3.

(** The input check of [loop] (lines 91 to 110). *)
Definition checkInputs (now : Z) (digitalRead : Z -> bool)
    (analogRead : Z -> Z) (s : State) : option State :=
  if 50 <? U32.sub now (lastUpdate s) then
    let s := set_lastUpdate now s in
    let newSpeedLevel := readThermadorSpeed digitalRead analogRead in
    s <- (if negb (newSpeedLevel =? currentSpeedLevel s) then
            if debounceDelay <? U32.sub now (lastSpeedChange s) then
              let s := set_currentSpeedLevel newSpeedLevel s in
              s <- updateCloudlineSpeed s ;;
              Some (set_lastSpeedChange now s)
            else Some s
          else Some s) ;;
    Some (updateRPM now s)
  else Some s.

(** One pass of [loop], with the same reading of the clock as in the
    compact sketch. *)
Definition loop (now : Z) (digitalRead : Z -> bool) (analogRead : Z -> Z)
    (serial : option string) (s : State) : option State :=
  s <- checkInputs now digitalRead analogRead s ;;
  let s := if 5000 <? U32.sub now (lastStatusPrint s)
           then set_lastStatusPrint now s else s in
  handleSerialCommands serial s.

Inductive Event : Type :=
| TachEdge
| Pass (now : Z) (digitalRead : Z -> bool) (analogRead : Z -> Z)
    (serial : option string).

Definition step (s : State) (ev : Event) : option State :=
  match ev with
  | TachEdge => Some (tachISR s)
  | Pass now digitalRead analogRead serial =>
      loop now digitalRead analogRead serial s
  end.

Fixpoint run (s : State) (evs : list Event) : option State :=
  match evs with
  | [] => Some s
  | ev :: evs' => s' <- step s ev ;; run s' evs'
  end.

End ControlMode.

(** [setup]: initial globals, [setupCloudlinePWM] and
    [setCloudlineSpeed(FAN_OFF)]. *)
Definition power_on : State :=
  mkState F32.zero 0 0 0 (F32.of_Z 0) 0 0 0 0 0 [0].

Definition setup : option State := setCloudlineSpeed FAN_OFF power_on.

Definition reachable (CONTROL_MODE : Z) (s : State) : Prop :=
  exists s0 evs, setup = Some s0 /\ run CONTROL_MODE s0 evs = Some s.

(** The level-to-duty mapping: the value left in OCR1A by
    [updateCloudlineSpeed] at that level. *)
Definition toDuty (level : Z) : option Z :=
  s <- updateCloudlineSpeed (set_currentSpeedLevel level power_on) ;;
  Some (OCR1A s).

End Full.

(** ** Vocabulary of the specification *)

(** The PWM period (ICR1) and the duty floor [minDutyFraction * TOP]. *)
Definition TOP : Z := 320.
Definition minDuty : Z := 64.

(** A duty value that is either off or at least the floor. *)
Definition duty_ok (d : Z) : Prop := d = 0 \/ minDuty <= d <= TOP.

(** The level a manual speed command of the compact sketch asks for. *)
Definition commandLevel (cmd : string) : option Z :=
  if String.eqb cmd "off" then Some 0
  else if String.eqb cmd "low" then Some 1
  else if String.eqb cmd "medium" then Some 2
  else if String.eqb cmd "high" then Some 3
  else if String.eqb cmd "max" then Some 4
  else None.

(** Serial input that is neither a speed command nor "auto" nor "test":
    nothing available, "status", "help" or an unknown line. *)
Definition passive (serial : option string) : bool :=
  match serial with
  | None => true
  | Some cmd =>
      match commandLevel cmd with
      | Some _ => false
      | None => negb (String.eqb cmd "auto") && negb (String.eqb cmd "test")
      end
  end.

(** The two guards of the input check of the compact sketch: a sample is
    due, and the sampled level is accepted. *)
Definition sampleDue (now : Z) (s : Compact.State) : bool :=
  (50 <? U32.sub now (Compact.lastUpdate s)) && negb (Compact.manualMode s).

Definition accepted (now : Z) (digitalRead : Z -> bool) (s : Compact.State)
  : bool :=
  negb (Compact.readSpeedLevel digitalRead =? Compact.speedLevel s)
  && (100 <? U32.sub now (Compact.lastChange s)).

(** The state invariant of the compact sketch: the level indexes the
    table, OCR1A holds the duty of the level, and every duty ever written
    is admissible. *)
Definition compact_inv (s : Compact.State) : Prop :=
  0 <= Compact.speedLevel s <= 4 /\
  Compact.toDuty (Compact.speedLevel s) = Some (Compact.OCR1A s) /\
  Forall duty_ok (Compact.pwm_log s).

(** The same vocabulary for the four-level sketch. *)
Definition full_commandLevel (command : string) : option Z :=
  if String.eqb command "off" then Some 0
  else if String.eqb command "low" then Some 1
  else if String.eqb command "medium" then Some 2
  else if String.eqb command "high" then Some 3
  else None.

Definition full_sampleDue (now : Z) (s : Full.State) : bool :=
  50 <? U32.sub now (Full.lastUpdate s).

Definition full_accepted (mode now : Z) (digitalRead : Z -> bool)
    (analogRead : Z -> Z) (s : Full.State) : bool :=
  negb (Full.readThermadorSpeed mode digitalRead analogRead
        =? Full.currentSpeedLevel s)
  && (Full.debounceDelay <? U32.sub now (Full.lastSpeedChange s)).

Definition full_inv (s : Full.State) : Prop :=
  0 <= Full.currentSpeedLevel s <= 3 /\
  Full.toDuty (Full.currentSpeedLevel s) = Some (Full.OCR1A s) /\
  Forall duty_ok (Full.pwm_log s).

(** A speed line is asserted when its pin reads LOW. *)
Definition asserted (digitalRead : Z -> bool) (pin : Z) : bool :=
  negb (digitalRead pin).

(** The specification's sampler: the highest tier among the asserted
    lines, 0 when none is asserted.  [lines] pairs each tier with its pin. *)
Fixpoint highest_asserted (digitalRead : Z -> bool) (lines : list (Z * Z))
  : Z :=
  match lines with
  | [] => 0
  | (tier, pin) :: rest =>
      if asserted digitalRead pin
      then Z.max tier (highest_asserted digitalRead rest)
      else highest_asserted digitalRead rest
  end.

Definition compact_lines : list (Z * Z) :=
  [(1, Compact.SPEED1_PIN); (2, Compact.SPEED2_PIN);
   (3, Compact.SPEED3_PIN); (4, Compact.SPEED4_PIN)].

Definition full_lines : list (Z * Z) :=
  [(1, Full.THERMADOR_SPEED1_PIN); (2, Full.THERMADOR_SPEED2_PIN);
   (3, Full.THERMADOR_SPEED3_PIN)].

(** Pin levels used in examples: every line released, or exactly the
    lines on the listed pins asserted. *)
Definition released : Z -> bool := fun _ => true.

Definition assert_pins (pins : list Z) : Z -> bool :=
  fun pin => negb (existsb (Z.eqb pin) pins).

Definition no_analog : Z -> Z := fun _ => 0.

(** A run of the compact sketch used in examples: the LOW wire is
    asserted throughout; the level follows it at 200 ms; "high" is typed at
    210 ms and "auto" at 220 ms; the next sample is taken at 260 ms. *)
Definition compact_demo : list Compact.Event :=
  [Compact.Pass 200 (assert_pins [Compact.SPEED1_PIN]) None;
   Compact.Pass 210 (assert_pins [Compact.SPEED1_PIN]) (Some "high"%string);
   Compact.Pass 220 (assert_pins [Compact.SPEED1_PIN]) (Some "auto"%string);
   Compact.Pass 260 (assert_pins [Compact.SPEED1_PIN]) None].

(** A run of the four-level sketch with every wire released: "high" is
    typed at 200 ms and the next sample is taken at 260 ms. *)
Definition full_demo : list Full.Event :=
  [Full.Pass 200 released no_analog (Some "high"%string);
   Full.Pass 260 released no_analog None].

(** A run of the compact sketch: "high" is typed, then "test". *)
Definition compact_test_demo : list Compact.Event :=
  [Compact.Pass 100 released (Some "high"%string);
   Compact.Pass 200 released (Some "test"%string)].

(** The float both sketches compute from a pulse count:
    [(pulses * 60.0) / 2.0]. *)
Definition rpmOf (pulses : Z) : F32.float :=
  F32.div (F32.mul (F32.of_Z pulses) (F32.lit 60 1)) (F32.lit 2 1).

(** [float_is x v]: [x] is the positive binary32 number with a full
    24-bit significand whose value is [v]. *)
Definition float_is (x : F32.float) (v : Z) : Prop :=
  exists q e, x = S754_finite false q e /\
    Zpos (digits2_pos q) = 24 /\ -60 <= e <= 60 /\
    Zpos q * 2 ^ (e + 60) = v * 2 ^ 60.

(** The pulse delta a window update computes in a state. *)
Definition window_delta (s : Compact.State) : Z :=
  U32.sub (Compact.tachCount s) (Compact.lastCount s).

Definition full_window_delta (s : Full.State) : Z :=
  U32.sub (Full.tachPulseCount s) (Full.lastPulseCount s).

(** A fan turning at 3000 rpm for two seconds (100 edges, 2 per
    revolution, counted before the pass at 2000 ms), with the operator
    typing "low" first, or typing nothing. *)
Definition spin_manual : list Compact.Event :=
  Compact.Pass 100 released (Some "low"%string)
  :: repeat Compact.TachEdge 100
  ++ [Compact.Pass 2000 released None].

Definition spin_auto : list Compact.Event :=
  Compact.Pass 100 released None
  :: repeat Compact.TachEdge 100
  ++ [Compact.Pass 2000 released None].

(** A fan turning at 600 rpm (20 edges a second) during ten seconds of
    manual mode, then "auto" and the next pass. *)
Definition spin_resume : list Compact.Event :=
  Compact.Pass 100 released (Some "low"%string)
  :: repeat Compact.TachEdge 200
  ++ [Compact.Pass 10100 released (Some "auto"%string);
      Compact.Pass 10160 released None].

(** The states of the interrupted-window example: 100 edges counted, a
    due update during which one more edge is served between the two reads
    of the counter, then 99 further edges and the next due update. *)
Definition tach_100 : Compact.State :=
  Compact.set_tachCount 100 Compact.power_on.

Definition window1_interrupted : Compact.State :=
  Compact.updateRPM_irq 1 1000 tach_100.

Definition window2 : Compact.State :=
  Compact.updateRPM 2000 (Nat.iter 99 Compact.tachISR window1_interrupted).

(** Events that carry no speed, "auto" or "test" command. *)
Definition quiet (ev : Compact.Event) : bool :=
  match ev with
  | Compact.TachEdge => true
  | Compact.Pass _ _ serial => passive serial
  end.

(** A run of loop passes without serial input: each tick is the clock
    reading and the pin levels of one pass.  [changeTimes] lists the clock
    readings of the passes that changed the level. *)
Fixpoint changeTimes (s : Compact.State) (ticks : list (Z * (Z -> bool)))
  : list Z :=
  match ticks with
  | [] => []
  | (now, digitalRead) :: rest =>
      match Compact.loop now digitalRead None s with
      | Some s' =>
          (if Compact.speedLevel s' =? Compact.speedLevel s
           then [] else [now]) ++ changeTimes s' rest
      | None => []
      end
  end.

Fixpoint full_changeTimes (mode : Z) (s : Full.State)
    (ticks : list (Z * (Z -> bool) * (Z -> Z))) : list Z :=
  match ticks with
  | [] => []
  | (now, digitalRead, analogRead) :: rest =>
      match Full.loop mode now digitalRead analogRead None s with
      | Some s' =>
          (if Full.currentSpeedLevel s' =? Full.currentSpeedLevel s
           then [] else [now]) ++ full_changeTimes mode s' rest
      | None => []
      end
  end.

(** Clock readings that do not decrease, start at [t0] or later and do
    not wrap around. *)
Fixpoint clock_from {A : Type} (time : A -> Z) (t0 : Z) (ticks : list A)
  : Prop :=
  match ticks with
  | [] => True
  | tick :: rest =>
      t0 <= time tick < U32.modulus /\ clock_from time (time tick) rest
  end.

(** Times each more than [gap] after the one before, starting after
    [t0]. *)
Fixpoint spaced (gap t0 : Z) (ts : list Z) : Prop :=
  match ts with
  | [] => True
  | t :: ts' => gap < t - t0 /\ spaced gap t ts'
  end.

(** An oscillating input: LOW wire asserted and released on alternate
    passes, 60 ms apart. *)
Definition chatter : list (Z * (Z -> bool)) :=
  [(60, assert_pins [Compact.SPEED1_PIN]); (120, released);
   (180, assert_pins [Compact.SPEED1_PIN]); (240, released);
   (300, assert_pins [Compact.SPEED1_PIN]); (360, released)].

(** The level also determines the normalized speed kept in the state. *)
Definition compact_consistent (s : Compact.State) : Prop :=
  compact_inv s /\
  Compact.FAN_SPEEDS_at (Compact.speedLevel s)
  = Some (Compact.currentSpeed s).

Definition full_consistent (s : Full.State) : Prop :=
  full_inv s /\
  Full.currentFanSpeed s = Full.targetSpeed (Full.currentSpeedLevel s).

(** An analog line that reads [v] on every pin. *)
Definition analog_at (v : Z) : Z -> Z := fun _ => v.

(** 1118483 tachometer edges and no loop pass; 15 times that count no
    longer fits a 24-bit significand. *)
Definition many_edges : list Compact.Event :=
  repeat Compact.TachEdge (Z.to_nat 1118483).

(** * Basic facts *)

(** Split conjunctions only (never an existential). *)
Ltac split_and := repeat match goal with |- _ /\ _ => split end.

Lemma u32_sub_range (a b : Z) : 0 <= U32.sub a b < U32.modulus.
Proof.
  unfold U32.sub, U32.wrap. apply Z.mod_pos_bound. reflexivity.
Qed.

Lemma u32_sub_exact (a b : Z) :
  0 <= b <= a -> a < U32.modulus -> U32.sub a b = a - b.
Proof.
  intros Hb Ha. unfold U32.sub, U32.wrap. apply Z.mod_small. lia.
Qed.

Lemma u32_elapsed (t d : Z) :
  U32.in_range t -> 0 <= d < U32.modulus -> U32.sub (U32.add t d) t = d.
Proof.
  unfold U32.in_range, U32.sub, U32.add, U32.wrap. intros Ht Hd.
  rewrite Zminus_mod_idemp_l.
  replace (t + d - t) with d by lia. apply Z.mod_small. exact Hd.
Qed.

Lemma u32_bytes_whole (z : Z) :
  U32.in_range z ->
  U32.byte 0 z + 256 * U32.byte 1 z + 65536 * U32.byte 2 z
  + 16777216 * U32.byte 3 z = z.
Proof.
  unfold U32.in_range, U32.modulus, U32.byte. intros Hz.
  change (256 ^ 0) with 1. change (256 ^ 1) with 256.
  change (256 ^ 2) with (256 * 256).
  change (256 ^ 3) with (256 * 256 * 256).
  change (2 ^ 32) with 4294967296 in Hz.
  rewrite Z.div_1_r.
  rewrite <- !Z.div_div by lia.
  pose proof (Z.div_mod z 256 ltac:(lia)) as E0.
  pose proof (Z.div_mod (z / 256) 256 ltac:(lia)) as E1.
  pose proof (Z.div_mod (z / 256 / 256) 256 ltac:(lia)) as E2.
  assert (H3 : 0 <= z / 256 / 256 / 256 < 256).
  { split.
    - repeat apply Z.div_pos; lia.
    - repeat (apply Z.div_lt_upper_bound; [lia|]). lia. }
  rewrite (Z.mod_small (z / 256 / 256 / 256) 256) by exact H3.
  lia.
Qed.

(** A read during which the variable does not move gives its value. *)
Lemma u32_read_bytes_steady (c : Z) (seen : Z -> nat) (n : nat) :
  (forall k, seen k = n) ->
  U32.read_bytes c seen = U32.wrap (c + Z.of_nat n).
Proof.
  intros H. unfold U32.read_bytes. rewrite !H.
  apply u32_bytes_whole. unfold U32.in_range, U32.wrap.
  apply Z.mod_pos_bound. reflexivity.
Qed.

(** The floor is the truncated product of TOP and the literal 0.20. *)
Lemma minDuty_is_floor :
  F32.to_uint16 (F32.mul (F32.of_Z TOP) (F32.lit 20 100)) = Some minDuty.
Proof. vm_compute. reflexivity. Qed.

(** ** The duty mapping of the compact sketch *)

Lemma compact_FAN_SPEEDS_at_cases (i : Z) (speed : F32.float) :
  Compact.FAN_SPEEDS_at i = Some speed ->
  0 <= i <= 4 /\ nth_error Compact.FAN_SPEEDS (Z.to_nat i) = Some speed.
Proof.
  unfold Compact.FAN_SPEEDS_at. destruct (Z.ltb_spec i 0); [discriminate|].
  intros E. split; [|exact E].
  assert (Hlen : (Z.to_nat i < List.length Compact.FAN_SPEEDS)%nat).
  { apply nth_error_Some. rewrite E. discriminate. }
  simpl in Hlen. lia.
Qed.

Lemma compact_FAN_SPEEDS_at_total (i : Z) :
  0 <= i <= 4 -> exists speed, Compact.FAN_SPEEDS_at i = Some speed.
Proof.
  intros H.
  assert (C : i = 0 \/ i = 1 \/ i = 2 \/ i = 3 \/ i = 4) by lia.
  destruct C as [->|[->|[->|[->| ->]]]]; eexists; reflexivity.
Qed.

Lemma compact_setFanSpeed_dutyOf (speed : F32.float) (s : Compact.State) :
  Compact.setFanSpeed speed s =
  (d <- Compact.dutyOf speed ;;
   Some (Compact.write_OCR1A d
           (Compact.set_currentSpeed
              (F32.constrain speed F32.zero F32.one) s))).
Proof.
  unfold Compact.setFanSpeed, Compact.dutyOf.
  destruct (F32.eqb _ _); reflexivity.
Qed.

Lemma compact_toDuty_dutyOf (level : Z) :
  Compact.toDuty level =
  (speed <- Compact.FAN_SPEEDS_at level ;; Compact.dutyOf speed).
Proof.
  unfold Compact.toDuty.
  destruct (Compact.FAN_SPEEDS_at level) as [speed|]; simpl; [|reflexivity].
  rewrite compact_setFanSpeed_dutyOf.
  destruct (Compact.dutyOf speed); reflexivity.
Qed.

(** The five table entries and their duty values. *)
Lemma compact_toDuty_table :
  map Compact.toDuty [0; 1; 2; 3; 4] =
  [Some 0; Some 128; Some 192; Some 256; Some 320].
Proof. vm_compute. reflexivity. Qed.

Lemma compact_toDuty_cases (level : Z) :
  0 <= level <= 4 ->
  exists d, Compact.toDuty level = Some d /\
            d = (if level =? 0 then 0 else 64 * (level + 1)).
Proof.
  intros H.
  assert (C : level = 0 \/ level = 1 \/ level = 2 \/ level = 3 \/ level = 4)
    by lia.
  destruct C as [->|[->|[->|[->| ->]]]]; eexists; split;
    try (vm_compute; reflexivity).
Qed.

Lemma compact_table_duty_ok (i : Z) (speed : F32.float) :
  Compact.FAN_SPEEDS_at i = Some speed ->
  exists d, Compact.dutyOf speed = Some d /\ Compact.toDuty i = Some d /\
            duty_ok d.
Proof.
  intros E. pose proof (compact_FAN_SPEEDS_at_cases _ _ E) as [Hi _].
  destruct (compact_toDuty_cases i Hi) as (d & Hd & Hv).
  exists d. pose proof Hd as Hd'.
  rewrite compact_toDuty_dutyOf, E in Hd'. simpl in Hd'.
  repeat split; try assumption.
  unfold duty_ok, minDuty, TOP. destruct (Z.eqb_spec i 0); lia.
Qed.

(** ** What each operation of the compact sketch does to the state *)

Lemma compact_readSpeedLevel_range (digitalRead : Z -> bool) :
  0 <= Compact.readSpeedLevel digitalRead <= 4.
Proof.
  unfold Compact.readSpeedLevel.
  repeat match goal with |- context [if ?b then _ else _] => destruct b end;
    lia.
Qed.

Lemma compact_setFanSpeed_table (i : Z) (speed : F32.float)
    (s : Compact.State) :
  Compact.FAN_SPEEDS_at i = Some speed ->
  exists d, Compact.toDuty i = Some d /\ duty_ok d /\
    Compact.setFanSpeed speed s =
    Some (Compact.write_OCR1A d
            (Compact.set_currentSpeed
               (F32.constrain speed F32.zero F32.one) s)).
Proof.
  intros E. destruct (compact_table_duty_ok _ _ E) as (d & Hd & Ht & Hok).
  exists d. repeat split; try assumption.
  rewrite compact_setFanSpeed_dutyOf, Hd. reflexivity.
Qed.

(** The fields [updateRPM] leaves alone. *)
Lemma compact_updateRPM_frame (now : Z) (s : Compact.State) :
  Compact.speedLevel (Compact.updateRPM now s) = Compact.speedLevel s /\
  Compact.manualMode (Compact.updateRPM now s) = Compact.manualMode s /\
  Compact.lastChange (Compact.updateRPM now s) = Compact.lastChange s /\
  Compact.lastUpdate (Compact.updateRPM now s) = Compact.lastUpdate s /\
  Compact.OCR1A (Compact.updateRPM now s) = Compact.OCR1A s /\
  Compact.pwm_log (Compact.updateRPM now s) = Compact.pwm_log s /\
  Compact.tachCount (Compact.updateRPM now s) = Compact.tachCount s /\
  Compact.lastStatus (Compact.updateRPM now s) = Compact.lastStatus s.
Proof.
  unfold Compact.updateRPM, Compact.updateRPM_irq.
  destruct (1000 <=? _); simpl; tauto.
Qed.

(** A manual speed command with a level of the table. *)
Lemma compact_manualCommand_spec (n : Z) (s : Compact.State) :
  0 <= n <= 4 ->
  exists s' d, Compact.manualCommand n s = Some s' /\
    Compact.toDuty n = Some d /\ duty_ok d /\
    Compact.manualMode s' = true /\
    Compact.speedLevel s' = n /\
    Compact.OCR1A s' = d /\
    Compact.pwm_log s' = d :: Compact.pwm_log s /\
    Compact.lastChange s' = Compact.lastChange s /\
    Compact.lastUpdate s' = Compact.lastUpdate s /\
    Compact.tachCount s' = Compact.tachCount s /\
    Compact.rpm s' = Compact.rpm s /\
    Compact.lastCount s' = Compact.lastCount s /\
    Compact.lastRPMTime s' = Compact.lastRPMTime s.
Proof.
  intros Hn. destruct (compact_FAN_SPEEDS_at_total n Hn) as (speed & E).
  destruct (compact_setFanSpeed_table n speed (Compact.set_speedLevel n s) E)
    as (d & Hd & Hok & Hset).
  unfold Compact.manualCommand. rewrite E. simpl. rewrite Hset. simpl.
  eexists. exists d. repeat split; assumption.
Qed.

(** The test routine: six writes to OCR1A, then level 0. *)
Lemma compact_runTest_spec (s : Compact.State) :
  exists s', Compact.runTest s = Some s' /\
    Compact.speedLevel s' = 0 /\
    Compact.OCR1A s' = 0 /\
    Compact.pwm_log s' = [0; 320; 256; 192; 128; 0] ++ Compact.pwm_log s /\
    Compact.manualMode s' = Compact.manualMode s /\
    Compact.lastChange s' = Compact.lastChange s /\
    Compact.lastUpdate s' = Compact.lastUpdate s /\
    Compact.tachCount s' = Compact.tachCount s /\
    Compact.rpm s' = Compact.rpm s /\
    Compact.lastCount s' = Compact.lastCount s /\
    Compact.lastRPMTime s' = Compact.lastRPMTime s.
Proof.
  eexists. split; [vm_compute; reflexivity|].
  cbv beta iota delta [Compact.speedLevel Compact.OCR1A Compact.pwm_log
    Compact.manualMode Compact.lastChange Compact.lastUpdate
    Compact.tachCount Compact.rpm Compact.lastCount Compact.lastRPMTime app].
  split_and; reflexivity.
Qed.

Lemma commandLevel_range (cmd : string) (n : Z) :
  commandLevel cmd = Some n -> 0 <= n <= 4.
Proof.
  unfold commandLevel.
  repeat match goal with |- context [if ?b then _ else _] => destruct b end;
    intros E; inversion E; lia.
Qed.

Lemma compact_handleCommands_speed (cmd : string) (n : Z)
    (s : Compact.State) :
  commandLevel cmd = Some n ->
  Compact.handleCommands (Some cmd) s = Compact.manualCommand n s.
Proof.
  unfold commandLevel, Compact.handleCommands.
  repeat match goal with |- context [String.eqb cmd ?c] =>
           destruct (String.eqb cmd c) end;
    intros E; inversion E; reflexivity.
Qed.

Lemma compact_handleCommands_passive (serial : option string)
    (s : Compact.State) :
  passive serial = true -> Compact.handleCommands serial s = Some s.
Proof.
  destruct serial as [cmd|]; [|reflexivity].
  unfold passive, commandLevel, Compact.handleCommands.
  repeat match goal with |- context [String.eqb cmd ?c] =>
           destruct (String.eqb cmd c) end;
    simpl; intros E; try discriminate E; reflexivity.
Qed.

Lemma compact_handleCommands_cases (serial : option string)
    (s : Compact.State) :
  Compact.handleCommands serial s = Some s \/
  (exists cmd n, serial = Some cmd /\ commandLevel cmd = Some n /\
     Compact.handleCommands serial s = Compact.manualCommand n s) \/
  (serial = Some "auto"%string /\
     Compact.handleCommands serial s =
     Some (Compact.set_manualMode false s)) \/
  (serial = Some "test"%string /\
     Compact.handleCommands serial s = Compact.runTest s).
Proof.
  destruct serial as [cmd|]; [|left; reflexivity].
  destruct (commandLevel cmd) as [n|] eqn:En.
  { right; left. exists cmd, n. repeat split; try assumption.
    apply compact_handleCommands_speed; assumption. }
  destruct (String.eqb_spec cmd "auto") as [->|Ha].
  { right; right; left. split; reflexivity. }
  destruct (String.eqb_spec cmd "test") as [->|Ht].
  { right; right; right. split; reflexivity. }
  left. apply compact_handleCommands_passive. simpl. rewrite En.
  apply andb_true_iff; split; apply negb_true_iff; apply String.eqb_neq;
    assumption.
Qed.

(** Commands never touch the timers or the tachometer bookkeeping, write
    only admissible duties and leave a level of the table. *)
Lemma compact_handleCommands_effect (serial : option string)
    (s : Compact.State) :
  exists s', Compact.handleCommands serial s = Some s' /\
    Compact.lastChange s' = Compact.lastChange s /\
    Compact.lastUpdate s' = Compact.lastUpdate s /\
    Compact.tachCount s' = Compact.tachCount s /\
    Compact.rpm s' = Compact.rpm s /\
    Compact.lastCount s' = Compact.lastCount s /\
    Compact.lastRPMTime s' = Compact.lastRPMTime s /\
    (exists ds, Compact.pwm_log s' = ds ++ Compact.pwm_log s /\
                Forall duty_ok ds) /\
    ((Compact.speedLevel s' = Compact.speedLevel s /\
      Compact.OCR1A s' = Compact.OCR1A s) \/
     (0 <= Compact.speedLevel s' <= 4 /\
      Compact.toDuty (Compact.speedLevel s') = Some (Compact.OCR1A s'))).
Proof.
  destruct (compact_handleCommands_cases serial s)
    as [E|[(cmd & n & _ & Hn & E)|[(_ & E)|(_ & E)]]]; rewrite E.
  - exists s. split_and; try reflexivity; [|left; split; reflexivity].
    exists []. split; [reflexivity | constructor].
  - pose proof (commandLevel_range _ _ Hn) as Hr.
    destruct (compact_manualCommand_spec n s Hr)
      as (s' & d & Hs & Hd & Hok & Hm & Hl & Ho & Hp & Hrest).
    exists s'. split; [assumption|].
    split_and; try tauto; [|right; rewrite Hl, Ho; split; [lia|assumption]].
    exists [d]. split; [assumption | constructor; [assumption|constructor]].
  - eexists. split_and; try reflexivity; [|left; split; reflexivity].
    exists []. split; [reflexivity | constructor].
  - destruct (compact_runTest_spec s)
      as (s' & Hs & Hl & Ho & Hp & Hrest).
    exists s'. split; [assumption|].
    split_and; try tauto;
      [|right; rewrite Hl, Ho; split; [lia|reflexivity]].
    eexists. split; [exact Hp|].
    unfold duty_ok, minDuty, TOP. repeat constructor; lia.
Qed.

(** ** The input check of the compact sketch, case by case *)

Lemma compact_checkInputs_skip (now : Z) (digitalRead : Z -> bool)
    (s : Compact.State) :
  sampleDue now s = false -> Compact.checkInputs now digitalRead s = Some s.
Proof.
  unfold sampleDue, Compact.checkInputs. intros ->. reflexivity.
Qed.

Lemma compact_checkInputs_hold (now : Z) (digitalRead : Z -> bool)
    (s : Compact.State) :
  sampleDue now s = true -> accepted now digitalRead s = false ->
  Compact.checkInputs now digitalRead s =
  Some (Compact.updateRPM now (Compact.set_lastUpdate now s)).
Proof.
  unfold sampleDue, accepted, Compact.checkInputs. intros -> H.
  simpl. rewrite H. reflexivity.
Qed.

Lemma compact_checkInputs_change (now : Z) (digitalRead : Z -> bool)
    (s : Compact.State) :
  sampleDue now s = true -> accepted now digitalRead s = true ->
  exists d speed,
    Compact.toDuty (Compact.readSpeedLevel digitalRead) = Some d /\
    duty_ok d /\
    Compact.checkInputs now digitalRead s =
    Some (Compact.updateRPM now
            (Compact.set_lastChange now
               (Compact.write_OCR1A d
                  (Compact.set_currentSpeed speed
                     (Compact.set_speedLevel
                        (Compact.readSpeedLevel digitalRead)
                        (Compact.set_lastUpdate now s)))))).
Proof.
  unfold sampleDue, accepted, Compact.checkInputs. intros -> H.
  simpl. rewrite H.
  pose proof (compact_readSpeedLevel_range digitalRead) as Hr.
  destruct (compact_FAN_SPEEDS_at_total _ Hr) as (speed & E).
  destruct (compact_setFanSpeed_table _ speed
              (Compact.set_speedLevel (Compact.readSpeedLevel digitalRead)
                 (Compact.set_lastUpdate now s)) E)
    as (d & Hd & Hok & Hset).
  exists d, (F32.constrain speed F32.zero F32.one).
  split_and; try assumption.
  simpl. rewrite E. simpl. rewrite Hset. reflexivity.
Qed.

(** The input check never fails; it keeps the mode and the pulse counter,
    and either keeps level and duty or accepts the sampled level. *)
Lemma compact_checkInputs_spec (now : Z) (digitalRead : Z -> bool)
    (s : Compact.State) :
  exists s', Compact.checkInputs now digitalRead s = Some s' /\
    Compact.manualMode s' = Compact.manualMode s /\
    Compact.tachCount s' = Compact.tachCount s /\
    Compact.lastStatus s' = Compact.lastStatus s /\
    ((Compact.speedLevel s' = Compact.speedLevel s /\
      Compact.OCR1A s' = Compact.OCR1A s /\
      Compact.pwm_log s' = Compact.pwm_log s /\
      Compact.lastChange s' = Compact.lastChange s)
     \/
     (sampleDue now s = true /\ accepted now digitalRead s = true /\
      Compact.speedLevel s' = Compact.readSpeedLevel digitalRead /\
      Compact.lastChange s' = now /\
      exists d, Compact.toDuty (Compact.speedLevel s') = Some d /\
                duty_ok d /\ Compact.OCR1A s' = d /\
                Compact.pwm_log s' = d :: Compact.pwm_log s)).
Proof.
  destruct (sampleDue now s) eqn:Hdue.
  - destruct (accepted now digitalRead s) eqn:Hacc.
    + destruct (compact_checkInputs_change now digitalRead s Hdue Hacc)
        as (d & speed & Hd & Hok & E).
      eexists. split; [exact E|].
      match goal with |- context [Compact.updateRPM now ?t] =>
        destruct (compact_updateRPM_frame now t)
          as (F1 & F2 & F3 & F4 & F5 & F6 & F7 & F8) end.
      rewrite F1, F2, F3, F5, F6, F7, F8. simpl.
      split_and; try reflexivity.
      right. split_and; try reflexivity.
      exists d. split_and; auto.
    + rewrite (compact_checkInputs_hold now digitalRead s Hdue Hacc).
      eexists. split; [reflexivity|].
      destruct (compact_updateRPM_frame now (Compact.set_lastUpdate now s))
        as (F1 & F2 & F3 & F4 & F5 & F6 & F7 & F8).
      rewrite F1, F2, F3, F5, F6, F7, F8. simpl.
      split_and; try reflexivity. left. split_and; reflexivity.
  - rewrite (compact_checkInputs_skip now digitalRead s Hdue).
    exists s. split_and; try reflexivity. left. split_and; reflexivity.
Qed.

(** ** One pass of the compact loop and the invariant *)

Lemma compact_loop_unfold (now : Z) (digitalRead : Z -> bool)
    (serial : option string) (s : Compact.State) :
  Compact.loop now digitalRead serial s =
  (s1 <- Compact.checkInputs now digitalRead s ;;
   Compact.handleCommands serial
     (if 3000 <? U32.sub now (Compact.lastStatus s1)
      then Compact.set_lastStatus now s1 else s1)).
Proof. reflexivity. Qed.

Lemma compact_tachISR_inv (s : Compact.State) :
  compact_inv s -> compact_inv (Compact.tachISR s).
Proof. unfold compact_inv. simpl. tauto. Qed.

Lemma compact_loop_inv (now : Z) (digitalRead : Z -> bool)
    (serial : option string) (s : Compact.State) :
  compact_inv s ->
  exists s', Compact.loop now digitalRead serial s = Some s' /\
             compact_inv s'.
Proof.
  intros (Hl & Hd & Hlog).
  rewrite compact_loop_unfold.
  destruct (compact_checkInputs_spec now digitalRead s)
    as (s1 & E1 & _ & _ & _ & H1).
  rewrite E1. simpl.
  set (s2 := if 3000 <? U32.sub now (Compact.lastStatus s1)
             then Compact.set_lastStatus now s1 else s1).
  assert (H2 : Compact.speedLevel s2 = Compact.speedLevel s1 /\
               Compact.OCR1A s2 = Compact.OCR1A s1 /\
               Compact.pwm_log s2 = Compact.pwm_log s1).
  { subst s2. destruct (3000 <? _); simpl; tauto. }
  destruct H2 as (L2 & O2 & P2).
  assert (I1 : compact_inv s1).
  { unfold compact_inv.
    destruct H1 as [(A & B & C & _)|(_ & _ & A & _ & d & B & C & D & E)].
    - rewrite A, B, C. tauto.
    - rewrite E. subst d. split; [|split].
      + rewrite A. apply compact_readSpeedLevel_range.
      + assumption.
      + constructor; assumption. }
  destruct I1 as (Hl1 & Hd1 & Hlog1).
  destruct (compact_handleCommands_effect serial s2)
    as (s' & E' & _ & _ & _ & _ & _ & _ & (ds & Hp & Hds) & Hcase).
  exists s'. split; [assumption|].
  unfold compact_inv. split; [|split].
  - destruct Hcase as [(A & _)|(A & _)]; [rewrite A, L2|]; assumption.
  - destruct Hcase as [(A & B)|(_ & B)]; [rewrite A, B, L2, O2|]; assumption.
  - rewrite Hp, P2. apply Forall_app. split; assumption.
Qed.

Lemma compact_step_inv (s : Compact.State) (ev : Compact.Event) :
  compact_inv s ->
  exists s', Compact.step s ev = Some s' /\ compact_inv s'.
Proof.
  intros I. destruct ev as [|now digitalRead serial]; simpl.
  - eexists. split; [reflexivity|]. apply compact_tachISR_inv. assumption.
  - apply compact_loop_inv. assumption.
Qed.

Lemma compact_run_inv (evs : list Compact.Event) :
  forall s, compact_inv s ->
  exists s', Compact.run s evs = Some s' /\ compact_inv s'.
Proof.
  induction evs as [|ev evs IH]; intros s I; simpl.
  - exists s. split; [reflexivity | assumption].
  - destruct (compact_step_inv s ev I) as (s1 & E1 & I1).
    rewrite E1. simpl. apply IH. assumption.
Qed.

Lemma compact_setup_inv :
  exists s0, Compact.setup = Some s0 /\ compact_inv s0.
Proof.
  eexists. split; [reflexivity|].
  unfold compact_inv, duty_ok. simpl. split; [lia|split].
  - reflexivity.
  - repeat constructor.
Qed.

Lemma compact_reachable_inv (s : Compact.State) :
  Compact.reachable s -> compact_inv s.
Proof.
  intros (s0 & evs & E0 & Er).
  destruct compact_setup_inv as (s0' & E0' & I0).
  rewrite E0 in E0'. inversion E0'; subst s0'.
  destruct (compact_run_inv evs s0 I0) as (s' & Er' & I').
  rewrite Er in Er'. inversion Er'; subst s'. assumption.
Qed.

(** ** The four-level sketch *)

Lemma full_readThermadorSpeed_range (mode : Z) (digitalRead : Z -> bool)
    (analogRead : Z -> Z) :
  0 <= Full.readThermadorSpeed mode digitalRead analogRead <= 3.
Proof.
  unfold Full.readThermadorSpeed.
  repeat match goal with |- context [if ?b then _ else _] => destruct b end;
    lia.
Qed.

Lemma full_setCloudlineSpeed_dutyOf (speed : F32.float) (s : Full.State) :
  Full.setCloudlineSpeed speed s =
  (d <- Full.dutyOf speed ;;
   Some (Full.write_OCR1A d
           (Full.set_currentFanSpeed
              (F32.constrain speed F32.zero F32.one) s))).
Proof.
  unfold Full.setCloudlineSpeed, Full.dutyOf.
  destruct (F32.eqb _ _); reflexivity.
Qed.

Lemma full_toDuty_dutyOf (level : Z) :
  Full.toDuty level = Full.dutyOf (Full.targetSpeed level).
Proof.
  unfold Full.toDuty, Full.updateCloudlineSpeed.
  rewrite full_setCloudlineSpeed_dutyOf. simpl.
  destruct (Full.dutyOf _); reflexivity.
Qed.

(** The four levels and their duty values. *)
Lemma full_toDuty_table :
  map Full.toDuty [0; 1; 2; 3] = [Some 0; Some 140; Some 217; Some 320].
Proof. vm_compute. reflexivity. Qed.

Lemma full_targetSpeed_cases (level : Z) :
  Full.targetSpeed level = Full.FAN_OFF \/
  Full.targetSpeed level = Full.FAN_LOW \/
  Full.targetSpeed level = Full.FAN_MEDIUM \/
  Full.targetSpeed level = Full.FAN_HIGH.
Proof.
  unfold Full.targetSpeed.
  repeat match goal with |- context [if ?b then _ else _] => destruct b end;
    tauto.
Qed.

Lemma full_toDuty_ok (level : Z) :
  exists d, Full.toDuty level = Some d /\ duty_ok d.
Proof.
  rewrite full_toDuty_dutyOf. unfold duty_ok, minDuty, TOP.
  destruct (full_targetSpeed_cases level) as [->|[->|[->| ->]]].
  - exists 0. split; [vm_compute; reflexivity | lia].
  - exists 140. split; [vm_compute; reflexivity | lia].
  - exists 217. split; [vm_compute; reflexivity | lia].
  - exists 320. split; [vm_compute; reflexivity | lia].
Qed.

Lemma full_updateCloudlineSpeed_spec (s : Full.State) :
  exists d speed, Full.toDuty (Full.currentSpeedLevel s) = Some d /\
    duty_ok d /\
    Full.updateCloudlineSpeed s =
    Some (Full.write_OCR1A d (Full.set_currentFanSpeed speed s)).
Proof.
  destruct (full_toDuty_ok (Full.currentSpeedLevel s)) as (d & Hd & Hok).
  exists d. eexists. split_and; try assumption.
  unfold Full.updateCloudlineSpeed. rewrite full_setCloudlineSpeed_dutyOf.
  rewrite <- full_toDuty_dutyOf, Hd. reflexivity.
Qed.

Lemma full_runSpeedTest_spec (s : Full.State) :
  exists s', Full.runSpeedTest s = Some s' /\
    Full.currentSpeedLevel s' = 0 /\
    Full.OCR1A s' = 0 /\
    Full.pwm_log s' = [0; 320; 217; 140; 0] ++ Full.pwm_log s /\
    Full.lastSpeedChange s' = Full.lastSpeedChange s /\
    Full.lastUpdate s' = Full.lastUpdate s /\
    Full.tachPulseCount s' = Full.tachPulseCount s /\
    Full.currentRPM s' = Full.currentRPM s /\
    Full.lastPulseCount s' = Full.lastPulseCount s /\
    Full.lastRPMUpdate s' = Full.lastRPMUpdate s.
Proof.
  eexists. split; [vm_compute; reflexivity|].
  cbv beta iota delta [Full.currentSpeedLevel Full.OCR1A Full.pwm_log
    Full.lastSpeedChange Full.lastUpdate Full.tachPulseCount
    Full.currentRPM Full.lastPulseCount Full.lastRPMUpdate app].
  split_and; reflexivity.
Qed.

Lemma full_commandLevel_range (command : string) (n : Z) :
  full_commandLevel command = Some n -> 0 <= n <= 3.
Proof.
  unfold full_commandLevel.
  repeat match goal with |- context [if ?b then _ else _] => destruct b end;
    intros E; inversion E; lia.
Qed.

Lemma full_handleSerialCommands_cases (serial : option string)
    (s : Full.State) :
  Full.handleSerialCommands serial s = Some s \/
  (exists command n, serial = Some command /\
     full_commandLevel command = Some n /\
     Full.handleSerialCommands serial s =
     Full.updateCloudlineSpeed (Full.set_currentSpeedLevel n s)) \/
  (serial = Some "test"%string /\
     Full.handleSerialCommands serial s = Full.runSpeedTest s).
Proof.
  destruct serial as [command|]; [|left; reflexivity].
  unfold Full.handleSerialCommands, full_commandLevel.
  destruct (String.eqb command "off") eqn:E0.
  { right; left. exists command, 0. rewrite E0. auto. }
  destruct (String.eqb command "low") eqn:E1.
  { right; left. exists command, 1. rewrite E0, E1. auto. }
  destruct (String.eqb command "medium") eqn:E2.
  { right; left. exists command, 2. rewrite E0, E1, E2. auto. }
  destruct (String.eqb command "high") eqn:E3.
  { right; left. exists command, 3. rewrite E0, E1, E2, E3. auto. }
  destruct (String.eqb command "status"); [left; reflexivity|].
  destruct (String.eqb_spec command "test") as [->|Ht];
    [right; right; auto|].
  destruct (String.eqb command "help"); left; reflexivity.
Qed.

Lemma full_handleSerialCommands_effect (serial : option string)
    (s : Full.State) :
  exists s', Full.handleSerialCommands serial s = Some s' /\
    Full.lastSpeedChange s' = Full.lastSpeedChange s /\
    Full.lastUpdate s' = Full.lastUpdate s /\
    Full.tachPulseCount s' = Full.tachPulseCount s /\
    Full.currentRPM s' = Full.currentRPM s /\
    Full.lastPulseCount s' = Full.lastPulseCount s /\
    Full.lastRPMUpdate s' = Full.lastRPMUpdate s /\
    (exists ds, Full.pwm_log s' = ds ++ Full.pwm_log s /\
                Forall duty_ok ds) /\
    ((Full.currentSpeedLevel s' = Full.currentSpeedLevel s /\
      Full.OCR1A s' = Full.OCR1A s) \/
     (0 <= Full.currentSpeedLevel s' <= 3 /\
      Full.toDuty (Full.currentSpeedLevel s') = Some (Full.OCR1A s'))).
Proof.
  destruct (full_handleSerialCommands_cases serial s)
    as [E|[(command & n & _ & Hn & E)|(_ & E)]]; rewrite E.
  - exists s. split_and; try reflexivity; [|left; split; reflexivity].
    exists []. split; [reflexivity | constructor].
  - pose proof (full_commandLevel_range _ _ Hn) as Hr.
    destruct (full_updateCloudlineSpeed_spec (Full.set_currentSpeedLevel n s))
      as (d & speed & Hd & Hok & Hs).
    rewrite Hs. eexists. split; [reflexivity|]. simpl in *.
    split_and; try reflexivity; [|right; split; [lia|assumption]].
    exists [d]. split; [reflexivity | constructor; [assumption|constructor]].
  - destruct (full_runSpeedTest_spec s) as (s' & Hs & Hl & Ho & Hp & Hrest).
    exists s'. split; [assumption|].
    split_and; try tauto;
      [|right; rewrite Hl, Ho; split; [lia|reflexivity]].
    eexists. split; [exact Hp|].
    unfold duty_ok, minDuty, TOP. repeat constructor; lia.
Qed.

Lemma full_updateRPM_frame (now : Z) (s : Full.State) :
  Full.currentSpeedLevel (Full.updateRPM now s) = Full.currentSpeedLevel s /\
  Full.lastSpeedChange (Full.updateRPM now s) = Full.lastSpeedChange s /\
  Full.lastUpdate (Full.updateRPM now s) = Full.lastUpdate s /\
  Full.OCR1A (Full.updateRPM now s) = Full.OCR1A s /\
  Full.pwm_log (Full.updateRPM now s) = Full.pwm_log s /\
  Full.tachPulseCount (Full.updateRPM now s) = Full.tachPulseCount s /\
  Full.lastStatusPrint (Full.updateRPM now s) = Full.lastStatusPrint s.
Proof.
  unfold Full.updateRPM, Full.updateRPM_irq.
  destruct (1000 <=? _); simpl; tauto.
Qed.

Lemma full_checkInputs_skip (mode now : Z) (digitalRead : Z -> bool)
    (analogRead : Z -> Z) (s : Full.State) :
  full_sampleDue now s = false ->
  Full.checkInputs mode now digitalRead analogRead s = Some s.
Proof.
  unfold full_sampleDue, Full.checkInputs. intros ->. reflexivity.
Qed.

Lemma full_checkInputs_hold (mode now : Z) (digitalRead : Z -> bool)
    (analogRead : Z -> Z) (s : Full.State) :
  full_sampleDue now s = true ->
  full_accepted mode now digitalRead analogRead s = false ->
  Full.checkInputs mode now digitalRead analogRead s =
  Some (Full.updateRPM now (Full.set_lastUpdate now s)).
Proof.
  unfold full_sampleDue, full_accepted, Full.checkInputs. intros -> H.
  simpl.
  destruct (negb _); [|reflexivity].
  simpl in H. rewrite H. reflexivity.
Qed.

Lemma full_checkInputs_change (mode now : Z) (digitalRead : Z -> bool)
    (analogRead : Z -> Z) (s : Full.State) :
  full_sampleDue now s = true ->
  full_accepted mode now digitalRead analogRead s = true ->
  exists d speed,
    Full.toDuty (Full.readThermadorSpeed mode digitalRead analogRead)
    = Some d /\
    duty_ok d /\
    Full.checkInputs mode now digitalRead analogRead s =
    Some (Full.updateRPM now
            (Full.set_lastSpeedChange now
               (Full.write_OCR1A d
                  (Full.set_currentFanSpeed speed
                     (Full.set_currentSpeedLevel
                        (Full.readThermadorSpeed mode digitalRead analogRead)
                        (Full.set_lastUpdate now s)))))).
Proof.
  unfold full_sampleDue, full_accepted, Full.checkInputs. intros -> H.
  apply andb_true_iff in H. destruct H as (H1 & H2).
  simpl. rewrite H1, H2.
  match goal with |- context [Full.updateCloudlineSpeed ?t] =>
    destruct (full_updateCloudlineSpeed_spec t)
      as (d & speed & Hd & Hok & Hs) end.
  exists d, speed. simpl in Hd. split_and; try assumption.
  rewrite Hs. reflexivity.
Qed.

Lemma full_checkInputs_spec (mode now : Z) (digitalRead : Z -> bool)
    (analogRead : Z -> Z) (s : Full.State) :
  exists s', Full.checkInputs mode now digitalRead analogRead s = Some s' /\
    Full.tachPulseCount s' = Full.tachPulseCount s /\
    Full.lastStatusPrint s' = Full.lastStatusPrint s /\
    ((Full.currentSpeedLevel s' = Full.currentSpeedLevel s /\
      Full.OCR1A s' = Full.OCR1A s /\
      Full.pwm_log s' = Full.pwm_log s /\
      Full.lastSpeedChange s' = Full.lastSpeedChange s)
     \/
     (full_sampleDue now s = true /\
      full_accepted mode now digitalRead analogRead s = true /\
      Full.currentSpeedLevel s' =
        Full.readThermadorSpeed mode digitalRead analogRead /\
      Full.lastSpeedChange s' = now /\
      exists d, Full.toDuty (Full.currentSpeedLevel s') = Some d /\
                duty_ok d /\ Full.OCR1A s' = d /\
                Full.pwm_log s' = d :: Full.pwm_log s)).
Proof.
  destruct (full_sampleDue now s) eqn:Hdue.
  - destruct (full_accepted mode now digitalRead analogRead s) eqn:Hacc.
    + destruct (full_checkInputs_change mode now digitalRead analogRead s
                  Hdue Hacc) as (d & speed & Hd & Hok & E).
      eexists. split; [exact E|].
      match goal with |- context [Full.updateRPM now ?t] =>
        destruct (full_updateRPM_frame now t)
          as (F1 & F2 & F3 & F4 & F5 & F6 & F7) end.
      rewrite F1, F2, F4, F5, F6, F7. simpl.
      split_and; try reflexivity.
      right. split_and; try reflexivity.
      exists d. split_and; auto.
    + rewrite (full_checkInputs_hold mode now digitalRead analogRead s
                 Hdue Hacc).
      eexists. split; [reflexivity|].
      destruct (full_updateRPM_frame now (Full.set_lastUpdate now s))
        as (F1 & F2 & F3 & F4 & F5 & F6 & F7).
      rewrite F1, F2, F4, F5, F6, F7. simpl.
      split_and; try reflexivity. left. split_and; reflexivity.
  - rewrite (full_checkInputs_skip mode now digitalRead analogRead s Hdue).
    exists s. split_and; try reflexivity. left. split_and; reflexivity.
Qed.

Lemma full_loop_unfold (mode now : Z) (digitalRead : Z -> bool)
    (analogRead : Z -> Z) (serial : option string) (s : Full.State) :
  Full.loop mode now digitalRead analogRead serial s =
  (s1 <- Full.checkInputs mode now digitalRead analogRead s ;;
   Full.handleSerialCommands serial
     (if 5000 <? U32.sub now (Full.lastStatusPrint s1)
      then Full.set_lastStatusPrint now s1 else s1)).
Proof. reflexivity. Qed.

Lemma full_loop_inv (mode now : Z) (digitalRead : Z -> bool)
    (analogRead : Z -> Z) (serial : option string) (s : Full.State) :
  full_inv s ->
  exists s', Full.loop mode now digitalRead analogRead serial s = Some s' /\
             full_inv s'.
Proof.
  intros (Hl & Hd & Hlog).
  rewrite full_loop_unfold.
  destruct (full_checkInputs_spec mode now digitalRead analogRead s)
    as (s1 & E1 & _ & _ & H1).
  rewrite E1. simpl.
  set (s2 := if 5000 <? U32.sub now (Full.lastStatusPrint s1)
             then Full.set_lastStatusPrint now s1 else s1).
  assert (H2 : Full.currentSpeedLevel s2 = Full.currentSpeedLevel s1 /\
               Full.OCR1A s2 = Full.OCR1A s1 /\
               Full.pwm_log s2 = Full.pwm_log s1).
  { subst s2. destruct (5000 <? _); simpl; tauto. }
  destruct H2 as (L2 & O2 & P2).
  assert (I1 : full_inv s1).
  { unfold full_inv.
    destruct H1 as [(A & B & C & _)|(_ & _ & A & _ & d & B & C & D & E)].
    - rewrite A, B, C. tauto.
    - rewrite E. subst d. split; [|split].
      + rewrite A. apply full_readThermadorSpeed_range.
      + assumption.
      + constructor; assumption. }
  destruct I1 as (Hl1 & Hd1 & Hlog1).
  destruct (full_handleSerialCommands_effect serial s2)
    as (s' & E' & _ & _ & _ & _ & _ & _ & (ds & Hp & Hds) & Hcase).
  exists s'. split; [assumption|].
  unfold full_inv. split; [|split].
  - destruct Hcase as [(A & _)|(A & _)]; [rewrite A, L2|]; assumption.
  - destruct Hcase as [(A & B)|(_ & B)]; [rewrite A, B, L2, O2|]; assumption.
  - rewrite Hp, P2. apply Forall_app. split; assumption.
Qed.

Lemma full_run_inv (mode : Z) (evs : list Full.Event) :
  forall s, full_inv s ->
  exists s', Full.run mode s evs = Some s' /\ full_inv s'.
Proof.
  induction evs as [|ev evs IH]; intros s I; simpl.
  - exists s. split; [reflexivity | assumption].
  - assert (S1 : exists s1, Full.step mode s ev = Some s1 /\ full_inv s1).
    { destruct ev as [|now digitalRead analogRead serial]; simpl.
      - eexists. split; [reflexivity|].
        unfold full_inv in *. simpl. tauto.
      - apply full_loop_inv. assumption. }
    destruct S1 as (s1 & E1 & I1).
    rewrite E1. simpl. apply IH. assumption.
Qed.

Lemma full_setup_inv :
  exists s0, Full.setup = Some s0 /\ full_inv s0.
Proof.
  eexists. split; [reflexivity|].
  unfold full_inv, duty_ok. simpl. split; [lia|split].
  - reflexivity.
  - repeat constructor.
Qed.

Lemma full_reachable_inv (mode : Z) (s : Full.State) :
  Full.reachable mode s -> full_inv s.
Proof.
  intros (s0 & evs & E0 & Er).
  destruct full_setup_inv as (s0' & E0' & I0).
  rewrite E0 in E0'. inversion E0'; subst s0'.
  destruct (full_run_inv mode evs s0 I0) as (s' & Er' & I').
  rewrite Er in Er'. inversion Er'; subst s'. assumption.
Qed.

(** * The claims *)

(** ** C1: the minimum-duty floor *)

Lemma full_toDuty_cases (level : Z) :
  0 <= level <= 3 ->
  exists d, Full.toDuty level = Some d /\
            d = (if level =? 0 then 0
                 else if level =? 1 then 140
                 else if level =? 2 then 217 else 320).
Proof.
  intros H.
  assert (C : level = 0 \/ level = 1 \/ level = 2 \/ level = 3) by lia.
  destruct C as [->|[->|[->| ->]]]; eexists; split;
    try (vm_compute; reflexivity).
Qed.

(** C1.  With TOP = 320 and a minimum duty fraction of 0.20 the floor is
    64.  In both sketches speed 0.0 and level 0 give duty 0, every valid
    level above 0 gives a duty of at least 64, and every value ever written
    to OCR1A in a reachable state is 0 or lies between the floor and TOP:
    no duty strictly between 0 and the floor is emitted. *)
Theorem C1_duty_floor :
  F32.to_uint16 (F32.mul (F32.of_Z TOP) (F32.lit 20 100)) = Some minDuty /\
  (Compact.dutyOf F32.zero = Some 0 /\ Compact.toDuty 0 = Some 0 /\
   Full.dutyOf F32.zero = Some 0 /\ Full.toDuty 0 = Some 0) /\
  (forall L, 0 < L <= 4 ->
     exists d, Compact.toDuty L = Some d /\ minDuty <= d) /\
  (forall L, 0 < L <= 3 ->
     exists d, Full.toDuty L = Some d /\ minDuty <= d) /\
  (forall s d, Compact.reachable s -> In d (Compact.pwm_log s) ->
     d = 0 \/ minDuty <= d <= TOP) /\
  (forall mode s d, Full.reachable mode s -> In d (Full.pwm_log s) ->
     d = 0 \/ minDuty <= d <= TOP).
Proof.
  split; [exact minDuty_is_floor|].
  split; [repeat split; reflexivity|].
  split; [|split; [|split]].
  - intros L HL. destruct (compact_toDuty_cases L) as (d & Hd & Hv); [lia|].
    exists d. split; [assumption|].
    unfold minDuty. destruct (Z.eqb_spec L 0); lia.
  - intros L HL. destruct (full_toDuty_cases L) as (d & Hd & Hv); [lia|].
    exists d. split; [assumption|]. unfold minDuty.
    repeat match goal with H : context [if ?b then _ else _] |- _ =>
             destruct b eqn:? end; lia.
  - intros s d Hr Hin.
    destruct (compact_reachable_inv s Hr) as (_ & _ & Hlog).
    rewrite Forall_forall in Hlog. apply (Hlog d Hin).
  - intros mode s d Hr Hin.
    destruct (full_reachable_inv mode s Hr) as (_ & _ & Hlog).
    rewrite Forall_forall in Hlog. apply (Hlog d Hin).
Qed.

Lemma C1_duty_floor_witness :
  (exists d, Compact.toDuty 1 = Some d /\ minDuty <= d) /\
  (exists d, Full.toDuty 3 = Some d /\ minDuty <= d) /\
  (256 = 0 \/ minDuty <= 256 <= TOP) /\
  (320 = 0 \/ minDuty <= 320 <= TOP).
Proof.
  destruct C1_duty_floor as (_ & _ & H1 & H2 & H3 & H4).
  split; [apply (H1 1); lia|].
  split; [apply (H2 3); lia|].
  split.
  - eapply (H3 _ 256).
    + eexists. exists compact_demo. split; [reflexivity|].
      vm_compute. reflexivity.
    + simpl. tauto.
  - eapply (H4 Full.CONTROL_MODE_DIGITAL _ 320).
    + eexists. exists full_demo. split; [reflexivity|].
      vm_compute. reflexivity.
    + simpl. tauto.
Defined.

(** ** C2: monotonicity of the level-to-duty mapping *)

(** C2.  For valid levels L1 < L2 of either sketch the duty of L2 is at
    least the duty of L1, and strictly greater when L1 > 0. *)
Theorem C2_duty_monotone :
  (forall L1 L2, 0 <= L1 -> L1 < L2 -> L2 <= 4 ->
     exists d1 d2, Compact.toDuty L1 = Some d1 /\
                   Compact.toDuty L2 = Some d2 /\
                   d1 <= d2 /\ (0 < L1 -> d1 < d2)) /\
  (forall L1 L2, 0 <= L1 -> L1 < L2 -> L2 <= 3 ->
     exists d1 d2, Full.toDuty L1 = Some d1 /\
                   Full.toDuty L2 = Some d2 /\
                   d1 <= d2 /\ (0 < L1 -> d1 < d2)).
Proof.
  split; intros L1 L2 H0 H12 H2.
  - destruct (compact_toDuty_cases L1) as (d1 & E1 & V1); [lia|].
    destruct (compact_toDuty_cases L2) as (d2 & E2 & V2); [lia|].
    exists d1, d2. split; [assumption|]. split; [assumption|].
    destruct (Z.eqb_spec L1 0), (Z.eqb_spec L2 0); lia.
  - destruct (full_toDuty_cases L1) as (d1 & E1 & V1); [lia|].
    destruct (full_toDuty_cases L2) as (d2 & E2 & V2); [lia|].
    exists d1, d2. split; [assumption|]. split; [assumption|].
    destruct (Z.eqb_spec L1 0), (Z.eqb_spec L1 1), (Z.eqb_spec L1 2),
      (Z.eqb_spec L2 0), (Z.eqb_spec L2 1), (Z.eqb_spec L2 2); lia.
Qed.

Lemma C2_duty_monotone_witness :
  (exists d1 d2, Compact.toDuty 1 = Some d1 /\ Compact.toDuty 2 = Some d2 /\
                 d1 <= d2 /\ (0 < 1 -> d1 < d2)) /\
  (exists d1 d2, Full.toDuty 0 = Some d1 /\ Full.toDuty 3 = Some d2 /\
                 d1 <= d2 /\ (0 < 0 -> d1 < d2)).
Proof.
  split.
  - apply (proj1 C2_duty_monotone 1 2); lia.
  - apply (proj2 C2_duty_monotone 0 3); lia.
Defined.

(** ** C8: the discrete-wire sampler *)

(** C8.  In discrete-wire mode the sampled level is the highest tier
    whose active-low line is asserted, and 0 when no line is asserted:
    with no line asserted the result is 0, and when the line of tier k is
    asserted and no line of a higher tier is, the result is k whatever the
    lower lines do. *)
Theorem C8_highest_asserted_line :
  (forall digitalRead,
     Compact.readSpeedLevel digitalRead
     = highest_asserted digitalRead compact_lines) /\
  (forall digitalRead analogRead,
     Full.readThermadorSpeed Full.CONTROL_MODE_DIGITAL digitalRead analogRead
     = highest_asserted digitalRead full_lines) /\
  (forall digitalRead lines,
     (forall tier pin, In (tier, pin) lines ->
        asserted digitalRead pin = false) ->
     highest_asserted digitalRead lines = 0) /\
  (forall digitalRead lines k pin,
     (forall tier p, In (tier, p) lines -> 0 <= tier) ->
     In (k, pin) lines -> asserted digitalRead pin = true ->
     (forall tier p, In (tier, p) lines -> k < tier ->
        asserted digitalRead p = false) ->
     highest_asserted digitalRead lines = k).
Proof.
  split; [|split; [|split]].
  - intros digitalRead.
    unfold Compact.readSpeedLevel, compact_lines, highest_asserted, asserted.
    destruct (digitalRead Compact.SPEED4_PIN),
      (digitalRead Compact.SPEED3_PIN), (digitalRead Compact.SPEED2_PIN),
      (digitalRead Compact.SPEED1_PIN); reflexivity.
  - intros digitalRead analogRead.
    unfold Full.readThermadorSpeed, full_lines, highest_asserted, asserted.
    simpl.
    destruct (digitalRead Full.THERMADOR_SPEED3_PIN),
      (digitalRead Full.THERMADOR_SPEED2_PIN),
      (digitalRead Full.THERMADOR_SPEED1_PIN); reflexivity.
  - intros digitalRead lines. induction lines as [|[tier pin] rest IH];
      intros Hnone; simpl; [reflexivity|].
    rewrite (Hnone tier pin (or_introl eq_refl)).
    apply IH. intros t p Hin. apply (Hnone t p). right. assumption.
  - intros digitalRead lines k pin Hpos Hin Hk Hhigher.
    assert (Hle : forall ls,
               (forall tier p, In (tier, p) ls -> 0 <= tier) ->
               (forall tier p, In (tier, p) ls -> k < tier ->
                  asserted digitalRead p = false) ->
               0 <= highest_asserted digitalRead ls <= Z.max 0 k).
    { induction ls as [|[t p] rest IH]; intros Hp Hh; simpl; [lia|].
      assert (IH' : 0 <= highest_asserted digitalRead rest <= Z.max 0 k).
      { apply IH; intros t' p' Hin'; [apply (Hp t' p') | apply (Hh t' p')];
          right; assumption. }
      destruct (asserted digitalRead p) eqn:Ea; [|assumption].
      assert (0 <= t) by (apply (Hp t p); left; reflexivity).
      destruct (Z_lt_le_dec k t) as [Hlt|Hge].
      - rewrite (Hh t p (or_introl eq_refl) Hlt) in Ea. discriminate.
      - lia. }
    assert (Hk0 : 0 <= k) by (apply (Hpos k pin); assumption).
    induction lines as [|[t p] rest IH]; [contradiction|].
    simpl.
    assert (Hrest : 0 <= highest_asserted digitalRead rest <= Z.max 0 k).
    { apply Hle; intros t' p' Hin'; [apply (Hpos t' p') | apply (Hhigher t' p')];
        right; assumption. }
    destruct Hin as [Heq|Hin].
    + inversion Heq; subst t p. rewrite Hk. lia.
    + assert (IH' : highest_asserted digitalRead rest = k).
      { apply IH; try assumption.
        - intros t' p' Hin'. apply (Hpos t' p'). right. assumption.
        - intros t' p' Hin'. apply (Hhigher t' p'). right. assumption. }
      destruct (asserted digitalRead p) eqn:Ea; [|assumption].
      assert (0 <= t) by (apply (Hpos t p); left; reflexivity).
      destruct (Z_lt_le_dec k t) as [Hlt|Hge].
      * rewrite (Hhigher t p (or_introl eq_refl) Hlt) in Ea. discriminate.
      * lia.
Qed.

Lemma C8_highest_asserted_line_witness :
  highest_asserted released compact_lines = 0 /\
  highest_asserted
    (assert_pins [Compact.SPEED1_PIN; Compact.SPEED3_PIN]) compact_lines = 3.
Proof.
  destruct C8_highest_asserted_line as (_ & _ & H0 & Hk).
  split.
  - apply H0. intros tier pin _. reflexivity.
  - apply (Hk _ compact_lines 3 Compact.SPEED3_PIN).
    + intros tier p Hin. simpl in Hin.
      repeat (destruct Hin as [Hin|Hin]; [inversion Hin; lia|]).
      contradiction.
    + simpl. tauto.
    + reflexivity.
    + intros tier p Hin Hlt. simpl in Hin.
      repeat (destruct Hin as [Hin|Hin];
              [inversion Hin; subst; try lia; reflexivity|]).
      contradiction.
Defined.

(** ** C10: the level stays inside the table *)

(** C10.  The level is 0 after setup, and whatever sequence of loop passes
    (any clock reading, any pin levels, any serial line, the test routine
    included) and tachometer edges follows, the sketch never reads outside
    FAN_SPEEDS and the level stays in [0, 4]; in the four-level sketch it
    stays in [0, 3], in digital and in analog mode. *)
Theorem C10_level_in_range :
  (forall evs, exists s0 s,
     Compact.setup = Some s0 /\ Compact.speedLevel s0 = 0 /\
     Compact.run s0 evs = Some s /\
     0 <= Compact.speedLevel s <= 4 /\
     Compact.FAN_SPEEDS_at (Compact.speedLevel s) <> None) /\
  (forall mode evs, exists s0 s,
     Full.setup = Some s0 /\ Full.currentSpeedLevel s0 = 0 /\
     Full.run mode s0 evs = Some s /\
     0 <= Full.currentSpeedLevel s <= 3).
Proof.
  split.
  - intros evs. destruct compact_setup_inv as (s0 & E0 & I0).
    destruct (compact_run_inv evs s0 I0) as (s & Er & (Hl & _ & _)).
    exists s0, s. split; [assumption|].
    split; [inversion E0; reflexivity|].
    split; [assumption|]. split; [assumption|].
    destruct (compact_FAN_SPEEDS_at_total _ Hl) as (speed & E).
    rewrite E. discriminate.
  - intros mode evs. destruct full_setup_inv as (s0 & E0 & I0).
    destruct (full_run_inv mode evs s0 I0) as (s & Er & (Hl & _ & _)).
    exists s0, s. split; [assumption|].
    split; [inversion E0; reflexivity|].
    split; assumption.
Qed.

(** ** C6: the RPM estimate *)

(** *** Exact binary32 steps

    An integer below 2^24 converts exactly; a product or quotient whose
    discarded low bits are all zero rounds to itself. *)

Lemma digits2_pos_size (p : positive) : digits2_pos p = Pos.size p.
Proof. induction p as [p IH|p IH|]; simpl; try rewrite IH; reflexivity. Qed.

Lemma digits_unique (p : positive) (k : Z) :
  0 < k -> 2 ^ (k - 1) <= Zpos p < 2 ^ k -> Zpos (digits2_pos p) = k.
Proof.
  intros Hk Hp. rewrite digits2_pos_size.
  change (Zpos (Pos.size p)) with (Z.log2 (2 * Zpos p)).
  rewrite Z.log2_double by lia.
  replace k with (Z.succ (k - 1)) at 1 by lia.
  f_equal. apply Z.log2_unique; [lia|].
  replace (Z.succ (k - 1)) with k by lia. exact Hp.
Qed.

Lemma iter_pos_nat {A : Type} (f : A -> A) (p : positive) :
  forall x, iter_pos f p x = Nat.iter (Pos.to_nat p) f x.
Proof.
  induction p as [p IH|p IH|]; intros x; cbn [iter_pos].
  - rewrite !IH. rewrite Pos2Nat.inj_xI.
    replace (S (2 * Pos.to_nat p))
      with (Pos.to_nat p + (Pos.to_nat p + 1))%nat by lia.
    rewrite !Nat.iter_add. reflexivity.
  - rewrite !IH. rewrite Pos2Nat.inj_xO.
    replace (2 * Pos.to_nat p)%nat
      with (Pos.to_nat p + Pos.to_nat p)%nat by lia.
    rewrite Nat.iter_add. reflexivity.
  - reflexivity.
Qed.

Lemma shr_1_iter_exact (k : nat) :
  forall q : positive,
    Nat.iter k shr_1
      (Build_shr_record (Zpos q * 2 ^ Z.of_nat k) false false)
    = Build_shr_record (Zpos q) false false.
Proof.
  induction k as [|k IH]; intros q.
  - cbn [Nat.iter]. change (2 ^ Z.of_nat 0) with 1.
    rewrite Z.mul_1_r. reflexivity.
  - rewrite Nat.iter_succ.
    replace (Zpos q * 2 ^ Z.of_nat (S k))
      with (Zpos (q~0) * 2 ^ Z.of_nat k).
    + rewrite IH. reflexivity.
    + rewrite Nat2Z.inj_succ, Z.pow_succ_r by lia.
      change (Zpos q~0) with (2 * Zpos q). ring.
Qed.

(** Rounding a mantissa whose discarded low bits are all zero is exact. *)
Lemma round_aux_exact (sx : bool) (m q : positive) (e n : Z) :
  0 < n ->
  Zpos m = Zpos q * 2 ^ n ->
  Zpos (digits2_pos q) = 24 ->
  -149 <= e + n <= 104 ->
  binary_round_aux F32.prec F32.emax sx (Zpos m) e loc_Exact
  = S754_finite sx q (e + n).
Proof.
  intros Hn Hm Hq He.
  assert (Dm : Zpos (digits2_pos m) = 24 + n).
  { apply digits_unique; [lia|].
    pose proof (digits_unique q 24) as _.
    rewrite digits2_pos_size in Hq.
    pose proof (Pos.size_gt q) as Hgt. pose proof (Pos.size_le q) as Hle.
    assert (Hq1 : Zpos q < 2 ^ 24).
    { rewrite <- Hq. rewrite <- Pos2Z.inj_pow. apply Pos2Z.pos_lt_pos. exact Hgt. }
    assert (Hq2 : 2 ^ 24 <= 2 * Zpos q).
    { rewrite <- Hq. rewrite <- Pos2Z.inj_pow.
      change (2 * Zpos q) with (Zpos q~0). apply Pos2Z.pos_le_pos. exact Hle. }
    rewrite Hm.
    replace (24 + n - 1) with (23 + n) by lia.
    rewrite !Z.pow_add_r by lia.
    change (2 ^ 23) with 8388608. change (2 ^ 24) with 16777216 in *.
    assert (0 < 2 ^ n) by (apply Z.pow_pos_nonneg; lia).
    nia. }
  destruct n as [|n|n]; try lia.
  assert (S : iter_pos shr_1 n (Build_shr_record (Zpos m) false false)
              = Build_shr_record (Zpos q) false false).
  { rewrite iter_pos_nat, Hm.
    replace (2 ^ Zpos n) with (2 ^ Z.of_nat (Pos.to_nat n))
      by (rewrite positive_nat_Z; reflexivity).
    apply shr_1_iter_exact. }
  assert (F : fexp F32.prec F32.emax (24 + Zpos n + e) = e + Zpos n).
  { unfold fexp, emin, F32.prec, F32.emax. lia. }
  assert (F2 : fexp F32.prec F32.emax (24 + (e + Zpos n)) = e + Zpos n).
  { unfold fexp, emin, F32.prec, F32.emax. lia. }
  unfold binary_round_aux, shr_fexp.
  cbn [Zdigits2]. rewrite Dm, F.
  replace (e + Zpos n - e) with (Zpos n) by lia.
  unfold shr at 1. cbn [shr_record_of_loc]. rewrite S.
  cbn [shr_m loc_of_shr_record round_nearest_even Zdigits2].
  rewrite Hq, F2, Z.sub_diag. cbn [shr shr_m shr_record_of_loc].
  replace (e + Zpos n <=? F32.emax - F32.prec) with true.
  - reflexivity.
  - symmetry. apply Z.leb_le. unfold F32.emax, F32.prec. lia.
Qed.

Lemma round_aux_id (sx : bool) (m : positive) (e : Z) :
  Zpos (digits2_pos m) = 24 ->
  -149 <= e <= 104 ->
  binary_round_aux F32.prec F32.emax sx (Zpos m) e loc_Exact
  = S754_finite sx m e.
Proof.
  intros Hm He.
  assert (F : fexp F32.prec F32.emax (24 + e) = e).
  { unfold fexp, emin, F32.prec, F32.emax. lia. }
  unfold binary_round_aux, shr_fexp.
  cbn [Zdigits2]. rewrite Hm, F, Z.sub_diag.
  cbn [shr shr_record_of_loc shr_m loc_of_shr_record round_nearest_even
       Zdigits2].
  rewrite Hm, F, Z.sub_diag. cbn [shr shr_m].
  replace (e <=? F32.emax - F32.prec) with true; [reflexivity|].
  symmetry. apply Z.leb_le. unfold F32.emax, F32.prec. lia.
Qed.

Lemma pos_iter_xO (p d : positive) :
  Zpos (Pos.iter xO p d) = Zpos p * 2 ^ Zpos d.
Proof.
  induction d as [|d IH] using Pos.peano_ind.
  - cbn [Pos.iter]. change (Zpos p~0) with (2 * Zpos p).
    change (2 ^ 1) with 2. ring.
  - rewrite Pos.iter_succ. change (Zpos (Pos.iter xO p d)~0)
      with (2 * Zpos (Pos.iter xO p d)).
    rewrite IH, Pos2Z.inj_succ, Z.pow_succ_r by lia. ring.
Qed.

Lemma digits_bounds (p : positive) :
  2 ^ (Zpos (digits2_pos p) - 1) <= Zpos p < 2 ^ Zpos (digits2_pos p).
Proof.
  rewrite digits2_pos_size.
  pose proof (Pos.size_gt p) as Hgt. pose proof (Pos.size_le p) as Hle.
  split.
  - apply Pos2Z.pos_le_pos in Hle. rewrite Pos2Z.inj_pow in Hle.
    change (Zpos p~0) with (2 * Zpos p) in Hle.
    replace (Zpos (Pos.size p)) with (Z.succ (Zpos (Pos.size p) - 1)) in Hle
      by lia.
    rewrite Z.pow_succ_r in Hle by lia. lia.
  - apply Pos2Z.pos_lt_pos in Hgt. rewrite Pos2Z.inj_pow in Hgt. exact Hgt.
Qed.

Lemma of_Z_float_is (p : positive) :
  Zpos p < 2 ^ 24 -> float_is (F32.of_Z (Zpos p)) (Zpos p).
Proof.
  intros Hp.
  pose proof (digits_bounds p) as Hb.
  set (k := Zpos (digits2_pos p)) in *.
  assert (Hk : 1 <= k <= 24).
  { split; [subst k; lia|].
    destruct (Z_le_gt_dec k 24) as [H|H]; [exact H|].
    assert (2 ^ 24 <= 2 ^ (k - 1)) by (apply Z.pow_le_mono_r; lia). lia. }
  unfold F32.of_Z, binary_normalize, binary_round.
  rewrite Z.add_0_r. fold k.
  assert (F : fexp F32.prec F32.emax k = k - 24).
  { unfold fexp, emin, F32.prec, F32.emax. lia. }
  rewrite F. unfold shl_align. rewrite Z.sub_0_r.
  destruct (k - 24) as [|d|d] eqn:Ed; try lia.
  - rewrite round_aux_id by (fold k; lia).
    exists p, 0. split_and; try reflexivity; try lia.
  - assert (Dq : Zpos (digits2_pos (Pos.iter xO p d)) = 24).
    { apply digits_unique; [lia|]. rewrite pos_iter_xO.
      replace (Zpos d) with (24 - k) by lia.
      assert (E1 : 2 ^ 23 = 2 ^ (k - 1) * 2 ^ (24 - k)).
      { rewrite <- Z.pow_add_r by lia. f_equal. lia. }
      assert (E2 : 2 ^ 24 = 2 ^ k * 2 ^ (24 - k)).
      { rewrite <- Z.pow_add_r by lia. f_equal. lia. }
      change (24 - 1) with 23. rewrite E1, E2.
      assert (0 < 2 ^ (24 - k)) by (apply Z.pow_pos_nonneg; lia).
      nia. }
    rewrite round_aux_id by (try exact Dq; lia).
    exists (Pos.iter xO p d), (Zneg d).
    split_and; try reflexivity; try lia; try exact Dq.
    rewrite pos_iter_xO.
    replace (Zneg d + 60) with (60 - Zpos d) by lia.
    rewrite <- Z.mul_assoc, <- Z.pow_add_r by lia.
    do 2 f_equal. lia.
Qed.

Lemma float_is_small (q : positive) (e v : Z) :
  Zpos (digits2_pos q) = 24 -> -60 <= e <= 60 ->
  Zpos q * 2 ^ (e + 60) = v * 2 ^ 60 -> 0 < v < 2 ^ 23 ->
  e < 0 /\ Zpos q = v * 2 ^ (- e).
Proof.
  intros Hq He Hv Hs.
  pose proof (digits_bounds q) as Hb. rewrite Hq in Hb.
  change (24 - 1) with 23 in Hb.
  assert (H60 : 0 < 2 ^ 60) by (apply Z.pow_pos_nonneg; lia).
  assert (Hneg : e < 0).
  { destruct (Z_lt_ge_dec e 0) as [H|H]; [exact H|exfalso].
    assert (E : 2 ^ (e + 60) = 2 ^ e * 2 ^ 60)
      by (apply Z.pow_add_r; lia).
    rewrite E in Hv.
    assert (1 <= 2 ^ e) by (assert (0 < 2 ^ e)
                              by (apply Z.pow_pos_nonneg; lia); lia).
    nia. }
  split; [exact Hneg|].
  assert (E : 2 ^ 60 = 2 ^ (e + 60) * 2 ^ (- e)).
  { rewrite <- Z.pow_add_r by lia. f_equal. lia. }
  rewrite E in Hv.
  assert (0 < 2 ^ (e + 60)) by (apply Z.pow_pos_nonneg; lia).
  nia.
Qed.

Lemma mul60_float_is (x : F32.float) (v : Z) :
  float_is x v -> 0 < v -> 15 * v < 2 ^ 24 ->
  float_is (F32.mul x (F32.lit 60 1)) (60 * v).
Proof.
  intros (q & e & -> & Hq & He & Hv) Hpos Hsmall.
  destruct (float_is_small q e v Hq He Hv) as (Hneg & Hqv); [lia|].
  change (F32.lit 60 1) with (S754_finite false 15728640 (-18)).
  unfold F32.mul, SFmul. cbn [xorb].
  destruct v as [|w|w]; try lia.
  set (w15 := (15 * w)%positive).
  pose proof (digits_bounds w15) as Hb.
  set (kw := Zpos (digits2_pos w15)) in *.
  assert (Hw : Zpos w15 = 15 * Zpos w) by reflexivity.
  assert (Hkw : 4 <= kw <= 24).
  { split.
    - destruct (Z_le_gt_dec 4 kw) as [H|H]; [exact H|].
      assert (2 ^ kw <= 2 ^ 3) by (apply Z.pow_le_mono_r; lia).
      change (2 ^ 3) with 8 in *. lia.
    - destruct (Z_le_gt_dec kw 24) as [H|H]; [exact H|].
      assert (2 ^ 24 <= 2 ^ (kw - 1)) by (apply Z.pow_le_mono_r; lia). lia. }
  destruct (24 - kw) as [|d|d] eqn:Ed; try lia.
  - (* 15 w already has 24 digits *)
    rewrite (round_aux_exact false (q * 15728640) w15 (e + -18) (20 - e)).
    + exists w15, (kw - 22). split; [|split; [|split]].
      * f_equal. lia.
      * fold kw. lia.
      * lia.
      * rewrite Hw. replace kw with 24 by lia.
        change (24 - 22 + 60) with (2 + 60).
        rewrite Z.pow_add_r by lia. change (2 ^ 2) with 4. ring.
    + lia.
    + rewrite Pos2Z.inj_mul, Hqv, Hw.
      change (Zpos 15728640) with (15 * 2 ^ 20).
      replace (20 - e) with (- e + 20) by lia.
      rewrite Z.pow_add_r by lia. ring.
    + fold kw. lia.
    + lia.
  - rewrite (round_aux_exact false (q * 15728640) (Pos.iter xO w15 d)
               (e + -18) (kw - 4 - e)).
    + exists (Pos.iter xO w15 d), (kw - 22). split; [|split; [|split]].
      * f_equal. lia.
      * apply digits_unique; [lia|]. rewrite pos_iter_xO.
        replace (Zpos d) with (24 - kw) by lia.
        assert (E1 : 2 ^ 23 = 2 ^ (kw - 1) * 2 ^ (24 - kw)).
        { rewrite <- Z.pow_add_r by lia. f_equal. lia. }
        assert (E2 : 2 ^ 24 = 2 ^ kw * 2 ^ (24 - kw)).
        { rewrite <- Z.pow_add_r by lia. f_equal. lia. }
        change (24 - 1) with 23. rewrite E1, E2.
        assert (0 < 2 ^ (24 - kw)) by (apply Z.pow_pos_nonneg; lia).
        nia.
      * lia.
      * rewrite pos_iter_xO, Hw.
        replace (Zpos d) with (24 - kw) by lia.
        rewrite <- Z.mul_assoc, <- Z.pow_add_r by lia.
        replace (24 - kw + (kw - 22 + 60)) with (2 + 60) by lia.
        rewrite Z.pow_add_r by lia. change (2 ^ 2) with 4. ring.
    + lia.
    + rewrite Pos2Z.inj_mul, Hqv, pos_iter_xO, Hw.
      change (Zpos 15728640) with (15 * 2 ^ 20).
      replace (Zpos d) with (24 - kw) by lia.
      rewrite <- !Z.mul_assoc.
      rewrite <- (Z.pow_add_r 2 (24 - kw)) by lia.
      replace (24 - kw + (kw - 4 - e)) with (- e + 20) by lia.
      rewrite Z.pow_add_r by lia. ring.
    + apply digits_unique; [lia|]. rewrite pos_iter_xO.
      replace (Zpos d) with (24 - kw) by lia.
      assert (E1 : 2 ^ 23 = 2 ^ (kw - 1) * 2 ^ (24 - kw)).
      { rewrite <- Z.pow_add_r by lia. f_equal. lia. }
      assert (E2 : 2 ^ 24 = 2 ^ kw * 2 ^ (24 - kw)).
      { rewrite <- Z.pow_add_r by lia. f_equal. lia. }
      change (24 - 1) with 23. rewrite E1, E2.
      assert (0 < 2 ^ (24 - kw)) by (apply Z.pow_pos_nonneg; lia).
      nia.
    + lia.
Qed.

Lemma div2_float_is (x : F32.float) (v : Z) :
  float_is x (2 * v) ->
  (forall q e, x = S754_finite false q e -> -50 <= e) ->
  float_is (F32.div x (F32.lit 2 1)) v.
Proof.
  intros (q & e & -> & Hq & He & Hv) Hlow.
  specialize (Hlow q e eq_refl).
  change (F32.lit 2 1) with (S754_finite false 8388608 (-22)).
  unfold F32.div, SFdiv, SFdiv_core_binary. cbn [xorb Zdigits2].
  rewrite Hq. change (Zpos (digits2_pos 8388608)) with 24.
  assert (F : fexp F32.prec F32.emax (24 + e - (24 + -22)) = e - 2).
  { unfold fexp, emin, F32.prec, F32.emax. lia. }
  rewrite F.
  replace (Z.min (e - 2) (e - -22)) with (e - 2) by lia.
  replace (e - -22 - (e - 2)) with 24 by lia.
  rewrite Z.shiftl_mul_pow2 by lia.
  rewrite (surjective_pairing (Z.div_eucl _ _)).
  change (fst (Z.div_eucl (Zpos q * 2 ^ 24) 8388608))
    with ((Zpos q * 2 ^ 24) / 8388608).
  change (snd (Z.div_eucl (Zpos q * 2 ^ 24) 8388608))
    with ((Zpos q * 2 ^ 24) mod 8388608).
  replace (Zpos q * 2 ^ 24) with (Zpos q~0 * 8388608)
    by (change (Zpos q~0) with (2 * Zpos q);
        change (2 ^ 24) with (2 * 8388608); ring).
  rewrite Z.div_mul, Z.mod_mul by lia.
  change (new_location 8388608 0) with loc_Exact.
  rewrite (round_aux_exact false (q~0) q (e - 2) 1);
    [ | lia
      | change (2 ^ 1) with 2; change (Zpos q~0) with (2 * Zpos q); ring
      | exact Hq | lia ].
  exists q, (e - 1). split; [|split; [|split]].
  - f_equal. lia.
  - exact Hq.
  - lia.
  - replace (e + 60) with (Z.succ (e - 1 + 60)) in Hv by lia.
    rewrite Z.pow_succ_r in Hv by lia. lia.
Qed.

Lemma float_is_exact_Z (x : F32.float) (v : Z) :
  float_is x v -> F32.exact_Z x = Some v.
Proof.
  intros (q & e & -> & Hq & He & Hv). unfold F32.exact_Z.
  destruct (Z.leb_spec 0 e) as [Hpos|Hneg]; cbn [cond_Zopp].
  - f_equal. rewrite Z.shiftl_mul_pow2 by lia.
    rewrite Z.pow_add_r in Hv by lia.
    assert (0 < 2 ^ 60) by (apply Z.pow_pos_nonneg; lia). nia.
  - assert (E : 2 ^ 60 = 2 ^ (e + 60) * 2 ^ (- e)).
    { rewrite <- Z.pow_add_r by lia. f_equal. lia. }
    rewrite E in Hv.
    assert (H1 : 0 < 2 ^ (e + 60)) by (apply Z.pow_pos_nonneg; lia).
    assert (Hqv : Zpos q = v * 2 ^ (- e)) by nia.
    assert (H2 : 0 < 2 ^ (- e)) by (apply Z.pow_pos_nonneg; lia).
    rewrite Z.land_ones by lia. rewrite Hqv, Z.mod_mul by lia.
    cbn [Z.eqb]. f_equal.
    rewrite Z.shiftr_div_pow2 by lia. apply Z.div_mul. lia.
Qed.

(** The float [(delta * 60.0) / 2.0] denotes exactly [30 * delta] as long
    as [15 * delta] fits the 24-bit significand. *)
Lemma rpmOf_exact (delta : Z) :
  0 <= delta -> 15 * delta < 2 ^ 24 ->
  F32.exact_Z (rpmOf delta) = Some (30 * delta).
Proof.
  intros H0 Hs.
  destruct delta as [|p|p]; try lia.
  - vm_compute. reflexivity.
  - apply float_is_exact_Z. unfold rpmOf.
    apply div2_float_is.
    + replace (2 * (30 * Zpos p)) with (60 * Zpos p) by lia.
      apply mul60_float_is; [|lia|exact Hs].
      apply of_Z_float_is. lia.
    + intros q e E.
      assert (M : float_is (F32.mul (F32.of_Z (Zpos p)) (F32.lit 60 1))
                    (60 * Zpos p)).
      { apply mul60_float_is; [|lia|exact Hs]. apply of_Z_float_is. lia. }
      destruct M as (q' & e' & E' & Hq' & He' & Hv').
      rewrite E in E'. inversion E'; subst q' e'.
      destruct (Z_le_gt_dec (-50) e) as [H|H]; [exact H|exfalso].
      pose proof (digits_bounds q) as Hb. rewrite Hq' in Hb.
      assert (E60 : 2 ^ 60 = 2 ^ (e + 60) * 2 ^ (- e)).
      { rewrite <- Z.pow_add_r by lia. f_equal. lia. }
      rewrite E60 in Hv'.
      assert (H1 : 0 < 2 ^ (e + 60)) by (apply Z.pow_pos_nonneg; lia).
      assert (Hqv : Zpos q = 60 * Zpos p * 2 ^ (- e)) by nia.
      assert (2 ^ 50 <= 2 ^ (- e)) by (apply Z.pow_le_mono_r; lia).
      change (2 ^ 24) with 16777216 in *.
      change (2 ^ 50) with 1125899906842624 in *. nia.
Qed.

Lemma rpm_exact_below_65536 (i : Z) :
  0 <= i < 65536 -> F32.exact_Z (rpmOf i) = Some (i * 60 / 2).
Proof.
  intros Hi.
  replace (i * 60) with (30 * i * 2) by lia. rewrite Z.div_mul by lia.
  apply rpmOf_exact; [lia|]. change (2 ^ 24) with 16777216. lia.
Qed.

(** *** The window update *)

Lemma compact_updateRPM_due (irq : nat) (now : Z) (s : Compact.State) :
  1000 <= U32.sub now (Compact.lastRPMTime s) ->
  Compact.updateRPM_irq irq now s =
  Compact.set_lastRPMTime now
    (let s1 := Nat.iter irq Compact.tachISR
                 (Compact.set_rpm (rpmOf (window_delta s)) s) in
     Compact.set_lastCount (Compact.tachCount s1) s1).
Proof.
  intros H. unfold Compact.updateRPM_irq.
  apply Z.leb_le in H. rewrite H. reflexivity.
Qed.

Lemma compact_updateRPM_early (irq : nat) (now : Z) (s : Compact.State) :
  U32.sub now (Compact.lastRPMTime s) < 1000 ->
  Compact.updateRPM_irq irq now s = s.
Proof.
  intros H. unfold Compact.updateRPM_irq.
  apply Z.leb_gt in H. rewrite H. reflexivity.
Qed.

Lemma full_updateRPM_due (irq : nat) (now : Z) (s : Full.State) :
  1000 <= U32.sub now (Full.lastRPMUpdate s) ->
  Full.updateRPM_irq irq now s =
  Full.set_lastRPMUpdate now
    (let s1 := Nat.iter irq Full.tachISR
                 (Full.set_currentRPM (rpmOf (full_window_delta s)) s) in
     Full.set_lastPulseCount (Full.tachPulseCount s1) s1).
Proof.
  intros H. unfold Full.updateRPM_irq.
  apply Z.leb_le in H. rewrite H. reflexivity.
Qed.

Lemma full_updateRPM_early (irq : nat) (now : Z) (s : Full.State) :
  U32.sub now (Full.lastRPMUpdate s) < 1000 ->
  Full.updateRPM_irq irq now s = s.
Proof.
  intros H. unfold Full.updateRPM_irq.
  apply Z.leb_gt in H. rewrite H. reflexivity.
Qed.

(** C6 as amended.  [updateRPM], in both sketches: when at least 1000 ms
    have elapsed since the window start (in 32-bit unsigned arithmetic),
    the estimate becomes the binary32 value [(delta * 60.0) / 2.0] of the
    pulse delta since the window start, which is exactly the integer
    delta * 60 / 2 whenever 15 * delta is below 2^24 (delta up to
    1118481), and the window markers become the current pulse count and
    the current time; otherwise the state, estimate and markers included,
    is unchanged. *)
Theorem C6_rpm_window :
  (forall now s,
     (1000 <= U32.sub now (Compact.lastRPMTime s) ->
      Compact.rpm (Compact.updateRPM now s) = rpmOf (window_delta s) /\
      (15 * window_delta s < 2 ^ 24 ->
       F32.exact_Z (Compact.rpm (Compact.updateRPM now s))
       = Some (window_delta s * 60 / 2)) /\
      Compact.lastCount (Compact.updateRPM now s) = Compact.tachCount s /\
      Compact.lastRPMTime (Compact.updateRPM now s) = now) /\
     (U32.sub now (Compact.lastRPMTime s) < 1000 ->
      Compact.updateRPM now s = s)) /\
  (forall now s,
     (1000 <= U32.sub now (Full.lastRPMUpdate s) ->
      Full.currentRPM (Full.updateRPM now s) = rpmOf (full_window_delta s) /\
      (15 * full_window_delta s < 2 ^ 24 ->
       F32.exact_Z (Full.currentRPM (Full.updateRPM now s))
       = Some (full_window_delta s * 60 / 2)) /\
      Full.lastPulseCount (Full.updateRPM now s) = Full.tachPulseCount s /\
      Full.lastRPMUpdate (Full.updateRPM now s) = now) /\
     (U32.sub now (Full.lastRPMUpdate s) < 1000 ->
      Full.updateRPM now s = s)).
Proof.
  assert (X : forall d, 0 <= d -> 15 * d < 2 ^ 24 ->
                        F32.exact_Z (rpmOf d) = Some (d * 60 / 2)).
  { intros d H0 Hs. replace (d * 60) with (30 * d * 2) by lia.
    rewrite Z.div_mul by lia. apply rpmOf_exact; assumption. }
  split; intros now s; split.
  - intros H. unfold Compact.updateRPM.
    rewrite (compact_updateRPM_due 0 now s H). simpl.
    split_and; try reflexivity.
    apply X.
    pose proof (u32_sub_range (Compact.tachCount s) (Compact.lastCount s)).
    unfold window_delta. lia.
  - apply compact_updateRPM_early.
  - intros H. unfold Full.updateRPM.
    rewrite (full_updateRPM_due 0 now s H). simpl.
    split_and; try reflexivity.
    apply X.
    pose proof (u32_sub_range (Full.tachPulseCount s) (Full.lastPulseCount s)).
    unfold full_window_delta. lia.
  - apply full_updateRPM_early.
Qed.

Lemma C6_rpm_window_witness :
  F32.exact_Z
    (Compact.rpm
       (Compact.updateRPM 1000 (Compact.set_tachCount 100 Compact.power_on)))
  = Some 3000 /\
  Compact.updateRPM 999 (Compact.set_tachCount 100 Compact.power_on)
  = Compact.set_tachCount 100 Compact.power_on.
Proof.
  pose proof (proj1 C6_rpm_window 1000
                (Compact.set_tachCount 100 Compact.power_on)) as (Hdue & _).
  pose proof (proj1 C6_rpm_window 999
                (Compact.set_tachCount 100 Compact.power_on)) as (_ & Hearly).
  split.
  - assert (H : 1000 <= U32.sub 1000
                  (Compact.lastRPMTime
                     (Compact.set_tachCount 100 Compact.power_on)))
      by (vm_compute; discriminate).
    destruct (Hdue H) as (_ & Hexact & _).
    apply Hexact. vm_compute. reflexivity.
  - apply Hearly. vm_compute. reflexivity.
Defined.

Lemma compact_tachISR_iter (irq : nat) (s : Compact.State) :
  U32.in_range (Compact.tachCount s) ->
  Compact.tachCount (Nat.iter irq Compact.tachISR s)
  = U32.wrap (Compact.tachCount s + Z.of_nat irq) /\
  Compact.lastCount (Nat.iter irq Compact.tachISR s) = Compact.lastCount s /\
  Compact.rpm (Nat.iter irq Compact.tachISR s) = Compact.rpm s.
Proof.
  intros Hr. induction irq as [|n (IHt & IHl & IHr)].
  - simpl. split_and; try reflexivity.
    rewrite Z.add_0_r. symmetry. apply Z.mod_small. exact Hr.
  - rewrite Nat.iter_succ. unfold Compact.tachISR at 1 3 5.
    simpl. split_and; try assumption.
    rewrite IHt. unfold U32.add, U32.wrap.
    rewrite Zplus_mod_idemp_l. f_equal. lia.
Qed.

Lemma full_tachISR_iter (irq : nat) (s : Full.State) :
  U32.in_range (Full.tachPulseCount s) ->
  Full.tachPulseCount (Nat.iter irq Full.tachISR s)
  = U32.wrap (Full.tachPulseCount s + Z.of_nat irq) /\
  Full.lastPulseCount (Nat.iter irq Full.tachISR s) = Full.lastPulseCount s /\
  Full.currentRPM (Nat.iter irq Full.tachISR s) = Full.currentRPM s.
Proof.
  intros Hr. induction irq as [|n (IHt & IHl & IHr)].
  - simpl. split_and; try reflexivity.
    rewrite Z.add_0_r. symmetry. apply Z.mod_small. exact Hr.
  - rewrite Nat.iter_succ. unfold Full.tachISR at 1 3 5.
    simpl. split_and; try assumption.
    rewrite IHt. unfold U32.add, U32.wrap.
    rewrite Zplus_mod_idemp_l. f_equal. lia.
Qed.

Lemma compact_run_edges (n : nat) :
  forall s, Compact.run s (repeat Compact.TachEdge n)
            = Some (Nat.iter n Compact.tachISR s).
Proof.
  induction n as [|n IH]; intros s; [reflexivity|].
  cbn [repeat Compact.run Compact.step bind]. rewrite IH.
  rewrite <- Nat.iter_succ_r. reflexivity.
Qed.

Lemma compact_edges_state (n : nat) (s : Compact.State) :
  Compact.tachCount s = 0 -> Compact.lastCount s = 0 ->
  Z.of_nat n < U32.modulus ->
  window_delta (Nat.iter n Compact.tachISR s) = Z.of_nat n /\
  Compact.lastRPMTime (Nat.iter n Compact.tachISR s)
  = Compact.lastRPMTime s.
Proof.
  intros Ht Hl Hn. split.
  - assert (Hr : U32.in_range (Compact.tachCount s))
      by (rewrite Ht; unfold U32.in_range, U32.modulus; lia).
    destruct (compact_tachISR_iter n s Hr) as (Ft & Fl & _).
    unfold window_delta. rewrite Ft, Fl, Ht, Hl.
    unfold U32.sub, U32.wrap. rewrite Z.add_0_l, Z.sub_0_r.
    rewrite Z.mod_mod by (unfold U32.modulus; lia).
    apply Z.mod_small. lia.
  - clear Hn. induction n as [|n IH]; [reflexivity|].
    rewrite Nat.iter_succ. unfold Compact.tachISR at 1. simpl. exact IH.
Qed.

(** C6 fails as stated.  After setup and 1118483 tachometer edges, a due
    update stores an estimate whose value is 33554488, while
    delta * 60 / 2 is 33554490: the product delta * 60.0 needs more than
    the 24 significant bits of a [float] and is rounded. *)
Lemma C6_counterexample :
  exists s0 s,
    Compact.setup = Some s0 /\
    Compact.run s0 many_edges = Some s /\
    1000 <= U32.sub 1000 (Compact.lastRPMTime s) /\
    window_delta s = 1118483 /\
    F32.exact_Z (Compact.rpm (Compact.updateRPM 1000 s)) = Some 33554488 /\
    window_delta s * 60 / 2 = 33554490.
Proof.
  assert (E0 : exists s0, Compact.setup = Some s0 /\
                 Compact.tachCount s0 = 0 /\ Compact.lastCount s0 = 0 /\
                 Compact.lastRPMTime s0 = 0).
  { eexists. split; [reflexivity|]. split_and; reflexivity. }
  destruct E0 as (s0 & E0 & T0 & L0 & R0).
  unfold many_edges.
  assert (Hn : Z.of_nat (Z.to_nat 1118483) = 1118483)
    by (apply Z2Nat.id; lia).
  revert Hn. generalize (Z.to_nat 1118483). intros n Hn.
  exists s0, (Nat.iter n Compact.tachISR s0).
  destruct (compact_edges_state n s0 T0 L0) as (Hd & Ht).
  { rewrite Hn. unfold U32.modulus. lia. }
  rewrite Hn in Hd.
  assert (Hdue : 1000 <= U32.sub 1000
                   (Compact.lastRPMTime (Nat.iter n Compact.tachISR s0))).
  { rewrite Ht, R0. vm_compute. discriminate. }
  split; [exact E0|].
  split; [apply compact_run_edges|].
  split; [exact Hdue|].
  split; [exact Hd|].
  split.
  - unfold Compact.updateRPM.
    rewrite (compact_updateRPM_due 0 1000 _ Hdue).
    cbn [Nat.iter Compact.rpm Compact.set_lastRPMTime Compact.set_lastCount
         Compact.set_rpm].
    rewrite Hd. vm_compute. reflexivity.
  - rewrite Hd. reflexivity.
Qed.

(** ** C7: the RPM update and the mode *)

(** In manual mode the whole input check, [updateRPM] included, is
    skipped. *)
Lemma compact_checkInputs_manual (now : Z) (digitalRead : Z -> bool)
    (s : Compact.State) :
  Compact.manualMode s = true ->
  Compact.checkInputs now digitalRead s = Some s.
Proof.
  intros H. apply compact_checkInputs_skip.
  unfold sampleDue. rewrite H. apply andb_false_r.
Qed.

(** C7, evaluated on the compact sketch.  After "low" has put the sketch
    in manual mode, 100 tachometer edges and a pass two seconds later leave
    the estimate at 0 and the window markers at their initial values:
    [updateRPM] did not run.  The same edges and pass without the command
    give 3000 rpm and move the markers.  After ten seconds of manual mode
    at 600 rpm, the first update after "auto" takes the 200 edges of the
    whole period for one window and reports 6000 rpm. *)
Theorem C7_rpm_frozen_in_manual :
  (exists s0 s, Compact.setup = Some s0 /\
     Compact.run s0 spin_manual = Some s /\
     Compact.manualMode s = true /\
     Compact.tachCount s = 100 /\
     F32.exact_Z (Compact.rpm s) = Some 0 /\
     Compact.lastCount s = 0 /\ Compact.lastRPMTime s = 0) /\
  (exists s0 s, Compact.setup = Some s0 /\
     Compact.run s0 spin_auto = Some s /\
     Compact.manualMode s = false /\
     Compact.tachCount s = 100 /\
     F32.exact_Z (Compact.rpm s) = Some 3000 /\
     Compact.lastCount s = 100 /\ Compact.lastRPMTime s = 2000) /\
  (exists s0 s, Compact.setup = Some s0 /\
     Compact.run s0 spin_resume = Some s /\
     Compact.manualMode s = false /\
     Compact.tachCount s = 200 /\
     F32.exact_Z (Compact.rpm s) = Some 6000).
Proof.
  split; [|split]; eexists; eexists; (split; [reflexivity|]);
    (split; [vm_compute; reflexivity|]);
    vm_compute; split_and; reflexivity.
Qed.

(** ** C9: the shared pulse counter *)

Lemma compact_updateRPM_bytes_due (i : Irq.schedule) (now : Z)
    (s : Compact.State) :
  1000 <= U32.sub now (Compact.lastRPMTime s) ->
  Compact.updateRPM_bytes i now s =
  Compact.set_lastRPMTime now
    (Compact.set_lastCount
       (U32.read_bytes (Compact.tachCount s) (Irq.seen_marker i))
       (Nat.iter (Irq.served i) Compact.tachISR
          (Compact.set_rpm
             (rpmOf (U32.sub (U32.read_bytes (Compact.tachCount s)
                                (Irq.seen_delta i))
                             (Compact.lastCount s))) s))).
Proof.
  intros H. unfold Compact.updateRPM_bytes.
  apply Z.leb_le in H. rewrite H. reflexivity.
Qed.

Lemma full_updateRPM_bytes_due (i : Irq.schedule) (now : Z)
    (s : Full.State) :
  1000 <= U32.sub now (Full.lastRPMUpdate s) ->
  Full.updateRPM_bytes i now s =
  Full.set_lastRPMUpdate now
    (Full.set_lastPulseCount
       (U32.read_bytes (Full.tachPulseCount s) (Irq.seen_marker i))
       (Nat.iter (Irq.served i) Full.tachISR
          (Full.set_currentRPM
             (rpmOf (U32.sub (U32.read_bytes (Full.tachPulseCount s)
                                (Irq.seen_delta i))
                             (Full.lastPulseCount s))) s))).
Proof.
  intros H. unfold Full.updateRPM_bytes.
  apply Z.leb_le in H. rewrite H. reflexivity.
Qed.

Lemma u32_read_bytes_quiet (c : Z) (seen : Z -> nat) :
  U32.in_range c -> (forall k, seen k = 0%nat) ->
  U32.read_bytes c seen = c.
Proof.
  intros Hr Hq. rewrite (u32_read_bytes_steady c seen 0 Hq).
  unfold U32.wrap. rewrite Z.add_0_r. apply Z.mod_small. exact Hr.
Qed.

(** With the interrupts all served between the two reads, the byte-level
    update is the statement-level one. *)
Lemma compact_updateRPM_bytes_between (n : nat) (now : Z)
    (s : Compact.State) :
  U32.in_range (Compact.tachCount s) ->
  Compact.updateRPM_bytes (Irq.between_reads n) now s
  = Compact.updateRPM_irq n now s.
Proof.
  intros Hr. unfold Compact.updateRPM_bytes, Compact.updateRPM_irq.
  destruct (1000 <=? _); [|reflexivity]. cbv zeta.
  cbn [Irq.between_reads Irq.seen_delta Irq.seen_marker Irq.served].
  rewrite (u32_read_bytes_quiet _ (fun _ => 0%nat) Hr) by reflexivity.
  rewrite (u32_read_bytes_steady _ (fun _ => n) n) by reflexivity.
  match goal with |- context [Nat.iter n Compact.tachISR ?t] =>
    destruct (compact_tachISR_iter n t Hr) as (Ft & _) end.
  rewrite Ft. reflexivity.
Qed.

(** A read torn by one interrupt: the counter holds 255, the low byte
    (255) is loaded, the edge makes it 256, and the other bytes (1, 0, 0)
    are loaded: the value read is 511 and the estimate is computed from a
    delta of 511. *)
Lemma compact_torn_read :
  U32.read_bytes 255 (Irq.seen_delta Irq.inside_first_read) = 511 /\
  Compact.rpm
    (Compact.updateRPM_bytes Irq.inside_first_read 1000
       (Compact.set_tachCount 255 Compact.power_on))
  = rpmOf 511.
Proof. split; vm_compute; reflexivity. Qed.

(** C9 as amended.  [updateRPM] reads the shared counter twice, once for
    the difference and once for the new window marker, each read being
    four byte loads with interrupts enabled.  If no tachometer interrupt is
    served from the first byte load of the first read to the last byte
    load of the second read, then the estimate is computed from the true
    delta, the marker is the very count the delta was computed from, and
    the edges served later in the update are exactly the delta of the
    next window: no edge is dropped or counted twice. *)
Theorem C9_unprotected_reads :
  (forall i now s,
     U32.in_range (Compact.tachCount s) ->
     1000 <= U32.sub now (Compact.lastRPMTime s) ->
     Irq.quiet_reads i ->
     Z.of_nat (Irq.served i) < U32.modulus ->
     Compact.rpm (Compact.updateRPM_bytes i now s)
     = rpmOf (window_delta s) /\
     Compact.lastCount (Compact.updateRPM_bytes i now s)
     = Compact.tachCount s /\
     Compact.lastCount (Compact.updateRPM_bytes i now s)
     = U32.add (Compact.lastCount s) (window_delta s) /\
     Compact.tachCount (Compact.updateRPM_bytes i now s)
     = U32.wrap (Compact.tachCount s + Z.of_nat (Irq.served i)) /\
     window_delta (Compact.updateRPM_bytes i now s)
     = Z.of_nat (Irq.served i)) /\
  (forall i now s,
     U32.in_range (Full.tachPulseCount s) ->
     1000 <= U32.sub now (Full.lastRPMUpdate s) ->
     Irq.quiet_reads i ->
     Z.of_nat (Irq.served i) < U32.modulus ->
     Full.currentRPM (Full.updateRPM_bytes i now s)
     = rpmOf (full_window_delta s) /\
     Full.lastPulseCount (Full.updateRPM_bytes i now s)
     = Full.tachPulseCount s /\
     Full.lastPulseCount (Full.updateRPM_bytes i now s)
     = U32.add (Full.lastPulseCount s) (full_window_delta s) /\
     Full.tachPulseCount (Full.updateRPM_bytes i now s)
     = U32.wrap (Full.tachPulseCount s + Z.of_nat (Irq.served i)) /\
     full_window_delta (Full.updateRPM_bytes i now s)
     = Z.of_nat (Irq.served i)).
Proof.
  split; intros i now s Hr Hdue Hq Hn.
  - rewrite (compact_updateRPM_bytes_due i now s Hdue).
    rewrite !(u32_read_bytes_quiet _ _ Hr) by (intros k; apply Hq).
    fold (window_delta s).
    destruct (compact_tachISR_iter (Irq.served i)
                (Compact.set_rpm (rpmOf (window_delta s)) s) Hr)
      as (Ft & Fl & Fr).
    cbn [Compact.tachCount Compact.lastCount Compact.rpm Compact.set_rpm]
      in Ft, Fl, Fr.
    generalize dependent
      (Nat.iter (Irq.served i) Compact.tachISR
         (Compact.set_rpm (rpmOf (window_delta s)) s)).
    intros t Ft Fl Fr.
    assert (Hw : window_delta
                   (Compact.set_lastRPMTime now
                      (Compact.set_lastCount (Compact.tachCount s) t))
                 = U32.sub (Compact.tachCount t) (Compact.tachCount s))
      by reflexivity.
    rewrite Hw. clear Hw.
    cbn [Compact.rpm Compact.lastCount Compact.tachCount
         Compact.set_lastRPMTime Compact.set_lastCount].
    rewrite Ft, Fr. split_and; try reflexivity.
    + unfold window_delta, U32.add, U32.sub, U32.wrap.
      rewrite Zplus_mod_idemp_r.
      replace (Compact.lastCount s
               + (Compact.tachCount s - Compact.lastCount s))
        with (Compact.tachCount s) by lia.
      symmetry. apply Z.mod_small. exact Hr.
    + apply (u32_elapsed (Compact.tachCount s) _ Hr). lia.
  - rewrite (full_updateRPM_bytes_due i now s Hdue).
    rewrite !(u32_read_bytes_quiet _ _ Hr) by (intros k; apply Hq).
    fold (full_window_delta s).
    destruct (full_tachISR_iter (Irq.served i)
                (Full.set_currentRPM (rpmOf (full_window_delta s)) s) Hr)
      as (Ft & Fl & Fr).
    cbn [Full.tachPulseCount Full.lastPulseCount Full.currentRPM
         Full.set_currentRPM] in Ft, Fl, Fr.
    generalize dependent
      (Nat.iter (Irq.served i) Full.tachISR
         (Full.set_currentRPM (rpmOf (full_window_delta s)) s)).
    intros t Ft Fl Fr.
    assert (Hw : full_window_delta
                   (Full.set_lastRPMUpdate now
                      (Full.set_lastPulseCount (Full.tachPulseCount s) t))
                 = U32.sub (Full.tachPulseCount t) (Full.tachPulseCount s))
      by reflexivity.
    rewrite Hw. clear Hw.
    cbn [Full.currentRPM Full.lastPulseCount Full.tachPulseCount
         Full.set_lastRPMUpdate Full.set_lastPulseCount].
    rewrite Ft, Fr. split_and; try reflexivity.
    + unfold full_window_delta, U32.add, U32.sub, U32.wrap.
      rewrite Zplus_mod_idemp_r.
      replace (Full.lastPulseCount s
               + (Full.tachPulseCount s - Full.lastPulseCount s))
        with (Full.tachPulseCount s) by lia.
      symmetry. apply Z.mod_small. exact Hr.
    + apply (u32_elapsed (Full.tachPulseCount s) _ Hr). lia.
Qed.

Lemma C9_unprotected_reads_witness :
  Compact.lastCount (Compact.updateRPM_bytes (Irq.after_reads 2) 1000 tach_100)
  = 100 /\
  window_delta (Compact.updateRPM_bytes (Irq.after_reads 2) 1000 tach_100)
  = 2.
Proof.
  assert (Hr : U32.in_range (Compact.tachCount tach_100))
    by (unfold U32.in_range, U32.modulus; simpl; lia).
  assert (Hd : 1000 <= U32.sub 1000 (Compact.lastRPMTime tach_100))
    by (vm_compute; discriminate).
  destruct (proj1 C9_unprotected_reads (Irq.after_reads 2) 1000 tach_100
              Hr Hd) as (_ & Hl & _ & _ & Hw).
  - intros k. split; reflexivity.
  - unfold U32.modulus. simpl. lia.
  - split; [exact Hl | exact Hw].
Defined.

(** C9 fails as stated.  One edge served between the two reads of a due
    update: the first window reports a delta of 100 (3000 rpm) but moves
    the marker by 101; 99 edges later the second window reports 99
    (2970 rpm).  200 edges were counted, the deltas add up to 199. *)
Lemma C9_counterexample :
  F32.exact_Z (Compact.rpm window1_interrupted) = Some (100 * 60 / 2) /\
  Compact.lastCount window1_interrupted = 101 /\
  Compact.lastCount window1_interrupted
  <> U32.add (Compact.lastCount tach_100) (window_delta tach_100) /\
  F32.exact_Z (Compact.rpm window2) = Some (99 * 60 / 2) /\
  Compact.tachCount window2 = 200.
Proof.
  split_and; try (vm_compute; reflexivity).
  vm_compute. discriminate.
Qed.

(** ** C3: manual speed commands *)

Lemma compact_quiet_step (s : Compact.State) (ev : Compact.Event) :
  Compact.manualMode s = true -> quiet ev = true ->
  exists s', Compact.step s ev = Some s' /\
    Compact.manualMode s' = true /\
    Compact.speedLevel s' = Compact.speedLevel s /\
    Compact.OCR1A s' = Compact.OCR1A s /\
    Compact.pwm_log s' = Compact.pwm_log s.
Proof.
  intros Hm Hq. destruct ev as [|now digitalRead serial]; simpl in *.
  - eexists. split; [reflexivity|]. simpl. split_and; auto.
  - rewrite compact_loop_unfold.
    rewrite (compact_checkInputs_manual now digitalRead s Hm). simpl.
    rewrite (compact_handleCommands_passive _ _ Hq).
    eexists. split; [reflexivity|].
    destruct (3000 <? _); simpl; split_and; auto.
Qed.

Lemma compact_quiet_run (evs : list Compact.Event) :
  forall s, Compact.manualMode s = true -> forallb quiet evs = true ->
  exists s', Compact.run s evs = Some s' /\
    Compact.manualMode s' = true /\
    Compact.speedLevel s' = Compact.speedLevel s /\
    Compact.OCR1A s' = Compact.OCR1A s /\
    Compact.pwm_log s' = Compact.pwm_log s.
Proof.
  induction evs as [|ev evs IH]; intros s Hm Hq; simpl in *.
  - exists s. split_and; auto.
  - apply andb_true_iff in Hq. destruct Hq as (Hq & Hqs).
    destruct (compact_quiet_step s ev Hm Hq)
      as (s1 & E1 & M1 & L1 & O1 & P1).
    rewrite E1. simpl.
    destruct (IH s1 M1 Hqs) as (s' & E' & M' & L' & O' & P').
    exists s'. split; [assumption|].
    split_and; congruence.
Qed.

Lemma full_handleSerialCommands_speed (command : string) (n : Z)
    (s : Full.State) :
  full_commandLevel command = Some n ->
  Full.handleSerialCommands (Some command) s =
  Full.updateCloudlineSpeed (Full.set_currentSpeedLevel n s).
Proof.
  unfold full_commandLevel, Full.handleSerialCommands.
  repeat match goal with |- context [String.eqb command ?c] =>
           destruct (String.eqb command c) end;
    intros E; inversion E; reflexivity.
Qed.

(** C3 as amended.  In the compact sketch a speed command (off, low,
    medium, high, max) handled in a loop pass sets manual mode, the level
    and the duty of that level at once, whatever the pins read and whatever
    the timers hold; level and duty then stay through every later pass and
    tachometer edge as long as no further speed command, "test" or "auto"
    arrives.  In the four-level sketch, which has no manual mode, a speed
    command (off, low, medium, high) sets level and duty at once. *)
Theorem C3_manual_override :
  (forall cmd n now digitalRead s,
     commandLevel cmd = Some n ->
     exists s1 d,
       Compact.loop now digitalRead (Some cmd) s = Some s1 /\
       Compact.toDuty n = Some d /\
       Compact.manualMode s1 = true /\
       Compact.speedLevel s1 = n /\
       Compact.OCR1A s1 = d /\
       forall evs, forallb quiet evs = true ->
         exists s2, Compact.run s1 evs = Some s2 /\
           Compact.manualMode s2 = true /\
           Compact.speedLevel s2 = n /\
           Compact.OCR1A s2 = d /\
           Compact.pwm_log s2 = Compact.pwm_log s1) /\
  (forall mode command n now digitalRead analogRead s,
     full_commandLevel command = Some n ->
     exists s1 d,
       Full.loop mode now digitalRead analogRead (Some command) s = Some s1 /\
       Full.toDuty n = Some d /\
       Full.currentSpeedLevel s1 = n /\
       Full.OCR1A s1 = d).
Proof.
  split.
  - intros cmd n now digitalRead s Hn.
    rewrite compact_loop_unfold.
    destruct (compact_checkInputs_spec now digitalRead s) as (s0 & E0 & _).
    rewrite E0. cbv beta iota delta [bind].
    rewrite (compact_handleCommands_speed cmd n _ Hn).
    destruct (compact_manualCommand_spec n
                (if 3000 <? U32.sub now (Compact.lastStatus s0)
                 then Compact.set_lastStatus now s0 else s0)
                (commandLevel_range _ _ Hn))
      as (s1 & d & E1 & Hd & _ & Hm & Hl & Ho & _).
    exists s1, d. split_and; try assumption.
    intros evs Hq.
    destruct (compact_quiet_run evs s1 Hm Hq) as (s2 & E2 & M2 & L2 & O2 & P2).
    exists s2. split_and; congruence.
  - intros mode command n now digitalRead analogRead s Hn.
    rewrite full_loop_unfold.
    destruct (full_checkInputs_spec mode now digitalRead analogRead s)
      as (s0 & E0 & _).
    rewrite E0. cbv beta iota delta [bind].
    rewrite (full_handleSerialCommands_speed command n _ Hn).
    match goal with |- context [Full.updateCloudlineSpeed ?t] =>
      destruct (full_updateCloudlineSpeed_spec t)
        as (d & speed & Hd & _ & Hs) end.
    rewrite Hs. eexists. exists d. simpl in Hd.
    split_and; try reflexivity. assumption.
Qed.

Lemma C3_manual_override_witness :
  commandLevel "high" = Some 3 /\
  exists s1 s2,
    Compact.loop 100 released (Some "high"%string) Compact.power_on
    = Some s1 /\
    Compact.run s1
      [Compact.TachEdge;
       Compact.Pass 500 (assert_pins [Compact.SPEED1_PIN]) None]
    = Some s2 /\
    Compact.manualMode s2 = true /\ Compact.speedLevel s2 = 3.
Proof.
  split; [reflexivity|].
  destruct (proj1 C3_manual_override "high"%string 3 100 released
              Compact.power_on eq_refl)
    as (s1 & d & E1 & _ & _ & _ & _ & Hkeep).
  destruct (Hkeep [Compact.TachEdge;
                   Compact.Pass 500 (assert_pins [Compact.SPEED1_PIN]) None]
              eq_refl)
    as (s2 & E2 & M2 & L2 & _).
  exists s1, s2. split_and; assumption.
Defined.

(** C3 fails as stated.  In the compact sketch "high" followed by "test"
    leaves the sketch in manual mode at level 0 with duty 0, although no
    "auto" was given.  In the four-level sketch, with every wire released,
    "high" typed at 200 ms is undone by the sample taken at 260 ms: there
    is no manual mode. *)
Lemma C3_counterexample :
  (exists s0 s, Compact.setup = Some s0 /\
     Compact.run s0 compact_test_demo = Some s /\
     Compact.manualMode s = true /\
     Compact.speedLevel s = 0 /\ Compact.OCR1A s = 0) /\
  (exists s0 s1 s, Full.setup = Some s0 /\
     Full.run Full.CONTROL_MODE_DIGITAL s0 (firstn 1 full_demo) = Some s1 /\
     Full.currentSpeedLevel s1 = 3 /\ Full.OCR1A s1 = 320 /\
     Full.run Full.CONTROL_MODE_DIGITAL s0 full_demo = Some s /\
     Full.currentSpeedLevel s = 0 /\ Full.OCR1A s = 0).
Proof.
  split.
  - eexists. eexists. split; [reflexivity|].
    split; [vm_compute; reflexivity|]. vm_compute. split_and; reflexivity.
  - eexists. eexists. eexists. split; [reflexivity|].
    split; [vm_compute; reflexivity|].
    split; [reflexivity|]. split; [reflexivity|].
    split; [vm_compute; reflexivity|]. vm_compute. split_and; reflexivity.
Qed.

(** ** C4: return to automatic mode *)

(** C4 as amended.  "auto" only clears manual mode: it leaves the level,
    the duty and both timers alone.  The next sample is taken in the first
    pass that finds more than 50 ms elapsed since the last sample, and the
    level after that pass is the sampled level if more than 100 ms have
    elapsed since the last change accepted by the input check (a time that
    manual commands do not touch), and the old level otherwise. *)
Theorem C4_auto_resumption :
  forall s now digitalRead,
    Compact.handleCommands (Some "auto"%string) s
    = Some (Compact.set_manualMode false s) /\
    (50 < U32.sub now (Compact.lastUpdate s) ->
     exists s2,
       Compact.checkInputs now digitalRead (Compact.set_manualMode false s)
       = Some s2 /\
       Compact.manualMode s2 = false /\
       Compact.lastUpdate s2 = now /\
       Compact.speedLevel s2 =
         (if 100 <? U32.sub now (Compact.lastChange s)
          then Compact.readSpeedLevel digitalRead
          else Compact.speedLevel s)).
Proof.
  intros s now digitalRead. split; [reflexivity|].
  intros Hgate.
  set (s1 := Compact.set_manualMode false s).
  assert (Hdue : sampleDue now s1 = true).
  { unfold sampleDue. simpl. apply andb_true_iff. split; [|reflexivity].
    apply Z.ltb_lt. exact Hgate. }
  destruct (accepted now digitalRead s1) eqn:Hacc.
  - destruct (compact_checkInputs_change now digitalRead s1 Hdue Hacc)
      as (d & speed & _ & _ & E).
    eexists. split; [exact E|].
    match goal with |- context [Compact.updateRPM now ?t] =>
      destruct (compact_updateRPM_frame now t)
        as (F1 & F2 & F3 & F4 & F5 & F6 & F7 & F8) end.
    rewrite F1, F2, F4. simpl. split_and; try reflexivity.
    unfold accepted in Hacc. simpl in Hacc.
    apply andb_true_iff in Hacc. destruct Hacc as (_ & ->). reflexivity.
  - rewrite (compact_checkInputs_hold now digitalRead s1 Hdue Hacc).
    eexists. split; [reflexivity|].
    destruct (compact_updateRPM_frame now (Compact.set_lastUpdate now s1))
      as (F1 & F2 & F3 & F4 & F5 & F6 & F7 & F8).
    rewrite F1, F2, F4. simpl. split_and; try reflexivity.
    unfold accepted in Hacc. simpl in Hacc.
    apply andb_false_iff in Hacc. destruct Hacc as [Hsame| ->];
      [|reflexivity].
    apply negb_false_iff, Z.eqb_eq in Hsame.
    destruct (100 <? _); congruence.
Qed.

Lemma C4_auto_resumption_witness :
  exists s2,
    Compact.checkInputs 200 (assert_pins [Compact.SPEED1_PIN])
      (Compact.set_manualMode false Compact.power_on) = Some s2 /\
    Compact.speedLevel s2 = 1.
Proof.
  destruct (C4_auto_resumption Compact.power_on 200
              (assert_pins [Compact.SPEED1_PIN])) as (_ & H).
  destruct H as (s2 & E & _ & _ & L).
  - vm_compute. reflexivity.
  - exists s2. split; [exact E | exact L].
Defined.

(** C4 fails as stated.  The LOW wire is asserted throughout.  The level
    follows it at 200 ms, "high" is typed at 210 ms and "auto" at 220 ms.
    The first sample after "auto", taken at 260 ms, reads level 1, but only
    60 ms have passed since the change at 200 ms, so the sample is not
    adopted: the sketch is in automatic mode at level 3 with duty 256. *)
Lemma C4_counterexample :
  exists s0 s, Compact.setup = Some s0 /\
    Compact.run s0 compact_demo = Some s /\
    Compact.manualMode s = false /\
    Compact.lastUpdate s = 260 /\
    Compact.readSpeedLevel (assert_pins [Compact.SPEED1_PIN]) = 1 /\
    Compact.speedLevel s = 3 /\ Compact.OCR1A s = 256.
Proof.
  eexists. eexists. split; [reflexivity|].
  split; [vm_compute; reflexivity|]. vm_compute. split_and; reflexivity.
Qed.

(** ** C5: debounce *)

Lemma clock_from_weaken {A : Type} (time : A -> Z) (ticks : list A)
    (t0 t1 : Z) :
  t0 <= t1 -> clock_from time t1 ticks -> clock_from time t0 ticks.
Proof.
  destruct ticks as [|tick rest]; simpl; [tauto|].
  intros H01 ((Hlo & Hhi) & Hrest). split; [lia | assumption].
Qed.

Lemma compact_loop_silent (now : Z) (digitalRead : Z -> bool)
    (s : Compact.State) :
  exists s', Compact.loop now digitalRead None s = Some s' /\
    ((Compact.speedLevel s' = Compact.speedLevel s /\
      Compact.lastChange s' = Compact.lastChange s)
     \/
     (accepted now digitalRead s = true /\
      Compact.speedLevel s' = Compact.readSpeedLevel digitalRead /\
      Compact.lastChange s' = now)).
Proof.
  rewrite compact_loop_unfold.
  destruct (compact_checkInputs_spec now digitalRead s)
    as (s1 & E1 & _ & _ & _ & H1).
  rewrite E1. cbv beta iota delta [bind Compact.handleCommands].
  eexists. split; [reflexivity|].
  destruct H1 as [(A & _ & _ & B)|(_ & Hacc & A & B & _)];
    [left|right]; destruct (3000 <? _); simpl; split_and; assumption.
Qed.

Lemma full_loop_silent (mode now : Z) (digitalRead : Z -> bool)
    (analogRead : Z -> Z) (s : Full.State) :
  exists s', Full.loop mode now digitalRead analogRead None s = Some s' /\
    ((Full.currentSpeedLevel s' = Full.currentSpeedLevel s /\
      Full.lastSpeedChange s' = Full.lastSpeedChange s)
     \/
     (full_accepted mode now digitalRead analogRead s = true /\
      Full.currentSpeedLevel s' =
        Full.readThermadorSpeed mode digitalRead analogRead /\
      Full.lastSpeedChange s' = now)).
Proof.
  rewrite full_loop_unfold.
  destruct (full_checkInputs_spec mode now digitalRead analogRead s)
    as (s1 & E1 & _ & _ & H1).
  rewrite E1. cbv beta iota delta [bind Full.handleSerialCommands].
  eexists. split; [reflexivity|].
  destruct H1 as [(A & _ & _ & B)|(_ & Hacc & A & B & _)];
    [left|right]; destruct (5000 <? _); simpl; split_and; assumption.
Qed.

Lemma compact_changeTimes_spaced (ticks : list (Z * (Z -> bool))) :
  forall s,
    0 <= Compact.lastChange s ->
    clock_from fst (Compact.lastChange s) ticks ->
    spaced 100 (Compact.lastChange s) (changeTimes s ticks).
Proof.
  induction ticks as [|[now digitalRead] rest IH]; intros s H0 Hclock;
    simpl; [exact I|].
  simpl in Hclock. destruct Hclock as ((Hlo & Hhi) & Hrest).
  destruct (compact_loop_silent now digitalRead s) as (s' & E & Hcase).
  rewrite E.
  destruct Hcase as [(Hl & Hc)|(Hacc & Hl & Hc)].
  - rewrite Hl, Z.eqb_refl. simpl. rewrite <- Hc. apply IH.
    + rewrite Hc. assumption.
    + rewrite Hc. apply (clock_from_weaken fst rest _ now); assumption.
  - unfold accepted in Hacc. apply andb_true_iff in Hacc.
    destruct Hacc as (Hne & Hgap).
    apply negb_true_iff in Hne. apply Z.ltb_lt in Hgap.
    rewrite (u32_sub_exact now (Compact.lastChange s)) in Hgap by lia.
    rewrite Hl, Hne. simpl. split; [assumption|].
    rewrite <- Hc. apply IH; rewrite Hc; [lia | assumption].
Qed.

Lemma full_changeTimes_spaced (mode : Z)
    (ticks : list (Z * (Z -> bool) * (Z -> Z))) :
  forall s,
    0 <= Full.lastSpeedChange s ->
    clock_from (fun tick => fst (fst tick)) (Full.lastSpeedChange s) ticks ->
    spaced Full.debounceDelay (Full.lastSpeedChange s)
      (full_changeTimes mode s ticks).
Proof.
  induction ticks as [|[[now digitalRead] analogRead] rest IH];
    intros s H0 Hclock; simpl; [exact I|].
  simpl in Hclock. destruct Hclock as ((Hlo & Hhi) & Hrest).
  destruct (full_loop_silent mode now digitalRead analogRead s)
    as (s' & E & Hcase).
  rewrite E.
  destruct Hcase as [(Hl & Hc)|(Hacc & Hl & Hc)].
  - rewrite Hl, Z.eqb_refl. simpl. rewrite <- Hc. apply IH.
    + rewrite Hc. assumption.
    + rewrite Hc.
      apply (clock_from_weaken _ rest _ now); assumption.
  - unfold full_accepted in Hacc. apply andb_true_iff in Hacc.
    destruct Hacc as (Hne & Hgap).
    apply negb_true_iff in Hne. apply Z.ltb_lt in Hgap.
    rewrite (u32_sub_exact now (Full.lastSpeedChange s)) in Hgap by lia.
    rewrite Hl, Hne. simpl. split; [assumption|].
    rewrite <- Hc. apply IH; rewrite Hc; [lia | assumption].
Qed.

(** C5.  In the input check of either sketch (automatic mode in the
    compact one) the level changes only to a sampled level that differs
    from the current one, and only when more than the debounce interval
    (100 ms in the compact sketch, 50 ms in the four-level one) has elapsed
    since the last change the input check accepted; the time of the change
    becomes the new reference.  Consequently, over any run of passes
    without serial input whose clock readings do not decrease or wrap, two
    successive changes of the level are more than one debounce interval
    apart, however fast the input oscillates. *)
Theorem C5_debounce :
  (forall now digitalRead s s',
     Compact.checkInputs now digitalRead s = Some s' ->
     Compact.speedLevel s' <> Compact.speedLevel s ->
     Compact.manualMode s = false /\
     Compact.speedLevel s' = Compact.readSpeedLevel digitalRead /\
     100 < U32.sub now (Compact.lastChange s) /\
     Compact.lastChange s' = now) /\
  (forall ticks s,
     0 <= Compact.lastChange s ->
     clock_from fst (Compact.lastChange s) ticks ->
     spaced 100 (Compact.lastChange s) (changeTimes s ticks)) /\
  (forall mode now digitalRead analogRead s s',
     Full.checkInputs mode now digitalRead analogRead s = Some s' ->
     Full.currentSpeedLevel s' <> Full.currentSpeedLevel s ->
     Full.currentSpeedLevel s' =
       Full.readThermadorSpeed mode digitalRead analogRead /\
     Full.debounceDelay < U32.sub now (Full.lastSpeedChange s) /\
     Full.lastSpeedChange s' = now) /\
  (forall mode ticks s,
     0 <= Full.lastSpeedChange s ->
     clock_from (fun tick => fst (fst tick)) (Full.lastSpeedChange s) ticks ->
     spaced Full.debounceDelay (Full.lastSpeedChange s)
       (full_changeTimes mode s ticks)).
Proof.
  split; [|split; [|split]].
  - intros now digitalRead s s' E Hne.
    destruct (compact_checkInputs_spec now digitalRead s)
      as (s1 & E1 & _ & _ & _ & H1).
    rewrite E in E1. inversion E1; subst s1.
    destruct H1 as [(A & _)|(Hdue & Hacc & A & B & _)]; [contradiction|].
    unfold sampleDue in Hdue. unfold accepted in Hacc.
    apply andb_true_iff in Hdue. destruct Hdue as (_ & Hm).
    apply andb_true_iff in Hacc. destruct Hacc as (_ & Hgap).
    apply negb_true_iff in Hm. apply Z.ltb_lt in Hgap.
    split_and; assumption.
  - intros ticks s. apply compact_changeTimes_spaced.
  - intros mode now digitalRead analogRead s s' E Hne.
    destruct (full_checkInputs_spec mode now digitalRead analogRead s)
      as (s1 & E1 & _ & _ & H1).
    rewrite E in E1. inversion E1; subst s1.
    destruct H1 as [(A & _)|(_ & Hacc & A & B & _)]; [contradiction|].
    unfold full_accepted in Hacc.
    apply andb_true_iff in Hacc. destruct Hacc as (_ & Hgap).
    apply Z.ltb_lt in Hgap.
    split_and; assumption.
  - intros mode ticks s. apply full_changeTimes_spaced.
Qed.

Lemma C5_debounce_witness :
  (exists s',
     Compact.checkInputs 200 (assert_pins [Compact.SPEED1_PIN])
       Compact.power_on = Some s' /\
     100 < U32.sub 200 (Compact.lastChange Compact.power_on) /\
     Compact.lastChange s' = 200) /\
  changeTimes Compact.power_on chatter = [180; 360] /\
  spaced 100 0 (changeTimes Compact.power_on chatter).
Proof.
  split; [|split; [vm_compute; reflexivity|]].
  - assert (E : exists s',
               Compact.checkInputs 200 (assert_pins [Compact.SPEED1_PIN])
                 Compact.power_on = Some s' /\
               Compact.speedLevel s' = 1).
    { eexists. split; vm_compute; reflexivity. }
    destruct E as (s' & E & L).
    destruct (proj1 C5_debounce 200 (assert_pins [Compact.SPEED1_PIN])
                Compact.power_on s' E) as (_ & _ & Hgap & Hc).
    + rewrite L. simpl. discriminate.
    + exists s'. split_and; assumption.
  - apply (proj1 (proj2 C5_debounce) chatter Compact.power_on).
    + simpl. lia.
    + simpl. unfold U32.modulus. lia.
Defined.

(** * Further properties of the sketches *)

(** ** State consistency *)

Lemma compact_table_constrain (i : Z) (speed : F32.float) :
  Compact.FAN_SPEEDS_at i = Some speed ->
  F32.constrain speed F32.zero F32.one = speed.
Proof.
  intros E. destruct (compact_FAN_SPEEDS_at_cases _ _ E) as (Hi & _).
  assert (C : i = 0 \/ i = 1 \/ i = 2 \/ i = 3 \/ i = 4) by lia.
  destruct C as [->|[->|[->|[->| ->]]]]; vm_compute in E; inversion E;
    vm_compute; reflexivity.
Qed.

Lemma compact_manualCommand_speed (n : Z) (s : Compact.State) :
  0 <= n <= 4 ->
  exists s', Compact.manualCommand n s = Some s' /\
    Compact.speedLevel s' = n /\
    Compact.FAN_SPEEDS_at n = Some (Compact.currentSpeed s').
Proof.
  intros Hn. destruct (compact_FAN_SPEEDS_at_total n Hn) as (speed & E).
  destruct (compact_setFanSpeed_table n speed (Compact.set_speedLevel n s) E)
    as (d & _ & _ & Hset).
  unfold Compact.manualCommand. rewrite E.
  cbv beta iota delta [bind]. rewrite Hset.
  eexists. split; [reflexivity|]. simpl.
  rewrite (compact_table_constrain n speed E). split; reflexivity.
Qed.

Lemma compact_checkInputs_speed (now : Z) (digitalRead : Z -> bool)
    (s s' : Compact.State) :
  Compact.checkInputs now digitalRead s = Some s' ->
  (Compact.speedLevel s' = Compact.speedLevel s /\
   Compact.currentSpeed s' = Compact.currentSpeed s) \/
  Compact.FAN_SPEEDS_at (Compact.speedLevel s')
  = Some (Compact.currentSpeed s').
Proof.
  intros E.
  destruct (sampleDue now s) eqn:Hdue.
  - destruct (accepted now digitalRead s) eqn:Hacc.
    + right. revert E. unfold Compact.checkInputs.
      unfold sampleDue in Hdue. unfold accepted in Hacc.
      rewrite Hdue. cbv zeta. simpl Compact.speedLevel.
      simpl Compact.lastChange. rewrite Hacc.
      pose proof (compact_readSpeedLevel_range digitalRead) as Hr.
      destruct (compact_FAN_SPEEDS_at_total _ Hr) as (speed & Es).
      rewrite Es. cbv beta iota delta [bind].
      destruct (compact_setFanSpeed_table _ speed
                  (Compact.set_speedLevel (Compact.readSpeedLevel digitalRead)
                     (Compact.set_lastUpdate now s)) Es)
        as (d & _ & _ & Hset).
      rewrite Hset. intros E. inversion E; subst s'.
      unfold Compact.updateRPM, Compact.updateRPM_irq.
      destruct (1000 <=? _); simpl;
        rewrite (compact_table_constrain _ speed Es); exact Es.
    + left. rewrite (compact_checkInputs_hold now digitalRead s Hdue Hacc) in E.
      inversion E; subst s'.
      unfold Compact.updateRPM, Compact.updateRPM_irq.
      destruct (1000 <=? _); simpl; split; reflexivity.
  - left. rewrite (compact_checkInputs_skip now digitalRead s Hdue) in E.
    inversion E; subst s'. split; reflexivity.
Qed.

Lemma compact_handleCommands_speed_kept (serial : option string)
    (s s' : Compact.State) :
  Compact.handleCommands serial s = Some s' ->
  (Compact.speedLevel s' = Compact.speedLevel s /\
   Compact.currentSpeed s' = Compact.currentSpeed s) \/
  Compact.FAN_SPEEDS_at (Compact.speedLevel s')
  = Some (Compact.currentSpeed s').
Proof.
  destruct (compact_handleCommands_cases serial s)
    as [E|[(cmd & n & _ & Hn & E)|[(_ & E)|(_ & E)]]]; rewrite E; intros H.
  - inversion H; subst s'. left. split; reflexivity.
  - right. destruct (compact_manualCommand_speed n s (commandLevel_range _ _ Hn))
      as (s1 & E1 & L1 & S1).
    rewrite E1 in H. inversion H; subst s'. rewrite L1. exact S1.
  - inversion H; subst s'. left. split; reflexivity.
  - right. revert H. vm_compute. intros H. inversion H. reflexivity.
Qed.

Lemma compact_step_consistent (s s' : Compact.State) (ev : Compact.Event) :
  compact_consistent s -> Compact.step s ev = Some s' ->
  compact_consistent s'.
Proof.
  intros (I & Hs) E. split.
  - destruct (compact_step_inv s ev I) as (s1 & E1 & I1).
    rewrite E in E1. inversion E1; subst s1. exact I1.
  - destruct ev as [|now digitalRead serial]; simpl in E.
    + inversion E; subst s'. exact Hs.
    + rewrite compact_loop_unfold in E.
      destruct (Compact.checkInputs now digitalRead s) as [s1|] eqn:E1;
        [|discriminate E].
      cbv beta iota delta [bind] in E.
      assert (H1 : Compact.FAN_SPEEDS_at (Compact.speedLevel s1)
                   = Some (Compact.currentSpeed s1)).
      { destruct (compact_checkInputs_speed _ _ _ _ E1) as [(A & B)|A];
          [rewrite A, B|]; assumption. }
      destruct (compact_handleCommands_speed_kept _ _ _ E) as [(A & B)|A];
        [|exact A].
      rewrite A, B. destruct (3000 <? _); exact H1.
Qed.

Lemma compact_run_consistent (evs : list Compact.Event) :
  forall s s', compact_consistent s -> Compact.run s evs = Some s' ->
  compact_consistent s'.
Proof.
  induction evs as [|ev evs IH]; intros s s' I E; simpl in E.
  - inversion E; subst s'. exact I.
  - destruct (Compact.step s ev) as [s1|] eqn:E1; [|discriminate E].
    apply (IH s1 s'); [|exact E].
    apply (compact_step_consistent s s1 ev); assumption.
Qed.

Lemma compact_reachable_consistent (s : Compact.State) :
  Compact.reachable s -> compact_consistent s.
Proof.
  intros (s0 & evs & E0 & Er).
  apply (compact_run_consistent evs s0 s); [|exact Er].
  destruct compact_setup_inv as (s0' & E0' & I0).
  rewrite E0 in E0'. inversion E0'; subst s0'.
  split; [exact I0|]. vm_compute in E0. inversion E0. reflexivity.
Qed.

Lemma full_targetSpeed_constrain (level : Z) :
  F32.constrain (Full.targetSpeed level) F32.zero F32.one
  = Full.targetSpeed level.
Proof.
  destruct (full_targetSpeed_cases level) as [->|[->|[->| ->]]];
    vm_compute; reflexivity.
Qed.

Lemma full_updateCloudlineSpeed_speed (s s' : Full.State) :
  Full.updateCloudlineSpeed s = Some s' ->
  Full.currentSpeedLevel s' = Full.currentSpeedLevel s /\
  Full.currentFanSpeed s' = Full.targetSpeed (Full.currentSpeedLevel s).
Proof.
  unfold Full.updateCloudlineSpeed. rewrite full_setCloudlineSpeed_dutyOf.
  destruct (Full.dutyOf _) as [d|]; [|discriminate].
  cbv beta iota delta [bind]. intros E. inversion E. simpl.
  split; [reflexivity | apply full_targetSpeed_constrain].
Qed.

Lemma full_checkInputs_speed (mode now : Z) (digitalRead : Z -> bool)
    (analogRead : Z -> Z) (s s' : Full.State) :
  Full.checkInputs mode now digitalRead analogRead s = Some s' ->
  (Full.currentSpeedLevel s' = Full.currentSpeedLevel s /\
   Full.currentFanSpeed s' = Full.currentFanSpeed s) \/
  Full.currentFanSpeed s' = Full.targetSpeed (Full.currentSpeedLevel s').
Proof.
  intros E.
  destruct (full_sampleDue now s) eqn:Hdue.
  - destruct (full_accepted mode now digitalRead analogRead s) eqn:Hacc.
    + right. revert E. unfold Full.checkInputs.
      unfold full_sampleDue in Hdue. unfold full_accepted in Hacc.
      apply andb_true_iff in Hacc. destruct Hacc as (H1 & H2).
      rewrite Hdue. cbv zeta. simpl Full.currentSpeedLevel.
      simpl Full.lastSpeedChange. rewrite H1, H2.
      match goal with |- context [Full.updateCloudlineSpeed ?t] =>
        destruct (Full.updateCloudlineSpeed t) as [s1|] eqn:E1;
        [pose proof (full_updateCloudlineSpeed_speed t s1 E1) as (L1 & S1)
        |discriminate] end.
      cbv beta iota delta [bind]. intros E. inversion E; subst s'.
      unfold Full.updateRPM, Full.updateRPM_irq.
      destruct (1000 <=? _); simpl; rewrite L1, S1; reflexivity.
    + left. rewrite (full_checkInputs_hold mode now digitalRead analogRead s
                       Hdue Hacc) in E.
      inversion E; subst s'.
      unfold Full.updateRPM, Full.updateRPM_irq.
      destruct (1000 <=? _); simpl; split; reflexivity.
  - left. rewrite (full_checkInputs_skip mode now digitalRead analogRead s
                     Hdue) in E.
    inversion E; subst s'. split; reflexivity.
Qed.

Lemma full_handleSerialCommands_speed_kept (serial : option string)
    (s s' : Full.State) :
  Full.handleSerialCommands serial s = Some s' ->
  (Full.currentSpeedLevel s' = Full.currentSpeedLevel s /\
   Full.currentFanSpeed s' = Full.currentFanSpeed s) \/
  Full.currentFanSpeed s' = Full.targetSpeed (Full.currentSpeedLevel s').
Proof.
  destruct (full_handleSerialCommands_cases serial s)
    as [E|[(command & n & _ & Hn & E)|(_ & E)]]; rewrite E; intros H.
  - inversion H; subst s'. left. split; reflexivity.
  - right. destruct (full_updateCloudlineSpeed_speed _ _ H) as (L1 & S1).
    rewrite L1, S1. reflexivity.
  - right. revert H. vm_compute. intros H. inversion H. reflexivity.
Qed.

Lemma full_run_consistent (mode : Z) (evs : list Full.Event) :
  forall s s', full_consistent s -> Full.run mode s evs = Some s' ->
  full_consistent s'.
Proof.
  induction evs as [|ev evs IH]; intros s s' I E; simpl in E.
  - inversion E; subst s'. exact I.
  - destruct (Full.step mode s ev) as [s1|] eqn:E1; [|discriminate E].
    apply (IH s1 s'); [|exact E].
    destruct I as (I & Hs). split.
    + destruct (full_run_inv mode [ev] s I) as (s2 & E2 & I2).
      simpl in E2. rewrite E1 in E2. inversion E2; subst s2. exact I2.
    + destruct ev as [|now digitalRead analogRead serial]; simpl in E1.
      * inversion E1; subst s1. exact Hs.
      * rewrite full_loop_unfold in E1.
        destruct (Full.checkInputs mode now digitalRead analogRead s)
          as [s0|] eqn:E0; [|discriminate E1].
        cbv beta iota delta [bind] in E1.
        assert (H1 : Full.currentFanSpeed s0
                     = Full.targetSpeed (Full.currentSpeedLevel s0)).
        { destruct (full_checkInputs_speed _ _ _ _ _ _ E0) as [(A & B)|A];
            [rewrite A, B|]; assumption. }
        destruct (full_handleSerialCommands_speed_kept _ _ _ E1)
          as [(A & B)|A]; [|exact A].
        rewrite A, B. destruct (5000 <? _); exact H1.
Qed.

Lemma full_reachable_consistent (mode : Z) (s : Full.State) :
  Full.reachable mode s -> full_consistent s.
Proof.
  intros (s0 & evs & E0 & Er).
  apply (full_run_consistent mode evs s0 s); [|exact Er].
  destruct full_setup_inv as (s0' & E0' & I0).
  rewrite E0 in E0'. inversion E0'; subst s0'.
  split; [exact I0|]. vm_compute in E0. inversion E0. reflexivity.
Qed.

(** X1.  In every state either sketch can reach, the compare register
    holds the duty of the current level and the stored normalized speed is
    the table entry of the current level: level, speed and duty never
    disagree, whatever mixes of samples, commands and test runs occurred. *)
Theorem X1_level_speed_duty_agree :
  (forall s, Compact.reachable s ->
     Compact.toDuty (Compact.speedLevel s) = Some (Compact.OCR1A s) /\
     Compact.FAN_SPEEDS_at (Compact.speedLevel s)
     = Some (Compact.currentSpeed s) /\
     Compact.dutyOf (Compact.currentSpeed s) = Some (Compact.OCR1A s)) /\
  (forall mode s, Full.reachable mode s ->
     Full.toDuty (Full.currentSpeedLevel s) = Some (Full.OCR1A s) /\
     Full.currentFanSpeed s = Full.targetSpeed (Full.currentSpeedLevel s) /\
     Full.dutyOf (Full.currentFanSpeed s) = Some (Full.OCR1A s)).
Proof.
  split.
  - intros s Hr.
    destruct (compact_reachable_consistent s Hr) as ((_ & Hd & _) & Hs).
    split_and; try assumption.
    rewrite compact_toDuty_dutyOf, Hs in Hd. exact Hd.
  - intros mode s Hr.
    destruct (full_reachable_consistent mode s Hr) as ((_ & Hd & _) & Hs).
    split_and; try assumption.
    rewrite full_toDuty_dutyOf, <- Hs in Hd. exact Hd.
Qed.

Lemma X1_level_speed_duty_agree_witness :
  exists s0 s, Compact.setup = Some s0 /\
    Compact.run s0 compact_demo = Some s /\
    Compact.speedLevel s = 3 /\ Compact.OCR1A s = 256 /\
    Compact.toDuty (Compact.speedLevel s) = Some (Compact.OCR1A s).
Proof.
  assert (E : exists s0 s, Compact.setup = Some s0 /\
                Compact.run s0 compact_demo = Some s /\
                Compact.speedLevel s = 3 /\ Compact.OCR1A s = 256).
  { eexists. eexists. split; [reflexivity|].
    split; [vm_compute; reflexivity|]. split; reflexivity. }
  destruct E as (s0 & s & E0 & E & L & O).
  exists s0, s. split_and; try assumption.
  apply (proj1 X1_level_speed_duty_agree s).
  exists s0, compact_demo. split; assumption.
Defined.

(** ** The status line *)

Lemma f32_exact_trunc (x : F32.float) (z : Z) :
  F32.exact_Z x = Some z -> F32.trunc x = Some z.
Proof.
  destruct x as [sg|sg| |sg m e]; simpl; try discriminate;
    try (intros H; exact H).
  destruct (0 <=? e); [intros H; exact H|].
  match goal with |- context [if ?b then _ else _] =>
    destruct b; [|discriminate] end.
  intros H. inversion H. f_equal. f_equal.
  unfold Z.shiftr. rewrite Z.opp_involutive. reflexivity.
Qed.

Lemma rpmOf_to_int16 (delta : Z) :
  0 <= delta < 65536 ->
  F32.to_int16 (rpmOf delta)
  = (if delta <=? 1092 then Some (delta * 60 / 2) else None).
Proof.
  intros Hd. unfold F32.to_int16.
  rewrite (f32_exact_trunc _ _ (rpm_exact_below_65536 delta Hd)).
  cbv beta iota delta [bind].
  replace (delta * 60 / 2) with (30 * delta)
    by (rewrite <- (Z.div_mul (30 * delta) 2) by lia; f_equal; lia).
  destruct (Z.leb_spec delta 1092) as [Hle|Hgt].
  - replace (-32768 <=? 30 * delta) with true
      by (symmetry; apply Z.leb_le; lia).
    replace (30 * delta <=? 32767) with true
      by (symmetry; apply Z.leb_le; lia).
    reflexivity.
  - replace (30 * delta <=? 32767) with false
      by (symmetry; apply Z.leb_gt; lia).
    rewrite andb_false_r. reflexivity.
Qed.

Lemma compact_percent (i : Z) (speed : F32.float) :
  Compact.FAN_SPEEDS_at i = Some speed ->
  F32.to_int16 (F32.mul speed (F32.of_Z 100)) = Some (25 * i).
Proof.
  intros E. destruct (compact_FAN_SPEEDS_at_cases _ _ E) as (Hi & _).
  assert (C : i = 0 \/ i = 1 \/ i = 2 \/ i = 3 \/ i = 4) by lia.
  destruct C as [->|[->|[->|[->| ->]]]]; vm_compute in E; inversion E;
    vm_compute; reflexivity.
Qed.

(** X2.  [printStatus] of the compact sketch.  In every reachable state
    the percentage it prints, [(int)(currentSpeed * 100)], is 25 times the
    level.  Right after a due RPM update with a pulse delta below 65536,
    the RPM it prints is exactly 30 times the delta as long as the delta
    is at most 1092 (32760 rpm); for a larger delta the estimate does not
    fit the 16-bit [int] and the conversion [(int)rpm] is undefined. *)
Theorem X2_status_numbers :
  (forall s, Compact.reachable s ->
     F32.to_int16 (F32.mul (Compact.currentSpeed s) (F32.of_Z 100))
     = Some (25 * Compact.speedLevel s)) /\
  (forall now s,
     Compact.reachable s ->
     1000 <= U32.sub now (Compact.lastRPMTime s) ->
     window_delta s < 65536 ->
     Compact.printStatus (Compact.updateRPM now s)
     = (if window_delta s <=? 1092
        then Some (Compact.speedLevel s, 25 * Compact.speedLevel s,
                   30 * window_delta s)
        else None)).
Proof.
  split.
  - intros s Hr.
    destruct (compact_reachable_consistent s Hr) as (_ & Hs).
    apply (compact_percent _ _ Hs).
  - intros now s Hr Hdue Hd.
    destruct (compact_reachable_consistent s Hr) as (_ & Hs).
    unfold Compact.printStatus, Compact.updateRPM.
    rewrite (compact_updateRPM_due 0 now s Hdue).
    match goal with |- context [Compact.currentSpeed ?t] =>
      change (Compact.currentSpeed t) with (Compact.currentSpeed s);
      change (Compact.rpm t) with (rpmOf (window_delta s));
      change (Compact.speedLevel t) with (Compact.speedLevel s) end.
    rewrite (compact_percent _ _ Hs). cbv beta iota delta [bind].
    pose proof (u32_sub_range (Compact.tachCount s) (Compact.lastCount s))
      as Hrange.
    fold (window_delta s) in Hrange.
    rewrite rpmOf_to_int16 by lia.
    destruct (window_delta s <=? 1092); [|reflexivity].
    cbv beta iota delta [bind].
    replace (window_delta s * 60) with (30 * window_delta s * 2) by lia.
    rewrite Z.div_mul by lia. reflexivity.
Qed.

(** ** Names and the status LED *)

(** X3.  The level name printed by either sketch is never "UNKNOWN" in a
    reachable state, and different levels have different names. *)
Theorem X3_speed_names :
  (forall s, Compact.reachable s ->
     Compact.getSpeedName s <> "UNKNOWN"%string) /\
  (forall s1 s2,
     0 <= Compact.speedLevel s1 <= 4 -> 0 <= Compact.speedLevel s2 <= 4 ->
     Compact.getSpeedName s1 = Compact.getSpeedName s2 ->
     Compact.speedLevel s1 = Compact.speedLevel s2) /\
  (forall mode s, Full.reachable mode s ->
     Full.getSpeedName (Full.currentSpeedLevel s) <> "UNKNOWN"%string) /\
  (forall l1 l2, 0 <= l1 <= 3 -> 0 <= l2 <= 3 ->
     Full.getSpeedName l1 = Full.getSpeedName l2 -> l1 = l2).
Proof.
  split; [|split; [|split]].
  - intros s Hr. destruct (compact_reachable_inv s Hr) as (Hl & _).
    unfold Compact.getSpeedName.
    assert (C : Compact.speedLevel s = 0 \/ Compact.speedLevel s = 1 \/
                Compact.speedLevel s = 2 \/ Compact.speedLevel s = 3 \/
                Compact.speedLevel s = 4) by lia.
    destruct C as [->|[->|[->|[->| ->]]]]; simpl; discriminate.
  - intros s1 s2 H1 H2. unfold Compact.getSpeedName.
    assert (C1 : Compact.speedLevel s1 = 0 \/ Compact.speedLevel s1 = 1 \/
                 Compact.speedLevel s1 = 2 \/ Compact.speedLevel s1 = 3 \/
                 Compact.speedLevel s1 = 4) by lia.
    assert (C2 : Compact.speedLevel s2 = 0 \/ Compact.speedLevel s2 = 1 \/
                 Compact.speedLevel s2 = 2 \/ Compact.speedLevel s2 = 3 \/
                 Compact.speedLevel s2 = 4) by lia.
    destruct C1 as [->|[->|[->|[->| ->]]]];
      destruct C2 as [->|[->|[->|[->| ->]]]]; simpl; intros E;
      try reflexivity; discriminate E.
  - intros mode s Hr. destruct (full_reachable_inv mode s Hr) as (Hl & _).
    unfold Full.getSpeedName.
    assert (C : Full.currentSpeedLevel s = 0 \/ Full.currentSpeedLevel s = 1 \/
                Full.currentSpeedLevel s = 2 \/ Full.currentSpeedLevel s = 3)
      by lia.
    destruct C as [->|[->|[->| ->]]]; simpl; discriminate.
  - intros l1 l2 H1 H2. unfold Full.getSpeedName.
    assert (C1 : l1 = 0 \/ l1 = 1 \/ l1 = 2 \/ l1 = 3) by lia.
    assert (C2 : l2 = 0 \/ l2 = 1 \/ l2 = 2 \/ l2 = 3) by lia.
    destruct C1 as [->|[->|[->| ->]]]; destruct C2 as [->|[->|[->| ->]]];
      simpl; intros E; try reflexivity; discriminate E.
Qed.

Lemma blink_toggle (now interval : Z) :
  0 <= now -> 0 < interval ->
  ((now + interval) / interval) mod 2 = 1 - (now / interval) mod 2.
Proof.
  intros Hn Hi.
  replace (now + interval) with (now + 1 * interval) by lia.
  rewrite Z.div_add by lia.
  pose proof (Z.mod_pos_bound (now / interval) 2 ltac:(lia)) as Hb.
  pose proof (Z.div_mod (now / interval) 2 ltac:(lia)) as Hq.
  set (q := now / interval) in *.
  assert (C : q mod 2 = 0 \/ q mod 2 = 1) by lia.
  destruct C as [C|C]; rewrite C in *.
  - replace (q + 1) with (1 + (q / 2) * 2) by lia.
    rewrite Z.mod_add by lia. reflexivity.
  - replace (q + 1) with (0 + (q / 2 + 1) * 2) by lia.
    rewrite Z.mod_add by lia. reflexivity.
Qed.

(** X4.  The status LED.  The value written to the LED pin is 0 or 1; it
    flips exactly one blink interval later (as long as the clock has not
    wrapped by then); and the interval shrinks
    strictly as the level rises (2000, 1000, 500, 250, 100 ms in the
    compact sketch, 2000, 1000, 500, 200 ms in the four-level one), so a
    faster blink always means a higher level. *)
Theorem X4_status_led :
  (forall now s,
     0 <= now ->
     now + Compact.ledInterval (Compact.speedLevel s) < U32.modulus ->
     (Compact.updateLED now s = 0 \/ Compact.updateLED now s = 1) /\
     Compact.updateLED (now + Compact.ledInterval (Compact.speedLevel s)) s
     = 1 - Compact.updateLED now s) /\
  (forall a b, 0 <= a -> a < b -> b <= 4 ->
     0 < Compact.ledInterval b < Compact.ledInterval a) /\
  (forall now s,
     0 <= now ->
     now + Full.blinkInterval (Full.currentSpeedLevel s) < U32.modulus ->
     (Full.updateStatusLED now s = 0 \/ Full.updateStatusLED now s = 1) /\
     Full.updateStatusLED
       (now + Full.blinkInterval (Full.currentSpeedLevel s)) s
     = 1 - Full.updateStatusLED now s) /\
  (forall a b, 0 <= a -> a < b -> b <= 3 ->
     0 < Full.blinkInterval b < Full.blinkInterval a).
Proof.
  assert (Pc : forall l, 0 < Compact.ledInterval l).
  { intros l. unfold Compact.ledInterval.
    repeat match goal with |- context [if ?b then _ else _] =>
             destruct b end; lia. }
  assert (Pf : forall l, 0 < Full.blinkInterval l).
  { intros l. unfold Full.blinkInterval.
    repeat match goal with |- context [if ?b then _ else _] =>
             destruct b end; lia. }
  split; [|split; [|split]].
  - intros now s Hn _. unfold Compact.updateLED. split.
    + pose proof (Z.mod_pos_bound
                    (now / Compact.ledInterval (Compact.speedLevel s)) 2
                    ltac:(lia)). lia.
    + apply blink_toggle; [assumption | apply Pc].
  - intros a b Ha Hab Hb. unfold Compact.ledInterval.
    assert (Ca : a = 0 \/ a = 1 \/ a = 2 \/ a = 3) by lia.
    assert (Cb : b = 1 \/ b = 2 \/ b = 3 \/ b = 4) by lia.
    destruct Ca as [->|[->|[->| ->]]]; destruct Cb as [->|[->|[->| ->]]];
      simpl; lia.
  - intros now s Hn _. unfold Full.updateStatusLED. split.
    + pose proof (Z.mod_pos_bound
                    (now / Full.blinkInterval (Full.currentSpeedLevel s)) 2
                    ltac:(lia)). lia.
    + apply blink_toggle; [assumption | apply Pf].
  - intros a b Ha Hab Hb. unfold Full.blinkInterval.
    assert (Ca : a = 0 \/ a = 1 \/ a = 2) by lia.
    assert (Cb : b = 1 \/ b = 2 \/ b = 3) by lia.
    destruct Ca as [->|[->| ->]]; destruct Cb as [->|[->| ->]];
      simpl; lia.
Qed.

Lemma X2_status_numbers_witness :
  exists s0 s1 s2,
    Compact.setup = Some s0 /\
    Compact.run s0 (repeat Compact.TachEdge 100) = Some s1 /\
    Compact.printStatus (Compact.updateRPM 1000 s1) = Some (0, 0, 3000) /\
    Compact.run s0 (repeat Compact.TachEdge 1100) = Some s2 /\
    Compact.printStatus (Compact.updateRPM 1000 s2) = None.
Proof.
  assert (E : exists s0 s1 s2,
            Compact.setup = Some s0 /\
            Compact.run s0 (repeat Compact.TachEdge 100) = Some s1 /\
            Compact.run s0 (repeat Compact.TachEdge 1100) = Some s2 /\
            (Compact.speedLevel s1 = 0 /\ window_delta s1 = 100 /\
             Compact.lastRPMTime s1 = 0) /\
            (Compact.speedLevel s2 = 0 /\ window_delta s2 = 1100 /\
             Compact.lastRPMTime s2 = 0)).
  { eexists. eexists. eexists. split; [reflexivity|].
    split; [vm_compute; reflexivity|].
    split; [vm_compute; reflexivity|].
    split; vm_compute; split_and; reflexivity. }
  destruct E as (s0 & s1 & s2 & E0 & E1 & E2 & (L1 & D1 & T1) & (L2 & D2 & T2)).
  exists s0, s1, s2. split_and; try assumption.
  - rewrite (proj2 X2_status_numbers 1000 s1).
    + rewrite L1, D1. reflexivity.
    + exists s0, (repeat Compact.TachEdge 100). split; assumption.
    + rewrite T1. vm_compute. discriminate.
    + rewrite D1. lia.
  - rewrite (proj2 X2_status_numbers 1000 s2).
    + rewrite D2. reflexivity.
    + exists s0, (repeat Compact.TachEdge 1100). split; assumption.
    + rewrite T2. vm_compute. discriminate.
    + rewrite D2. lia.
Defined.

Lemma X3_speed_names_witness :
  exists s0 s, Compact.setup = Some s0 /\
    Compact.run s0 compact_demo = Some s /\
    Compact.getSpeedName s <> "UNKNOWN"%string.
Proof.
  assert (E : exists s0 s, Compact.setup = Some s0 /\
                Compact.run s0 compact_demo = Some s).
  { eexists. eexists. split; [reflexivity|]. vm_compute. reflexivity. }
  destruct E as (s0 & s & E0 & E).
  exists s0, s. split_and; try assumption.
  apply (proj1 X3_speed_names s).
  exists s0, compact_demo. split; assumption.
Defined.

Lemma X4_status_led_witness :
  Compact.updateLED (1500 + 2000) Compact.power_on
  = 1 - Compact.updateLED 1500 Compact.power_on /\
  0 < Compact.ledInterval 4 < Compact.ledInterval 1.
Proof.
  split.
  - apply (proj1 X4_status_led 1500 Compact.power_on);
      [lia | unfold U32.modulus; simpl; lia].
  - apply (proj1 (proj2 X4_status_led) 1 4); lia.
Defined.

(** ** The analog sampler *)

(** X5.  With any control mode other than digital, [readThermadorSpeed]
    looks at the analog line only: the level does not depend on the speed
    wires, never decreases when the reading rises, and stays in [0, 3].
    Readings below 100 (negative ones included) give level 0 and readings
    of 600 and more (beyond 1023 included) give level 3: out-of-range
    readings fall into the end buckets. *)
Theorem X5_analog_sampler :
  forall mode digitalRead1 digitalRead2 analogRead1 analogRead2,
    mode <> Full.CONTROL_MODE_DIGITAL ->
    analogRead1 Full.THERMADOR_ANALOG_PIN
    <= analogRead2 Full.THERMADOR_ANALOG_PIN ->
    0 <= Full.readThermadorSpeed mode digitalRead1 analogRead1 /\
    Full.readThermadorSpeed mode digitalRead1 analogRead1
    <= Full.readThermadorSpeed mode digitalRead2 analogRead2 /\
    Full.readThermadorSpeed mode digitalRead2 analogRead2 <= 3 /\
    (Full.readThermadorSpeed mode digitalRead1 analogRead1 = 0
     <-> analogRead1 Full.THERMADOR_ANALOG_PIN < 100) /\
    (Full.readThermadorSpeed mode digitalRead1 analogRead1 = 3
     <-> 600 <= analogRead1 Full.THERMADOR_ANALOG_PIN).
Proof.
  intros mode d1 d2 a1 a2 Hm Hle.
  unfold Full.readThermadorSpeed.
  destruct (Z.eqb_spec mode Full.CONTROL_MODE_DIGITAL) as [E|_];
    [contradiction|].
  cbv zeta.
  destruct (Z.ltb_spec (a1 Full.THERMADOR_ANALOG_PIN) 100),
    (Z.ltb_spec (a1 Full.THERMADOR_ANALOG_PIN) 300),
    (Z.ltb_spec (a1 Full.THERMADOR_ANALOG_PIN) 600),
    (Z.ltb_spec (a2 Full.THERMADOR_ANALOG_PIN) 100),
    (Z.ltb_spec (a2 Full.THERMADOR_ANALOG_PIN) 300),
    (Z.ltb_spec (a2 Full.THERMADOR_ANALOG_PIN) 600); lia.
Qed.

Lemma X5_analog_sampler_witness :
  Full.readThermadorSpeed Full.CONTROL_MODE_ANALOG released (analog_at (-5))
  <= Full.readThermadorSpeed Full.CONTROL_MODE_ANALOG
       (assert_pins [Full.THERMADOR_SPEED3_PIN]) (analog_at 2000) /\
  Full.readThermadorSpeed Full.CONTROL_MODE_ANALOG
    (assert_pins [Full.THERMADOR_SPEED3_PIN]) (analog_at 2000) <= 3.
Proof.
  destruct (X5_analog_sampler Full.CONTROL_MODE_ANALOG released
              (assert_pins [Full.THERMADOR_SPEED3_PIN])
              (analog_at (-5)) (analog_at 2000))
    as (_ & H1 & H2 & _).
  - discriminate.
  - unfold analog_at. lia.
  - split; assumption.
Defined.

(** ** Out-of-range speeds and levels *)

Lemma f32_above_one_not_negative (speed : F32.float) :
  F32.ltb F32.one speed = true -> F32.ltb speed F32.zero = false.
Proof.
  destruct speed as [sg|[|]| |[|] m e]; try reflexivity;
    vm_compute; intros H; try discriminate H; reflexivity.
Qed.

Lemma f32_constrain_low (speed : F32.float) :
  F32.ltb speed F32.zero = true ->
  F32.constrain speed F32.zero F32.one = F32.zero.
Proof. unfold F32.constrain. intros ->. reflexivity. Qed.

Lemma f32_constrain_high (speed : F32.float) :
  F32.ltb F32.one speed = true ->
  F32.constrain speed F32.zero F32.one = F32.one.
Proof.
  unfold F32.constrain. intros H.
  rewrite (f32_above_one_not_negative speed H), H. reflexivity.
Qed.

(** X6.  [setFanSpeed] and [setCloudlineSpeed] clamp instead of failing:
    any speed below 0.0 (minus infinity included) stores speed 0.0 and
    duty 0, any speed above 1.0 (plus infinity included) stores speed 1.0
    and the full duty 320. *)
Theorem X6_speed_clamp :
  (forall speed s, F32.ltb speed F32.zero = true ->
     exists s', Compact.setFanSpeed speed s = Some s' /\
       Compact.currentSpeed s' = F32.zero /\ Compact.OCR1A s' = 0) /\
  (forall speed s, F32.ltb F32.one speed = true ->
     exists s', Compact.setFanSpeed speed s = Some s' /\
       Compact.currentSpeed s' = F32.one /\ Compact.OCR1A s' = TOP) /\
  (forall speed s, F32.ltb speed F32.zero = true ->
     exists s', Full.setCloudlineSpeed speed s = Some s' /\
       Full.currentFanSpeed s' = F32.zero /\ Full.OCR1A s' = 0) /\
  (forall speed s, F32.ltb F32.one speed = true ->
     exists s', Full.setCloudlineSpeed speed s = Some s' /\
       Full.currentFanSpeed s' = F32.one /\ Full.OCR1A s' = TOP).
Proof.
  split; [|split; [|split]]; intros speed s H.
  - rewrite compact_setFanSpeed_dutyOf. unfold Compact.dutyOf.
    rewrite (f32_constrain_low speed H).
    eexists. split; [vm_compute; reflexivity|]. split; reflexivity.
  - rewrite compact_setFanSpeed_dutyOf. unfold Compact.dutyOf.
    rewrite (f32_constrain_high speed H).
    eexists. split; [vm_compute; reflexivity|]. split; reflexivity.
  - rewrite full_setCloudlineSpeed_dutyOf. unfold Full.dutyOf.
    rewrite (f32_constrain_low speed H).
    eexists. split; [vm_compute; reflexivity|]. split; reflexivity.
  - rewrite full_setCloudlineSpeed_dutyOf. unfold Full.dutyOf.
    rewrite (f32_constrain_high speed H).
    eexists. split; [vm_compute; reflexivity|]. split; reflexivity.
Qed.

Lemma X6_speed_clamp_witness :
  (exists s', Compact.setFanSpeed (F32.of_Z (-3)) Compact.power_on = Some s' /\
     Compact.currentSpeed s' = F32.zero /\ Compact.OCR1A s' = 0) /\
  (exists s', Compact.setFanSpeed (S754_infinity false) Compact.power_on
              = Some s' /\
     Compact.currentSpeed s' = F32.one /\ Compact.OCR1A s' = TOP).
Proof.
  split.
  - apply (proj1 X6_speed_clamp). vm_compute. reflexivity.
  - apply (proj1 (proj2 X6_speed_clamp)). vm_compute. reflexivity.
Defined.

(** X7.  [updateCloudlineSpeed] is defined for every level: a level
    outside 0..3 takes the [default] branch of the switch, which turns the
    fan off (speed 0.0, duty 0). *)
Theorem X7_unknown_level_is_off :
  forall s, Full.currentSpeedLevel s < 0 \/ 3 < Full.currentSpeedLevel s ->
    exists s', Full.updateCloudlineSpeed s = Some s' /\
      Full.currentFanSpeed s' = F32.zero /\ Full.OCR1A s' = 0 /\
      Full.currentSpeedLevel s' = Full.currentSpeedLevel s.
Proof.
  intros s H.
  assert (T : Full.targetSpeed (Full.currentSpeedLevel s) = Full.FAN_OFF).
  { unfold Full.targetSpeed.
    destruct (Z.eqb_spec (Full.currentSpeedLevel s) 0); [lia|].
    destruct (Z.eqb_spec (Full.currentSpeedLevel s) 1); [lia|].
    destruct (Z.eqb_spec (Full.currentSpeedLevel s) 2); [lia|].
    destruct (Z.eqb_spec (Full.currentSpeedLevel s) 3); [lia|].
    reflexivity. }
  unfold Full.updateCloudlineSpeed. rewrite T.
  eexists. split; [vm_compute; reflexivity|]. split_and; reflexivity.
Qed.

Lemma X7_unknown_level_is_off_witness :
  exists s', Full.updateCloudlineSpeed
               (Full.set_currentSpeedLevel 7 Full.power_on) = Some s' /\
    Full.currentFanSpeed s' = F32.zero /\ Full.OCR1A s' = 0 /\
    Full.currentSpeedLevel s' = 7.
Proof.
  apply (X7_unknown_level_is_off
           (Full.set_currentSpeedLevel 7 Full.power_on)).
  right. simpl. lia.
Defined.

(** ** The test routines *)

(** X8.  The test routines never fail and do the same thing from every
    state: they write the duties of all levels in rising order (0, 128,
    192, 256, 320 in the compact sketch, 0, 140, 217, 320 in the four-level
    one) and then 0, and they end at level 0 with speed 0.0 and duty 0.
    They change neither the mode nor any timer nor the tachometer
    bookkeeping. *)
Theorem X8_test_routines :
  (forall s, exists s', Compact.runTest s = Some s' /\
     Compact.speedLevel s' = 0 /\ Compact.OCR1A s' = 0 /\
     Compact.currentSpeed s' = F32.zero /\
     Compact.pwm_log s' = [0; 320; 256; 192; 128; 0] ++ Compact.pwm_log s /\
     Compact.manualMode s' = Compact.manualMode s /\
     Compact.lastChange s' = Compact.lastChange s /\
     Compact.lastUpdate s' = Compact.lastUpdate s /\
     Compact.tachCount s' = Compact.tachCount s /\
     Compact.rpm s' = Compact.rpm s /\
     Compact.lastCount s' = Compact.lastCount s /\
     Compact.lastRPMTime s' = Compact.lastRPMTime s) /\
  (forall s, exists s', Full.runSpeedTest s = Some s' /\
     Full.currentSpeedLevel s' = 0 /\ Full.OCR1A s' = 0 /\
     Full.currentFanSpeed s' = F32.zero /\
     Full.pwm_log s' = [0; 320; 217; 140; 0] ++ Full.pwm_log s /\
     Full.lastSpeedChange s' = Full.lastSpeedChange s /\
     Full.lastUpdate s' = Full.lastUpdate s /\
     Full.tachPulseCount s' = Full.tachPulseCount s /\
     Full.currentRPM s' = Full.currentRPM s /\
     Full.lastPulseCount s' = Full.lastPulseCount s /\
     Full.lastRPMUpdate s' = Full.lastRPMUpdate s).
Proof.
  split; intros s.
  - destruct (compact_runTest_spec s)
      as (s' & E & L & O & P & M & Rest).
    exists s'. split_and; try tauto.
    revert E. vm_compute. intros E. inversion E. reflexivity.
  - destruct (full_runSpeedTest_spec s) as (s' & E & L & O & P & Rest).
    exists s'. split_and; try tauto.
    revert E. vm_compute. intros E. inversion E. reflexivity.
Qed.

(** ** Counter and clock wrap-around *)

(** X9.  Pulse counting survives the overflow of the 32-bit counter: when
    the window marker equals the counter and [n] tachometer interrupts
    follow (fewer than 2^32), the delta the next window update computes is
    exactly [n], also when the counter wrapped past 2^32 - 1 to 0 in
    between. *)
Theorem X9_delta_across_overflow :
  (forall s n,
     U32.in_range (Compact.tachCount s) ->
     Compact.lastCount s = Compact.tachCount s ->
     Z.of_nat n < U32.modulus ->
     window_delta (Nat.iter n Compact.tachISR s) = Z.of_nat n) /\
  (forall s n,
     U32.in_range (Full.tachPulseCount s) ->
     Full.lastPulseCount s = Full.tachPulseCount s ->
     Z.of_nat n < U32.modulus ->
     full_window_delta (Nat.iter n Full.tachISR s) = Z.of_nat n).
Proof.
  split; intros s n Hr Hm Hn.
  - destruct (compact_tachISR_iter n s Hr) as (Ft & Fl & _).
    unfold window_delta. rewrite Ft, Fl, Hm.
    apply (u32_elapsed (Compact.tachCount s) (Z.of_nat n) Hr). lia.
  - destruct (full_tachISR_iter n s Hr) as (Ft & Fl & _).
    unfold full_window_delta. rewrite Ft, Fl, Hm.
    apply (u32_elapsed (Full.tachPulseCount s) (Z.of_nat n) Hr). lia.
Qed.

Lemma X9_delta_across_overflow_witness :
  Compact.tachCount
    (Nat.iter 3 Compact.tachISR
       (Compact.set_lastCount 4294967295
          (Compact.set_tachCount 4294967295 Compact.power_on))) = 2 /\
  window_delta
    (Nat.iter 3 Compact.tachISR
       (Compact.set_lastCount 4294967295
          (Compact.set_tachCount 4294967295 Compact.power_on)))
  = Z.of_nat 3.
Proof.
  split; [vm_compute; reflexivity|].
  apply (proj1 X9_delta_across_overflow).
  - unfold U32.in_range, U32.modulus. simpl. lia.
  - reflexivity.
  - unfold U32.modulus. simpl. lia.
Defined.

(** X10.  The timers survive the roll-over of [millis()].  If the clock
    reads [d] milliseconds (fewer than 2^32) after the stored time, modulo
    2^32, then [updateRPM] updates exactly when [d >= 1000], and the input
    check of the compact sketch accepts a sample exactly when it differs
    from the level and [d > 100] (in the four-level sketch [d > 50]); it
    makes no difference whether the clock wrapped in between. *)
Theorem X10_timers_across_rollover :
  (forall s d,
     U32.in_range (Compact.lastRPMTime s) -> 0 <= d < U32.modulus ->
     (1000 <= d ->
      Compact.lastRPMTime
        (Compact.updateRPM (U32.add (Compact.lastRPMTime s) d) s)
      = U32.add (Compact.lastRPMTime s) d /\
      Compact.rpm (Compact.updateRPM (U32.add (Compact.lastRPMTime s) d) s)
      = rpmOf (window_delta s)) /\
     (d < 1000 ->
      Compact.updateRPM (U32.add (Compact.lastRPMTime s) d) s = s)) /\
  (forall s d digitalRead,
     U32.in_range (Compact.lastChange s) -> 0 <= d < U32.modulus ->
     accepted (U32.add (Compact.lastChange s) d) digitalRead s
     = negb (Compact.readSpeedLevel digitalRead =? Compact.speedLevel s)
       && (100 <? d)) /\
  (forall mode s d digitalRead analogRead,
     U32.in_range (Full.lastSpeedChange s) -> 0 <= d < U32.modulus ->
     full_accepted mode (U32.add (Full.lastSpeedChange s) d)
       digitalRead analogRead s
     = negb (Full.readThermadorSpeed mode digitalRead analogRead
             =? Full.currentSpeedLevel s)
       && (50 <? d)).
Proof.
  split; [|split].
  - intros s d Hr Hd.
    pose proof (u32_elapsed _ _ Hr Hd) as He.
    split; intros H.
    + unfold Compact.updateRPM.
      rewrite (compact_updateRPM_due 0 _ s) by (rewrite He; exact H).
      split; reflexivity.
    + apply compact_updateRPM_early. rewrite He. exact H.
  - intros s d digitalRead Hr Hd. unfold accepted.
    rewrite (u32_elapsed _ _ Hr Hd). reflexivity.
  - intros mode s d digitalRead analogRead Hr Hd. unfold full_accepted.
    rewrite (u32_elapsed _ _ Hr Hd). reflexivity.
Qed.

Lemma X10_timers_across_rollover_witness :
  Compact.lastRPMTime
    (Compact.updateRPM 704 (Compact.set_lastRPMTime 4294967000 tach_100))
  = 704 /\
  accepted 50 (assert_pins [Compact.SPEED1_PIN])
    (Compact.set_lastChange 4294967246 Compact.power_on) = false.
Proof.
  split.
  - destruct (proj1 X10_timers_across_rollover
                (Compact.set_lastRPMTime 4294967000 tach_100) 1000)
      as (Hdue & _).
    + unfold U32.in_range, U32.modulus. simpl. lia.
    + unfold U32.modulus. simpl. lia.
    + destruct Hdue as (A & _); [lia|]. exact A.
  - assert (Hr : U32.in_range
                   (Compact.lastChange
                      (Compact.set_lastChange 4294967246 Compact.power_on)))
      by (unfold U32.in_range, U32.modulus; simpl; lia).
    assert (Hd : 0 <= 100 < U32.modulus)
      by (unfold U32.modulus; simpl; lia).
    exact (proj1 (proj2 X10_timers_across_rollover)
             (Compact.set_lastChange 4294967246 Compact.power_on) 100
             (assert_pins [Compact.SPEED1_PIN]) Hr Hd).
Defined.

(** ** How the passes of the loop compose *)

Lemma u32_sub_diag (t : Z) : U32.sub t t = 0.
Proof. unfold U32.sub, U32.wrap. rewrite Z.sub_diag. reflexivity. Qed.

Lemma compact_checkInputs_settled (now : Z) (digitalRead : Z -> bool)
    (s s1 : Compact.State) :
  Compact.checkInputs now digitalRead s = Some s1 ->
  sampleDue now s1 = false.
Proof.
  intros E.
  assert (Hnow : forall t, Compact.lastUpdate t = now ->
                           sampleDue now t = false).
  { intros t Ht. unfold sampleDue. rewrite Ht, u32_sub_diag. reflexivity. }
  destruct (sampleDue now s) eqn:Hdue.
  - destruct (accepted now digitalRead s) eqn:Hacc.
    + destruct (compact_checkInputs_change now digitalRead s Hdue Hacc)
        as (d & speed & _ & _ & E').
      rewrite E in E'. inversion E'; subst s1. apply Hnow.
      match goal with |- context [Compact.updateRPM now ?t] =>
        destruct (compact_updateRPM_frame now t) as (_ & _ & _ & F & _) end.
      rewrite F. reflexivity.
    + rewrite (compact_checkInputs_hold now digitalRead s Hdue Hacc) in E.
      inversion E; subst s1. apply Hnow.
      destruct (compact_updateRPM_frame now (Compact.set_lastUpdate now s))
        as (_ & _ & _ & F & _).
      rewrite F. reflexivity.
  - rewrite (compact_checkInputs_skip now digitalRead s Hdue) in E.
    inversion E; subst s1. exact Hdue.
Qed.

Lemma full_checkInputs_settled (mode now : Z) (digitalRead : Z -> bool)
    (analogRead : Z -> Z) (s s1 : Full.State) :
  Full.checkInputs mode now digitalRead analogRead s = Some s1 ->
  full_sampleDue now s1 = false.
Proof.
  intros E.
  assert (Hnow : forall t, Full.lastUpdate t = now ->
                           full_sampleDue now t = false).
  { intros t Ht. unfold full_sampleDue. rewrite Ht, u32_sub_diag.
    reflexivity. }
  destruct (full_sampleDue now s) eqn:Hdue.
  - destruct (full_accepted mode now digitalRead analogRead s) eqn:Hacc.
    + destruct (full_checkInputs_change mode now digitalRead analogRead s
                  Hdue Hacc) as (d & speed & _ & _ & E').
      rewrite E in E'. inversion E'; subst s1. apply Hnow.
      match goal with |- context [Full.updateRPM now ?t] =>
        destruct (full_updateRPM_frame now t) as (_ & _ & F & _) end.
      rewrite F. reflexivity.
    + rewrite (full_checkInputs_hold mode now digitalRead analogRead s
                 Hdue Hacc) in E.
      inversion E; subst s1. apply Hnow.
      destruct (full_updateRPM_frame now (Full.set_lastUpdate now s))
        as (_ & _ & F & _).
      rewrite F. reflexivity.
  - rewrite (full_checkInputs_skip mode now digitalRead analogRead s Hdue)
      in E.
    inversion E; subst s1. exact Hdue.
Qed.

(** X11.  A pass without serial input is idempotent at a given clock
    reading: running the loop again at the same millisecond with the same
    pins changes nothing, because the pass has moved every timer it
    consulted to that reading. *)
Theorem X11_pass_idempotent :
  (forall now digitalRead s s',
     Compact.loop now digitalRead None s = Some s' ->
     Compact.loop now digitalRead None s' = Some s') /\
  (forall mode now digitalRead analogRead s s',
     Full.loop mode now digitalRead analogRead None s = Some s' ->
     Full.loop mode now digitalRead analogRead None s' = Some s').
Proof.
  split.
  - intros now digitalRead s s' E.
    rewrite compact_loop_unfold in E.
    destruct (Compact.checkInputs now digitalRead s) as [s1|] eqn:E1;
      [|discriminate E].
    cbv beta iota delta [bind Compact.handleCommands] in E.
    set (s2 := if 3000 <? U32.sub now (Compact.lastStatus s1)
               then Compact.set_lastStatus now s1 else s1) in E.
    injection E as Hs'. subst s'.
    pose proof (compact_checkInputs_settled _ _ _ _ E1) as Hset.
    assert (Hdue : sampleDue now s2 = false).
    { subst s2. destruct (3000 <? _); exact Hset. }
    rewrite compact_loop_unfold.
    rewrite (compact_checkInputs_skip now digitalRead s2 Hdue).
    cbv beta iota delta [bind Compact.handleCommands].
    f_equal. subst s2.
    destruct (3000 <? U32.sub now (Compact.lastStatus s1)) eqn:C.
    + simpl. rewrite u32_sub_diag. reflexivity.
    + rewrite C. reflexivity.
  - intros mode now digitalRead analogRead s s' E.
    rewrite full_loop_unfold in E.
    destruct (Full.checkInputs mode now digitalRead analogRead s)
      as [s1|] eqn:E1; [|discriminate E].
    cbv beta iota delta [bind Full.handleSerialCommands] in E.
    set (s2 := if 5000 <? U32.sub now (Full.lastStatusPrint s1)
               then Full.set_lastStatusPrint now s1 else s1) in E.
    injection E as Hs'. subst s'.
    pose proof (full_checkInputs_settled _ _ _ _ _ _ E1) as Hset.
    assert (Hdue : full_sampleDue now s2 = false).
    { subst s2. destruct (5000 <? _); exact Hset. }
    rewrite full_loop_unfold.
    rewrite (full_checkInputs_skip mode now digitalRead analogRead s2 Hdue).
    cbv beta iota delta [bind Full.handleSerialCommands].
    f_equal. subst s2.
    destruct (5000 <? U32.sub now (Full.lastStatusPrint s1)) eqn:C.
    + simpl. rewrite u32_sub_diag. reflexivity.
    + rewrite C. reflexivity.
Qed.

Lemma X11_pass_idempotent_witness :
  exists s',
    Compact.loop 200 (assert_pins [Compact.SPEED1_PIN]) None Compact.power_on
    = Some s' /\
    Compact.speedLevel s' = 1 /\
    Compact.loop 200 (assert_pins [Compact.SPEED1_PIN]) None s' = Some s'.
Proof.
  assert (E : exists s',
            Compact.loop 200 (assert_pins [Compact.SPEED1_PIN]) None
              Compact.power_on = Some s' /\ Compact.speedLevel s' = 1).
  { eexists. split; [vm_compute; reflexivity | reflexivity]. }
  destruct E as (s' & E & L).
  exists s'. split_and; try assumption.
  apply (proj1 X11_pass_idempotent 200 _ Compact.power_on s' E).
Defined.

(** X12.  Only commands change the mode of the compact sketch: if an
    event changes [manualMode], the event is a loop pass whose serial line
    is a speed command (and the sketch is now in manual mode) or "auto"
    (and it is now in automatic mode).  Tachometer edges, sampling, the
    status timer, "test", "status", "help" and unknown lines never change
    the mode. *)
Theorem X12_mode_changes_by_command_only :
  forall s ev s',
    Compact.step s ev = Some s' ->
    Compact.manualMode s' <> Compact.manualMode s ->
    exists now digitalRead cmd,
      ev = Compact.Pass now digitalRead (Some cmd) /\
      ((exists n, commandLevel cmd = Some n) /\
       Compact.manualMode s' = true
       \/
       cmd = "auto"%string /\ Compact.manualMode s' = false).
Proof.
  intros s ev s' E Hne.
  destruct ev as [|now digitalRead serial]; simpl in E.
  - inversion E; subst s'. simpl in Hne. contradiction.
  - rewrite compact_loop_unfold in E.
    destruct (compact_checkInputs_spec now digitalRead s)
      as (s1 & E1 & M1 & _).
    rewrite E1 in E. cbv beta iota delta [bind] in E.
    set (s2 := if 3000 <? U32.sub now (Compact.lastStatus s1)
               then Compact.set_lastStatus now s1 else s1) in E.
    assert (M2 : Compact.manualMode s2 = Compact.manualMode s).
    { subst s2. rewrite <- M1. destruct (3000 <? _); reflexivity. }
    destruct (compact_handleCommands_cases serial s2)
      as [H|[(cmd & n & Hc & Hn & H)|[(Hc & H)|(Hc & H)]]];
      rewrite H in E.
    + inversion E; subst s'. rewrite M2 in Hne. contradiction.
    + destruct (compact_manualCommand_spec n s2 (commandLevel_range _ _ Hn))
        as (s3 & d & E3 & _ & _ & M3 & _).
      rewrite E3 in E. inversion E; subst s3.
      exists now, digitalRead, cmd. split; [rewrite Hc; reflexivity|].
      left. split; [exists n; exact Hn | exact M3].
    + inversion E; subst s'.
      exists now, digitalRead, "auto"%string.
      split; [rewrite Hc; reflexivity|]. right. split; reflexivity.
    + destruct (compact_runTest_spec s2) as (s3 & E3 & _ & _ & _ & M3 & _).
      rewrite E3 in E. inversion E; subst s3.
      rewrite M3, M2 in Hne. contradiction.
Qed.

Lemma X12_mode_changes_by_command_only_witness :
  exists s' now digitalRead cmd,
    Compact.step Compact.power_on
      (Compact.Pass 100 released (Some "max"%string)) = Some s' /\
    Compact.Pass 100 released (Some "max"%string)
    = Compact.Pass now digitalRead (Some cmd) /\
    ((exists n, commandLevel cmd = Some n) /\ Compact.manualMode s' = true
     \/ cmd = "auto"%string /\ Compact.manualMode s' = false).
Proof.
  assert (E : exists s',
            Compact.step Compact.power_on
              (Compact.Pass 100 released (Some "max"%string)) = Some s' /\
            Compact.manualMode s' = true).
  { eexists. split; [vm_compute; reflexivity | reflexivity]. }
  destruct E as (s' & E & M).
  destruct (X12_mode_changes_by_command_only Compact.power_on _ s' E)
    as (now & digitalRead & cmd & H).
  - rewrite M. simpl. discriminate.
  - exists s', now, digitalRead, cmd. split; [exact E | exact H].
Defined.

(** X13.  A pass without serial input writes the compare register only
    when it changes the level: either level and write history are both
    unchanged, or the level changed and exactly one value, the one now in
    OCR1A, was written. *)
Theorem X13_write_only_on_change :
  (forall now digitalRead s s',
     Compact.loop now digitalRead None s = Some s' ->
     (Compact.speedLevel s' = Compact.speedLevel s /\
      Compact.pwm_log s' = Compact.pwm_log s /\
      Compact.OCR1A s' = Compact.OCR1A s)
     \/
     (Compact.speedLevel s' <> Compact.speedLevel s /\
      Compact.pwm_log s' = Compact.OCR1A s' :: Compact.pwm_log s)) /\
  (forall mode now digitalRead analogRead s s',
     Full.loop mode now digitalRead analogRead None s = Some s' ->
     (Full.currentSpeedLevel s' = Full.currentSpeedLevel s /\
      Full.pwm_log s' = Full.pwm_log s /\
      Full.OCR1A s' = Full.OCR1A s)
     \/
     (Full.currentSpeedLevel s' <> Full.currentSpeedLevel s /\
      Full.pwm_log s' = Full.OCR1A s' :: Full.pwm_log s)).
Proof.
  split.
  - intros now digitalRead s s' E.
    rewrite compact_loop_unfold in E.
    destruct (compact_checkInputs_spec now digitalRead s)
      as (s1 & E1 & _ & _ & _ & H1).
    rewrite E1 in E. cbv beta iota delta [bind Compact.handleCommands] in E.
    injection E as Hs'. subst s'.
    destruct H1 as [(A & B & C & _)|(_ & Hacc & A & _ & d & _ & _ & O & P)].
    + left. destruct (3000 <? _); simpl; split_and; assumption.
    + right. unfold accepted in Hacc. apply andb_true_iff in Hacc.
      destruct Hacc as (Hne & _).
      apply negb_true_iff, Z.eqb_neq in Hne.
      destruct (3000 <? _); simpl; (split; [congruence|]);
        rewrite P, O; reflexivity.
  - intros mode now digitalRead analogRead s s' E.
    rewrite full_loop_unfold in E.
    destruct (full_checkInputs_spec mode now digitalRead analogRead s)
      as (s1 & E1 & _ & _ & H1).
    rewrite E1 in E.
    cbv beta iota delta [bind Full.handleSerialCommands] in E.
    injection E as Hs'. subst s'.
    destruct H1 as [(A & B & C & _)|(_ & Hacc & A & _ & d & _ & _ & O & P)].
    + left. destruct (5000 <? _); simpl; split_and; assumption.
    + right. unfold full_accepted in Hacc. apply andb_true_iff in Hacc.
      destruct Hacc as (Hne & _).
      apply negb_true_iff, Z.eqb_neq in Hne.
      destruct (5000 <? _); simpl; (split; [congruence|]);
        rewrite P, O; reflexivity.
Qed.

Lemma X13_write_only_on_change_witness :
  exists s',
    Compact.loop 200 (assert_pins [Compact.SPEED1_PIN]) None Compact.power_on
    = Some s' /\
    (Compact.speedLevel s' = Compact.speedLevel Compact.power_on /\
     Compact.pwm_log s' = Compact.pwm_log Compact.power_on /\
     Compact.OCR1A s' = Compact.OCR1A Compact.power_on
     \/
     Compact.speedLevel s' <> Compact.speedLevel Compact.power_on /\
     Compact.pwm_log s' = Compact.OCR1A s' :: Compact.pwm_log Compact.power_on).
Proof.
  assert (E : exists s',
            Compact.loop 200 (assert_pins [Compact.SPEED1_PIN]) None
              Compact.power_on = Some s').
  { eexists. vm_compute. reflexivity. }
  destruct E as (s' & E).
  exists s'. split; [exact E|].
  apply (proj1 X13_write_only_on_change 200 _ Compact.power_on s' E).
Defined.

(** X14.  The output follows the input.  In automatic operation, a pass
    that finds more than 50 ms elapsed since the last sample and more than
    the debounce interval (100 ms, 50 ms in the four-level sketch) elapsed
    since the last accepted change leaves the level equal to the sampled
    level and OCR1A equal to the duty of the sampled level, whether or not
    the sample differs from the old level. *)
Theorem X14_output_follows_input :
  (forall now digitalRead s,
     Compact.reachable s ->
     Compact.manualMode s = false ->
     50 < U32.sub now (Compact.lastUpdate s) ->
     100 < U32.sub now (Compact.lastChange s) ->
     exists s', Compact.checkInputs now digitalRead s = Some s' /\
       Compact.speedLevel s' = Compact.readSpeedLevel digitalRead /\
       Compact.toDuty (Compact.readSpeedLevel digitalRead)
       = Some (Compact.OCR1A s')) /\
  (forall mode now digitalRead analogRead s,
     Full.reachable mode s ->
     50 < U32.sub now (Full.lastUpdate s) ->
     Full.debounceDelay < U32.sub now (Full.lastSpeedChange s) ->
     exists s',
       Full.checkInputs mode now digitalRead analogRead s = Some s' /\
       Full.currentSpeedLevel s' =
         Full.readThermadorSpeed mode digitalRead analogRead /\
       Full.toDuty (Full.readThermadorSpeed mode digitalRead analogRead)
       = Some (Full.OCR1A s')).
Proof.
  split.
  - intros now digitalRead s Hr Hm Hu Hc.
    destruct (compact_reachable_inv s Hr) as (_ & Hd & _).
    assert (Hdue : sampleDue now s = true).
    { unfold sampleDue. rewrite Hm. apply andb_true_iff.
      split; [apply Z.ltb_lt; exact Hu | reflexivity]. }
    destruct (compact_checkInputs_spec now digitalRead s)
      as (s' & E & _ & _ & _ & H).
    exists s'. split; [exact E|].
    destruct H as [(A & B & _)|(_ & _ & A & _ & d & D & _ & O & _)].
    + destruct (accepted now digitalRead s) eqn:Hacc.
      * destruct (compact_checkInputs_change now digitalRead s Hdue Hacc)
          as (d & speed & D & _ & E').
        rewrite E in E'. inversion E'; subst s'.
        match goal with |- context [Compact.updateRPM now ?t] =>
          destruct (compact_updateRPM_frame now t)
            as (F1 & _ & _ & _ & F5 & _) end.
        rewrite F1, F5. simpl. split; [reflexivity | exact D].
      * unfold accepted in Hacc. apply andb_false_iff in Hacc.
        destruct Hacc as [Hsame|Hgap].
        -- apply negb_false_iff, Z.eqb_eq in Hsame.
           rewrite A, B. split; [symmetry; exact Hsame|].
           rewrite Hsame. exact Hd.
        -- apply Z.ltb_ge in Hgap. lia.
    + rewrite A in D. rewrite O. split; [exact A | exact D].
  - intros mode now digitalRead analogRead s Hr Hu Hc.
    destruct (full_reachable_inv mode s Hr) as (_ & Hd & _).
    assert (Hdue : full_sampleDue now s = true).
    { unfold full_sampleDue. apply Z.ltb_lt. exact Hu. }
    destruct (full_checkInputs_spec mode now digitalRead analogRead s)
      as (s' & E & _ & _ & H).
    exists s'. split; [exact E|].
    destruct H as [(A & B & _)|(_ & _ & A & _ & d & D & _ & O & _)].
    + destruct (full_accepted mode now digitalRead analogRead s) eqn:Hacc.
      * destruct (full_checkInputs_change mode now digitalRead analogRead s
                    Hdue Hacc) as (d & speed & D & _ & E').
        rewrite E in E'. inversion E'; subst s'.
        match goal with |- context [Full.updateRPM now ?t] =>
          destruct (full_updateRPM_frame now t)
            as (F1 & _ & _ & F4 & _) end.
        rewrite F1, F4. simpl. split; [reflexivity | exact D].
      * unfold full_accepted in Hacc. apply andb_false_iff in Hacc.
        destruct Hacc as [Hsame|Hgap].
        -- apply negb_false_iff, Z.eqb_eq in Hsame.
           rewrite A, B. split; [symmetry; exact Hsame|].
           rewrite Hsame. exact Hd.
        -- apply Z.ltb_ge in Hgap. lia.
    + rewrite A in D. rewrite O. split; [exact A | exact D].
Qed.

Lemma X14_output_follows_input_witness :
  exists s0 s',
    Compact.setup = Some s0 /\
    Compact.checkInputs 200 (assert_pins [Compact.SPEED4_PIN]) s0 = Some s' /\
    Compact.speedLevel s' =
      Compact.readSpeedLevel (assert_pins [Compact.SPEED4_PIN]) /\
    Compact.toDuty (Compact.readSpeedLevel (assert_pins [Compact.SPEED4_PIN]))
    = Some (Compact.OCR1A s').
Proof.
  assert (E : exists s0, Compact.setup = Some s0 /\
                Compact.manualMode s0 = false /\
                Compact.lastUpdate s0 = 0 /\ Compact.lastChange s0 = 0).
  { eexists. split; [reflexivity|]. split_and; reflexivity. }
  destruct E as (s0 & E0 & M & U & C).
  destruct (proj1 X14_output_follows_input 200
              (assert_pins [Compact.SPEED4_PIN]) s0)
    as (s' & E & L & D).
  - exists s0, []. split; [exact E0 | reflexivity].
  - exact M.
  - rewrite U. vm_compute. reflexivity.
  - rewrite C. vm_compute. reflexivity.
  - exists s0, s'. split_and; assumption.
Defined.

(** X15.  The state updates of a serial command never touch the timers
    or the tachometer bookkeeping: whatever the line, where the updates
    are defined, [lastChange], [lastUpdate], the pulse counter, the RPM
    estimate and the window markers are left as they were (so a command
    does not restart the debounce interval).  A line that is not a speed
    command, "auto" or "test" updates nothing in the compact sketch.
    What the commands print, and whether the conversions in those prints
    are defined, is not part of the statement. *)
Theorem X15_commands_leave_timers :
  (forall serial s s',
     Compact.handleCommands serial s = Some s' ->
     Compact.lastChange s' = Compact.lastChange s /\
     Compact.lastUpdate s' = Compact.lastUpdate s /\
     Compact.tachCount s' = Compact.tachCount s /\
     Compact.rpm s' = Compact.rpm s /\
     Compact.lastCount s' = Compact.lastCount s /\
     Compact.lastRPMTime s' = Compact.lastRPMTime s) /\
  (forall serial s s', passive serial = true ->
     Compact.handleCommands serial s = Some s' -> s' = s) /\
  (forall serial s s',
     Full.handleSerialCommands serial s = Some s' ->
     Full.lastSpeedChange s' = Full.lastSpeedChange s /\
     Full.lastUpdate s' = Full.lastUpdate s /\
     Full.tachPulseCount s' = Full.tachPulseCount s /\
     Full.currentRPM s' = Full.currentRPM s /\
     Full.lastPulseCount s' = Full.lastPulseCount s /\
     Full.lastRPMUpdate s' = Full.lastRPMUpdate s).
Proof.
  split; [|split].
  - intros serial s s' H.
    destruct (compact_handleCommands_effect serial s)
      as (t & E & A & B & C & D & F & G & _).
    rewrite H in E. injection E as <-. split_and; assumption.
  - intros serial s s' P H.
    rewrite (compact_handleCommands_passive serial s P) in H.
    injection H as <-. reflexivity.
  - intros serial s s' H.
    destruct (full_handleSerialCommands_effect serial s)
      as (t & E & A & B & C & D & F & G & _).
    rewrite H in E. injection E as <-. split_and; assumption.
Qed.

Lemma X15_commands_leave_timers_witness :
  exists s',
    Compact.handleCommands (Some "high"%string) tach_100 = Some s' /\
    Compact.manualMode s' = true /\
    Compact.lastChange s' = Compact.lastChange tach_100 /\
    Compact.tachCount s' = 100.
Proof.
  eexists. split; [vm_compute; reflexivity|].
  split; [reflexivity|].
  destruct (proj1 X15_commands_leave_timers (Some "high"%string) tach_100 _
              eq_refl) as (A & _ & C & _).
  split; [exact A | exact C].
Defined.
